(** * JSW Paint Estimator: the browser client, embedded and verified

    The repository is the browser side of a paint estimator.  Forms collect
    room dimensions or media, post them to a backend and render the JSON that
    comes back.  This development embeds the parts of the scripts that decide
    behaviour: the reading of a response with its chains of [||] and [?.],
    the area-based dimension fallback, the confidence banding of the video
    page, the manual validator, the multi-wall payload, the floor-plan
    results and the upload list of the image page with its submit handlers.

    Numbers are IEEE 754 binary64 values, taken from the standard library's
    executable specification [SpecFloat]; JavaScript values are an inductive
    type; a [TypeError] is an explicit outcome of every property read and
    method call that can raise one.  Event handlers are functions on the
    state of a page, and an [async] handler is split where it awaits. *)

From Stdlib Require Import ZArith Bool String Ascii List Lia SpecFloat.
From stdpp Require Import base list strings pretty.

Open Scope string_scope.
Open Scope list_scope.
Open Scope nat_scope.
Set Warnings "-register-all".
Set Default Proof Using "Type".

(** ** Numbers: binary64 *)

Module JsNum.

Definition number := spec_float.

Definition prec : Z := 53.
Definition emax : Z := 1024.

Definition NaN : number := S754_nan.
Definition Infinity : number := S754_infinity false.
Definition zero : number := S754_zero false.

(** An integer literal, or an integer the engine turns into a Number. *)
Definition of_Z (z : Z) : number := binary_normalize prec emax z 0 false.
Definition of_nat (n : nat) : number := of_Z (Z.of_nat n).

Definition mul : number → number → number := SFmul prec emax.
Definition div : number → number → number := SFdiv prec emax.

(** A decimal literal [a / 10^k] of the source, correctly rounded. *)
Definition decimal (a : Z) (k : nat) : number := div (of_Z a) (of_Z (10 ^ Z.of_nat k)).

Definition is_nan (x : number) : bool :=
  match x with S754_nan => true | _ => false end.

Definition is_finite (x : number) : bool :=
  match x with S754_zero _ | S754_finite _ _ _ => true | _ => false end.

(** [x < y], [x <= y], [x > y], [x >= y] and [x === y] on Numbers: every
    comparison with NaN is false, and the two zeros are equal. *)
Definition lt (x y : number) : bool := SFltb x y.
Definition le (x y : number) : bool := SFleb x y.
Definition gt (x y : number) : bool := SFltb y x.
Definition ge (x y : number) : bool := SFleb y x.
Definition strict_eq (x y : number) : bool := SFeqb x y.

(** ToBoolean of a Number. *)
Definition truthy (x : number) : bool :=
  match x with S754_zero _ | S754_nan => false | _ => true end.

(** [Math.round]: the nearest integer, ties towards +Infinity; a result
    that rounds to zero keeps the sign of the argument. *)
Definition Math_round (x : number) : number :=
  match x with
  | S754_finite s m e =>
      if (0 <=? e)%Z then x
      else
        let den := (2 ^ (- e))%Z in
        let num := if s then Z.neg m else Z.pos m in
        let n := ((2 * num + den) / (2 * den))%Z in
        if (n =? 0)%Z then S754_zero s else of_Z n
  | _ => x
  end.

(** A binary64 value in canonical form. *)
Definition valid (x : number) : bool := valid_binary prec emax x.

(** Finite and below [2^k] in magnitude. *)
Definition below (k : Z) (x : number) : Prop :=
  match x with
  | S754_zero _ => True
  | S754_finite _ m e => (Z.pos (digits2_pos m) + e <= k)%Z
  | _ => False
  end.

Definition magnitude_below (k : Z) (x : number) : bool :=
  match x with
  | S754_zero _ => true
  | S754_finite _ m e => (Z.pos (digits2_pos m) + e <=? k)%Z
  | _ => false
  end.

(** Finite, canonical and below [2^k]. *)
Definition fin (k : Z) (x : number) : Prop := valid x = true ∧ below k x.

End JsNum.

Import JsNum.

(** ** JavaScript values and the operations the scripts apply to them *)

(** What [JSON.parse] can hand to the page, plus [undefined] for a property
    that is not there.  A string stands for its sequence of code units, one
    character each; an object lists its own properties, each key once. *)
Inductive value :=
| VUndefined
| VNull
| VBool (b : bool)
| VNum (n : number)
| VStr (s : string)
| VArr (xs : list value)
| VObj (fields : list (string * value)).

(** The only exception these scripts can raise on parsed JSON is a
    [TypeError]: a property read on [null] or [undefined], a call of
    something that is not a function, or the conversion to a string or a
    number of an object that has a key [toString] of its own. *)
Inductive outcome (A : Type) :=
| Ok (a : A)
| TypeError.
Arguments Ok {A} a.
Arguments TypeError {A}.

#[global] Instance outcome_ret : MRet outcome := λ A a, Ok a.
#[global] Instance outcome_bind : MBind outcome :=
  λ A B f m, match m with Ok a => f a | TypeError => TypeError end.

Section Js.

(** The engine's StringToNumber (the numeric reading of a string, as in
    ["12" > 0]).  It is a parameter: no property below depends on how a
    string converts. *)
Variable StringToNumber : string → number.

Fixpoint lookup_field (k : string) (fields : list (string * value)) : value :=
  match fields with
  | [] => VUndefined
  | (k', v) :: rest => if String.eqb k k' then v else lookup_field k rest
  end.

(** ToBoolean. *)
Definition truthy (v : value) : bool :=
  match v with
  | VUndefined | VNull => false
  | VBool b => b
  | VNum n => JsNum.truthy n
  | VStr s => negb (String.eqb s "")
  | VArr _ | VObj _ => true
  end.

(** [v == null]: the two values a property cannot be read from. *)
Definition nullish (v : value) : bool :=
  match v with VUndefined | VNull => true | _ => false end.

(** [a || b] where [b] has already been evaluated without effect. *)
Definition or (a b : value) : value := if truthy a then a else b.

(** [v.k] for a key [k] written in the source.  The keys the scripts read
    are plain identifiers; of those only [length] exists on arrays and
    strings, and none exists on numbers and booleans. *)
Definition get (v : value) (k : string) : outcome value :=
  match v with
  | VUndefined | VNull => TypeError
  | VObj fields => Ok (lookup_field k fields)
  | VArr xs => Ok (if String.eqb k "length" then VNum (of_nat (length xs)) else VUndefined)
  | VStr s => Ok (if String.eqb k "length" then VNum (of_nat (String.length s)) else VUndefined)
  | VBool _ | VNum _ => Ok VUndefined
  end.

(** [v?.k] *)
Definition get_opt (v : value) (k : string) : value :=
  match get v k with Ok x => x | TypeError => VUndefined end.

(** [v[i]] for a literal index [i]. *)
Definition get_index (v : value) (i : nat) : outcome value :=
  match v with
  | VUndefined | VNull => TypeError
  | VObj fields => Ok (lookup_field (pretty i) fields)
  | VArr xs => Ok (nth i xs VUndefined)
  | VStr s => Ok (match String.get i s with
                  | Some c => VStr (String c EmptyString)
                  | None => VUndefined
                  end)
  | VBool _ | VNum _ => Ok VUndefined
  end.

(** Whether an object has a key of its own. *)
Definition has_key (k : string) (fields : list (string * value)) : bool :=
  existsb (λ f, String.eqb f.1 k) fields.

(** ToPrimitive on what [JSON.parse] gives: whether a value can be turned
    into a string or into a number.  An object is turned into a primitive by
    its [toString] (the [valueOf] it inherits returns the object itself, and
    a key [valueOf] of its own holds no function and is passed over); it
    inherits [toString] unless it has a key of that name, and what a body
    holds under such a key is no function, so the conversion raises.  An
    array is turned into the string of its elements, each converted in its
    turn. *)
Fixpoint convertible (v : value) : bool :=
  match v with
  | VArr xs => forallb convertible xs
  | VObj fields => negb (has_key "toString" fields)
  | _ => true
  end.

(** A value that a template, an operator or a message converts: the value
    itself once the conversion has returned. *)
Definition converted (v : value) : outcome value :=
  if convertible v then Ok v else TypeError.

(** Whether [v.toLocaleString()] returns.  [null] and [undefined] have no
    methods; an object inherits a [toLocaleString] that calls its
    [toString], unless it has keys of these names; an array calls the
    method of each element that is not [null]. *)
Fixpoint localizable (v : value) : bool :=
  match v with
  | VUndefined | VNull => false
  | VArr xs => forallb (λ x, nullish x || localizable x) xs
  | VObj fields => negb (has_key "toLocaleString" fields) && negb (has_key "toString" fields)
  | _ => true
  end.

(** The engine's Number-to-string conversion. *)
Variable NumberToString : number → string.

(** ToString.  An array is its elements joined by commas, [null] among
    them as the empty string.  An object is [[object Object]] unless it has
    a [toString] of its own. *)
Fixpoint ToString (v : value) : outcome string :=
  match v with
  | VUndefined => mret "undefined"
  | VNull => mret "null"
  | VBool b => mret (if b then "true" else "false")
  | VNum n => mret (NumberToString n)
  | VStr s => mret s
  | VArr xs =>
      parts ← mapM (λ x, if nullish x then mret "" else ToString x) xs;
      mret (String.concat "," parts)
  | VObj fields =>
      if has_key "toString" fields then TypeError else mret "[object Object]"
  end.

(** The Number a value converts to when its conversion returns.  An array
    converts through its joined string: the empty array reads as the empty
    string, a one-element array as its element ([null] and [undefined] as
    the empty string), and any longer array has a comma in it, which no
    numeric literal has.  An object reads as [[object Object]], which is no
    numeric literal either.  A Number printed and read back is itself,
    except that [-0] prints as [0]. *)
Fixpoint numeric (v : value) : number :=
  match v with
  | VUndefined => NaN
  | VNull => zero
  | VBool b => if b then of_Z 1 else zero
  | VNum n => n
  | VStr s => StringToNumber s
  | VArr [] => zero
  | VArr [x] =>
      match x with
      | VUndefined | VNull => zero
      | VBool _ => NaN
      | VNum (S754_zero _) => zero
      | _ => numeric x
      end
  | VArr _ => NaN
  | VObj _ => NaN
  end.

(** ToNumber: an object or an array is turned into a primitive first, and
    the conversion raises when that cannot be done. *)
Definition ToNumber (v : value) : outcome number :=
  if convertible v then Ok (numeric v) else TypeError.

(** A reading of strings for closed instances: the properties below hold
    for every reading, and their instances take the one under which no
    string is numeric. *)
Definition unread : string → number := λ _, NaN.

(** [typeof v === 'number'] *)
Definition is_number (v : value) : bool :=
  match v with VNum _ => true | _ => false end.

(** The global [isNaN]. *)
Definition isNaN (v : value) : outcome bool :=
  n ← ToNumber v; mret (is_nan n).

(** [v > 0], [v === 0] and [a / b] on arbitrary values.  The comparison and
    the division convert their operands, the left one first; the strict
    equality converts nothing. *)
Definition gt_zero (v : value) : outcome bool :=
  n ← ToNumber v; mret (gt n zero).
Definition is_zero (v : value) : bool :=
  match v with VNum n => strict_eq n zero | _ => false end.
Definition divide (a b : value) : outcome number :=
  x ← ToNumber a; y ← ToNumber b; mret (div x y).

(** What a template shows in one slot. *)
Inductive shown :=
| Fixed (digits : nat) (n : number)   (* n.toFixed(digits) *)
| Plain (v : value)                   (* ${v} *)
| Sum (a b : value)                   (* ${a + b} *)
| Localized (v : value)               (* ${v.toLocaleString()} *)
| Text (s : string).

(** [v.toFixed(d)]: a method of Numbers only. *)
Definition toFixed (v : value) (d : nat) : outcome shown :=
  match v with
  | VNum n => Ok (Fixed d n)
  | _ => TypeError
  end.

(** [${v}], [${a + b}] and [${v.toLocaleString()}]: the slot, once the
    conversion it needs has returned. *)
Definition plain (v : value) : outcome shown :=
  _ ← converted v; mret (Plain v).
Definition sum (a b : value) : outcome shown :=
  _ ← converted a; _ ← converted b; mret (Sum a b).
Definition localized (v : value) : outcome shown :=
  if localizable v then Ok (Localized v) else TypeError.

(** [Object.keys(v)] raises on [null] and [undefined]; its result is only
    logged. *)
Definition Object_keys (v : value) : outcome unit :=
  match v with
  | VUndefined | VNull => TypeError
  | _ => Ok tt
  end.

End Js.

(** ** The image page: reading a response (image-estimation.js) *)

Module ImagePage.
Section Normalizer.

Variable StringToNumber : string → number.
#[local] Abbreviation gt_zero := (gt_zero StringToNumber).
#[local] Abbreviation divide := (divide StringToNumber).

(** [data.rooms && data.rooms.length > 0] *)
Definition has_rooms (rooms : value) : outcome bool :=
  if truthy rooms then n ← get rooms "length"; gt_zero n
  else mret false.

(** The object the dimensions are read from: the first room's
    [estimation.dimensions], or its [estimation], or the top-level
    [dimensions]; [{}] when none is there. *)
Definition dimensions (data : value) : outcome value :=
  rooms ← get data "rooms";
  multi ← has_rooms rooms;
  if (multi : bool) then
    firstRoom ← get_index rooms 0;
    estimation ← get firstRoom "estimation";
    mret (or (get_opt estimation "dimensions") (or estimation (VObj [])))
  else
    d ← get data "dimensions";
    mret (or d (VObj [])).

(** [data.total_paintable_area || data.area_calculation?.paintable_area] *)
Definition paintableArea (data : value) : outcome value :=
  a ← get data "total_paintable_area";
  if truthy a then mret a
  else c ← get data "area_calculation"; mret (get_opt c "paintable_area").

(** [data.total_paint_required || data.product_breakdown?.paint?.quantity] *)
Definition paintRequired (data : value) : outcome value :=
  a ← get data "total_paint_required";
  if truthy a then mret a
  else
    b ← get data "product_breakdown";
    mret (get_opt (get_opt b "paint") "quantity").

(** [data.total_cost || data.cost_breakdown?.total_cost] *)
Definition totalCost (data : value) : outcome value :=
  a ← get data "total_cost";
  if truthy a then mret a
  else c ← get data "cost_breakdown"; mret (get_opt c "total_cost").

(** [(data.rooms && data.rooms.length) || 1] *)
Definition roomCount (data : value) : outcome value :=
  rooms ← get data "rooms";
  if truthy rooms then n ← get rooms "length"; mret (or n (VNum (of_Z 1)))
  else mret (VNum (of_Z 1)).

Record dims := { length : value; width : value; height : value }.

Definition estimatedHeight : number := of_Z 10.

(** The side of a square room from the paintable area: the area of one
    wall, twice that over the height for the perimeter, half of it. *)
Definition estimatedSide (paintable count : value) : outcome number :=
  wallArea ← divide paintable count;
  let perimeter := div (mul wallArea (of_Z 2)) estimatedHeight in
  mret (div perimeter (of_Z 2)).

(** Lines 349 to 364: the three dimensions as the response gives them,
    [0] for one that is missing. *)
Definition read_dimensions (data : value) : outcome dims :=
  d ← dimensions data;
  l ← get d "length";
  w ← get d "width";
  h ← get d "height";
  mret {| length := or l (VNum zero);
          width := or w (VNum zero);
          height := or h (VNum zero) |}.

(** Whether lines 366 to 384 replace them: length and width are both [0]
    and a paintable area is known. *)
Definition fallback_fires (ds : dims) (paintable : value) : bool :=
  is_zero (length ds) && is_zero (width ds) && truthy paintable.

(** Lines 349 to 384: the dimensions read from the response or, when the
    fallback fires, estimated from the area. *)
Definition resolve_dimensions (data : value) : outcome dims :=
  ds ← read_dimensions data;
  pa ← paintableArea data;
  if fallback_fires ds pa then
    count ← roomCount data;
    side ← estimatedSide pa count;
    mret {| length := VNum side; width := VNum side; height := VNum estimatedHeight |}
  else mret ds.

(** [x > 0 ? x.toFixed(1) : 'Auto'] *)
Definition show_dimension (x : value) : outcome shown :=
  positive ← gt_zero x;
  if (positive : bool) then toFixed x 1 else mret (Text "Auto").

(** The slots of the result template. *)
Record view := {
  shown_paintable_area : shown;
  shown_paint_required : shown;
  shown_length : shown;
  shown_width : shown;
  shown_height : shown;
  shown_total_cost : shown
}.

(** What the function leaves behind: the resolved dimensions and the
    rendered slots. *)
Record result := { resolved : dims; rendered : view }.

(** [const data = response.data || response] *)
Definition unwrap (response : value) : outcome value :=
  d ← get response "data";
  mret (or d response).

(** [displayResults(response)].  [container] tells whether the page has a
    results container; without one the function returns at once. *)
Definition displayResults (container : bool) (response : value) : outcome (option result) :=
  if negb container then mret None
  else
    data ← unwrap response;
    _ ← Object_keys data;
    ds ← resolve_dimensions data;
    pa ← paintableArea data;
    area ← toFixed (or pa (VNum zero)) 1;
    pr ← paintRequired data;
    paint ← toFixed (or pr (VNum zero)) 2;
    sl ← show_dimension (length ds);
    sw ← show_dimension (width ds);
    sh ← show_dimension (height ds);
    tc ← totalCost data;
    cost ← toFixed (or tc (VNum zero)) 0;
    mret (Some {| resolved := ds;
                  rendered := {| shown_paintable_area := area;
                                 shown_paint_required := paint;
                                 shown_length := sl;
                                 shown_width := sw;
                                 shown_height := sh;
                                 shown_total_cost := cost |} |}).

End Normalizer.
End ImagePage.

(** ** The video page: reading a response (the script of the video page) *)

Module VideoPage.

(** One band of the confidence card: the level, the colour of the score and
    the expected error. *)
Inductive expected_error :=
| Measured (errorPct : number)   (* `±${errorPct.toFixed(1)}%` *)
| Typical (s : string).

Record band := {
  confidenceLevel : string;
  confidenceColor : string;
  expectedError : expected_error
}.

(** The branch on [errorPct], lines 281 to 293. *)
Definition variance_band (errorPct : number) : band :=
  if le errorPct (of_Z 5) then
    {| confidenceLevel := "Excellent"; confidenceColor := "#10b981";
       expectedError := Measured errorPct |}
  else if le errorPct (of_Z 8) then
    {| confidenceLevel := "Good"; confidenceColor := "#3b82f6";
       expectedError := Measured errorPct |}
  else if le errorPct (of_Z 15) then
    {| confidenceLevel := "Medium"; confidenceColor := "#eab308";
       expectedError := Measured errorPct |}
  else
    {| confidenceLevel := "Low"; confidenceColor := "#ef4444";
       expectedError := Measured errorPct |}.

(** The branch on [confidencePercent], lines 294 to 314. *)
Definition percent_band (confidencePercent : number) : band :=
  if ge confidencePercent (of_Z 90) then
    {| confidenceLevel := "Very High"; confidenceColor := "#10b981";
       expectedError := Typical "±5%" |}
  else if ge confidencePercent (of_Z 75) then
    {| confidenceLevel := "High"; confidenceColor := "#3b82f6";
       expectedError := Typical "±10%" |}
  else if ge confidencePercent (of_Z 60) then
    {| confidenceLevel := "Medium"; confidenceColor := "#eab308";
       expectedError := Typical "±15%" |}
  else if ge confidencePercent (of_Z 40) then
    {| confidenceLevel := "Low"; confidenceColor := "#f97316";
       expectedError := Typical "±20%" |}
  else
    {| confidenceLevel := "Very Low"; confidenceColor := "#ef4444";
       expectedError := Typical "±30%" |}.

(** [method.replace(/_/g, ' ').replace(/\b\w/g, l => l.toUpperCase())] on a
    string: underscores become spaces, then every word character that
    starts a word is put in upper case. *)
Definition is_word_char (c : ascii) : bool :=
  let n := nat_of_ascii c in
  (((48 <=? n) && (n <=? 57)) || ((65 <=? n) && (n <=? 90))
   || ((97 <=? n) && (n <=? 122)) || (n =? 95))%nat.

Definition toUpperCase (c : ascii) : ascii :=
  let n := nat_of_ascii c in
  if ((97 <=? n) && (n <=? 122))%nat then ascii_of_nat (n - 32) else c.

Fixpoint underscores_to_spaces (s : string) : string :=
  match s with
  | EmptyString => EmptyString
  | String c rest =>
      String (if Ascii.eqb c "_"%char then " "%char else c) (underscores_to_spaces rest)
  end.

Fixpoint capitalize_words (inside_word : bool) (s : string) : string :=
  match s with
  | EmptyString => EmptyString
  | String c rest =>
      String (if is_word_char c && negb inside_word then toUpperCase c else c)
             (capitalize_words (is_word_char c) rest)
  end.

Definition methodDisplay (method : value) : outcome string :=
  match method with
  | VStr s => Ok (capitalize_words false (underscores_to_spaces s))
  | _ => TypeError
  end.

Section Normalizer.

Variable StringToNumber : string → number.
#[local] Abbreviation gt_zero := (gt_zero StringToNumber).
#[local] Abbreviation isNaN := (isNaN StringToNumber).
#[local] Abbreviation ToNumber := (ToNumber StringToNumber).

(** [data.dimensions || data.room_dimensions ||
     data.dimension_analysis?.dimensions || {}] *)
Definition dimensions (data : value) : outcome value :=
  a ← get data "dimensions";
  b ← get data "room_dimensions";
  c ← get data "dimension_analysis";
  mret (or a (or b (or (get_opt c "dimensions") (VObj [])))).

(** [data.confidence || data.detection_confidence || {}] *)
Definition confidence (data : value) : outcome value :=
  a ← get data "confidence";
  b ← get data "detection_confidence";
  mret (or a (or b (VObj []))).

(** [confidence.overall_confidence || confidence || 0] *)
Definition rawConfidence (data : value) : outcome value :=
  c ← confidence data;
  o ← get c "overall_confidence";
  mret (or o (or c (VNum zero))).

(** Lines 254 to 264: the overall confidence, with [0.90] or [0.70] in
    place of a value that is NaN or not of type number.  [isNaN] is called
    first and converts its argument. *)
Definition overallConfidence (data : value) : outcome value :=
  raw ← rawConfidence data;
  nan ← isNaN raw;
  if nan || negb (is_number raw) then
    v ← get data "vision_api_result";
    mret (VNum (if truthy (get_opt v "used") then decimal 90 2 else decimal 70 2))
  else mret raw.

(** [Math.round(overallConfidence * 100)] *)
Definition confidencePercent (data : value) : outcome number :=
  oc ← overallConfidence data;
  n ← ToNumber oc;
  mret (Math_round (mul n (of_Z 100))).

(** [(dimensions.variance || {}).error_percentage] *)
Definition error_percentage (data : value) : outcome value :=
  d ← dimensions data;
  v ← get d "variance";
  get (or v (VObj [])) "error_percentage".

(** [v !== undefined] *)
Definition defined (v : value) : bool :=
  match v with VUndefined => false | _ => true end.

(** Lines 270 to 314: the band shown on the confidence card.  With an
    error percentage in the response its [toFixed] is called first, then it
    is compared; without one the percentage decides. *)
Definition confidenceBand (data : value) : outcome band :=
  pct ← confidencePercent data;
  errorPct ← error_percentage data;
  if defined errorPct then
    _ ← toFixed errorPct 1;
    e ← ToNumber errorPct;
    mret (variance_band e)
  else mret (percent_band pct).

(** [a || b || c || 0] over values already read. *)
Definition first_truthy (candidates : list value) (default : value) : value :=
  foldr or default candidates.

(** [data.area_calculation?.paintable_area || data.total_paintable_area ||
     data.total_area || 0] *)
Definition totalArea (data : value) : outcome value :=
  a ← get data "area_calculation";
  b ← get data "total_paintable_area";
  c ← get data "total_area";
  mret (first_truthy [get_opt a "paintable_area"; b; c] (VNum zero)).

(** [data.product_breakdown?.paint?.quantity ||
     data.total_paint_required_liters || data.total_paint_liters || 0] *)
Definition paintNeeded (data : value) : outcome value :=
  a ← get data "product_breakdown";
  b ← get data "total_paint_required_liters";
  c ← get data "total_paint_liters";
  mret (first_truthy [get_opt (get_opt a "paint") "quantity"; b; c] (VNum zero)).

(** [data.video_analysis?.frames_analyzed || data.frame_count ||
     data.metadata?.frame_count || 0] *)
Definition framesAnalyzed (data : value) : outcome value :=
  a ← get data "video_analysis";
  b ← get data "frame_count";
  c ← get data "metadata";
  mret (first_truthy [get_opt a "frames_analyzed"; b; get_opt c "frame_count"] (VNum zero)).

(** [data.cost_breakdown?.total_cost || data.total_cost || 0] *)
Definition totalCost (data : value) : outcome value :=
  a ← get data "cost_breakdown";
  b ← get data "total_cost";
  mret (first_truthy [get_opt a "total_cost"; b] (VNum zero)).

(** [dimensions.method || data.estimation_mode || 'unknown'] *)
Definition method (data : value) : outcome value :=
  d ← dimensions data;
  a ← get d "method";
  b ← get data "estimation_mode";
  mret (first_truthy [a; b] (VStr "unknown")).

(** [data.detection_results || data.detections_summary || {}] *)
Definition detectionResults (data : value) : outcome value :=
  a ← get data "detection_results";
  b ← get data "detections_summary";
  mret (first_truthy [a; b] (VObj [])).

(** [detectionResults.detected_doors || detectionResults.unique_doors ||
     data.aggregated_counts?.doors || 0], and the same for windows. *)
Definition detected (kind : string) (data : value) : outcome value :=
  r ← detectionResults data;
  a ← get r ("detected_" +:+ kind);
  b ← get r ("unique_" +:+ kind);
  c ← get data "aggregated_counts";
  mret (first_truthy [a; b; get_opt c kind] (VNum zero)).

(** [typeof x === 'number' ? x.toFixed(1) : x] *)
Definition show_dimension (x : value) : outcome shown :=
  if is_number x then toFixed x 1 else plain x.

(** [x > 0 ? x.toFixed(d) : placeholder] *)
Definition show_positive (x : value) (d : nat) (placeholder : string) : outcome shown :=
  positive ← gt_zero x;
  if (positive : bool) then toFixed x d else mret (Text placeholder).

(** The argument of [window.manualModal.show]. *)
Record manual_request := {
  request_confidence : value;
  request_reason : value;
  request_currentEstimate : value
}.

(** A parameter of [show] with its default, which stands in for
    [undefined] only. *)
Definition defaulted (v default : value) : value :=
  match v with VUndefined => default | _ => v end.

(** [window.manualModal.show(request)] (manual-input-modal.js), as far as
    it can raise: the reason is written as the text of the message, the
    confidence is multiplied by [100], and a height of the current estimate
    that is truthy is shown with [toFixed]. *)
Definition modal_show (request : manual_request) : outcome unit :=
  let confidence := defaulted (request_confidence request) (VNum zero) in
  let reason := defaulted (request_reason request)
                  (VStr "Low confidence in automated estimation") in
  let currentEstimate := defaulted (request_currentEstimate request) VNull in
  _ ← converted reason;
  _ ← ToNumber confidence;
  if truthy currentEstimate then
    height ← get currentEstimate "height";
    if truthy height then _ ← toFixed height 1; mret tt else mret tt
  else mret tt.

(** Lines 222 to 230: the modal opens when the response asks for manual
    input and the page has a modal. *)
Definition manual_input (manualModal : bool) (data : value) : outcome (option manual_request) :=
  r ← get data "manual_input_request";
  if truthy (get_opt r "needs_manual_input") && manualModal then
    c ← get r "confidence_score";
    m ← get r "reason";
    e ← get r "current_estimates";
    let request :=
      {| request_confidence := or c (VNum zero);
         request_reason := or m (VStr "Low confidence in automated estimation");
         request_currentEstimate := or e (VObj []) |} in
    _ ← modal_show request;
    mret (Some request)
  else mret None.

(** The slots of the result template. *)
Record view := {
  shown_length : shown;
  shown_width : shown;
  shown_height : shown;
  shown_doors : shown;
  shown_windows : shown;
  shown_total_objects : shown;
  shown_area : shown;
  shown_paint : shown;
  shown_frames : shown;
  shown_percent : number;
  shown_band : band;
  shown_method : string;
  shown_cost : shown
}.

Record result := { modal : option manual_request; rendered : view }.

(** [displayResults(data)].  [container] and [manualModal] tell whether the
    page has a results container and a manual-input modal.  The three
    derived confidences of lines 266 to 268 are read from a truthy value,
    convert nothing and never reach the template; they are left out, as is
    the timer of the progress bar. *)
Definition displayResults (container manualModal : bool) (data : value) : outcome (option result) :=
  if negb container then mret None
  else
    opened ← manual_input manualModal data;
    d ← dimensions data;
    l ← get d "length";
    w ← get d "width";
    h ← get d "height";
    let length := or l (VStr "Auto") in
    let width := or w (VStr "Auto") in
    let height := or h (VNum (of_Z 10)) in
    area ← totalArea data;
    paint ← paintNeeded data;
    frames ← framesAnalyzed data;
    cost ← totalCost data;
    pct ← confidencePercent data;
    b ← confidenceBand data;
    m ← method data;
    shownMethod ← methodDisplay m;
    r ← detectionResults data;
    doors ← detected "doors" data;
    windows ← detected "windows" data;
    t ← get r "total_detections";
    let totalDetections := or t (VNum zero) in
    sl ← show_dimension length;
    sw ← show_dimension width;
    sh ← show_dimension height;
    sd ← plain doors;
    sn ← plain windows;
    st ← (if truthy totalDetections then plain totalDetections else sum doors windows);
    sa ← show_positive area 1 "N/A";
    sp ← show_positive paint 2 "N/A";
    sf ← plain (or frames (VStr "-"));
    sc ← show_positive cost 0 "0";
    mret (Some {| modal := opened;
                  rendered := {|
                    shown_length := sl; shown_width := sw; shown_height := sh;
                    shown_doors := sd; shown_windows := sn;
                    shown_total_objects := st;
                    shown_area := sa; shown_paint := sp;
                    shown_frames := sf;
                    shown_percent := pct; shown_band := b;
                    shown_method := shownMethod;
                    shown_cost := sc |} |}).

End Normalizer.
End VideoPage.

(** ** Files, toasts and requests *)

(** A [File] of the browser, as far as the scripts look at it. *)
Record File := { file_name : string; file_type : string; file_size : N }.

(** [file.type.startsWith('image/')] *)
Definition is_image (f : File) : bool := String.prefix "image/" (file_type f).
Definition is_video (f : File) : bool := String.prefix "video/" (file_type f).

(** [showToast(type, title, message)] *)
Record toast := { toast_type : string; toast_title : string; toast_message : string }.

(** One entry of a [FormData]: a file, a string, or the string that
    [JSON.stringify] makes of a value. *)
Inductive part :=
| FilePart (f : File)
| TextPart (s : string)
| JsonPart (v : value).

(** One call of [fetch] with method POST. *)
Record request := { endpoint : string; body : list (string * part) }.

(** What comes back for one call: a status outside 200 to 299, a body that
    is not JSON, or a parsed body. *)
Inductive response :=
| HttpError (status : nat)
| NotJson
| Json (v : value).

(** A page of the client: what the user has selected, the loading
    overlay, the calls of [fetch] made so far (oldest first) with the number
    still awaited, the content of the results container and the toasts
    shown. *)
Record page (Selection Result : Type) := {
  selection : Selection;
  loading : bool;
  in_flight : nat;
  posts : list request;
  results : option Result;
  toasts : list toast
}.
Arguments selection {Selection Result} p.
Arguments loading {Selection Result} p.
Arguments in_flight {Selection Result} p.
Arguments posts {Selection Result} p.
Arguments results {Selection Result} p.
Arguments toasts {Selection Result} p.

Section PageOperations.

Context {Selection Result : Type}.
Implicit Type s : page Selection Result.

Definition fresh (empty : Selection) : page Selection Result :=
  {| selection := empty; loading := false; in_flight := 0; posts := [];
     results := None; toasts := [] |}.

Definition select (sel : Selection) s : page Selection Result :=
  {| selection := sel; loading := loading s; in_flight := in_flight s;
     posts := posts s; results := results s; toasts := toasts s |}.

(** [showToast(type, title, message)] *)
Definition showToast (type title message : string) s : page Selection Result :=
  {| selection := selection s; loading := loading s;
     in_flight := in_flight s; posts := posts s; results := results s;
     toasts := toasts s ++ [{| toast_type := type; toast_title := title;
                               toast_message := message |}] |}.

(** [showLoading(show)]: the overlay is shown or hidden; nothing else on
    the page changes, no control is disabled. *)
Definition showLoading (show : bool) s : page Selection Result :=
  {| selection := selection s; loading := show;
     in_flight := in_flight s; posts := posts s; results := results s;
     toasts := toasts s |}.

(** [await fetch(url, {method: 'POST', body})]: the call goes out and the
    handler is suspended. *)
Definition fetch (r : request) s : page Selection Result :=
  {| selection := selection s; loading := loading s;
     in_flight := S (in_flight s); posts := posts s ++ [r];
     results := results s; toasts := toasts s |}.

(** A suspended handler is resumed. *)
Definition resumed s : page Selection Result :=
  {| selection := selection s; loading := loading s;
     in_flight := pred (in_flight s); posts := posts s;
     results := results s; toasts := toasts s |}.

(** [container.innerHTML = html], when there is a container. *)
Definition render (r : option Result) s : page Selection Result :=
  {| selection := selection s; loading := loading s;
     in_flight := in_flight s; posts := posts s;
     results := match r with Some _ => r | None => results s end;
     toasts := toasts s |}.

End PageOperations.

(** ** The manual page: validation (manual-estimation.js) *)

Module ManualPage.

(** The [room] object that [getManualFormData] builds: [parseFloat] of the
    three dimension inputs (NaN for an empty or unreadable input) and the
    two counts. *)
Record room := {
  length : number;
  width : number;
  height : number;
  num_doors : number;
  num_windows : number
}.

Record form_data := {
  form_room : room;
  paint_type : string;
  num_coats : number;
  include_ceiling : bool
}.

Definition too_small : string := "Room dimensions must be greater than 0".
Definition too_large : string := "Room dimensions seem too large. Please check your inputs.".

(** [validateManualForm(data)]: the verdict and the message given to
    [showError], if any. *)
Definition validateManualForm (data : form_data) : bool * option string :=
  let r := form_room data in
  if le (length r) zero || le (width r) zero || le (height r) zero then
    (false, Some too_small)
  else if gt (length r) (of_Z 100) || gt (width r) (of_Z 100) || gt (height r) (of_Z 20) then
    (false, Some too_large)
  else (true, None).

(** [handleManualEstimation] up to its call of the API: whether a request
    goes out for this form. *)
Definition submits (data : form_data) : bool := fst (validateManualForm data).

(** A dimension the specification calls valid: a canonical binary64 value
    that is greater than [0] and at most [bound]. *)
Definition in_range (x : number) (bound : Z) : bool :=
  valid x && lt zero x && le x (of_Z bound).

End ManualPage.

(** ** The image page: the upload list and the two submit handlers
       (image-estimation.js) *)

Module ImageUploads.

Definition API_BASE_URL : string := "http://localhost:8000/api/v1".

(** One entry of [roomData]. *)
Record room_config := {
  room_type : string;
  room_name : string;
  paint_type : string;
  num_coats : number;
  include_ceiling : bool
}.

(** A Number as [JSON.stringify] writes it, read back: [null] for NaN and
    for the infinities, [0] for either zero. *)
Definition json_number (n : number) : value :=
  match n with
  | S754_zero _ => VNum zero
  | S754_finite _ _ _ => VNum n
  | _ => VNull
  end.

(** An entry as [JSON.stringify(roomData)] writes it. *)
Definition to_json (c : room_config) : value :=
  VObj [("room_type", VStr (room_type c));
        ("room_name", VStr (room_name c));
        ("paint_type", VStr (paint_type c));
        ("num_coats", json_number (num_coats c));
        ("include_ceiling", VBool (include_ceiling c))].

(** The values of the two selects, read when the form is submitted. *)
Record selects := { selected_room_type : string; selected_paint_type : string }.

(** [uploadedImages.map((file, index) => ({...}))] of [handleMultiSubmit] *)
Definition roomData (sel : selects) (uploadedImages : list File) : list room_config :=
  imap (λ index _,
          {| room_type := selected_room_type sel;
             room_name := "Wall " +:+ pretty (index + 1);
             paint_type := selected_paint_type sel;
             num_coats := of_Z 2;
             include_ceiling := false |})
       uploadedImages.

(** The [FormData] of [handleMultiSubmit]: every image under [images], then
    the descriptors under [room_data]. *)
Definition multi_form (sel : selects) (uploadedImages : list File) : list (string * part) :=
  map (λ file, ("images", FilePart file)) uploadedImages
  ++ [("room_data", JsonPart (VArr (map to_json (roomData sel uploadedImages))))].

(** The [FormData] of [handleSingleSubmit]. *)
Definition single_form (sel : selects) (image : File) : list (string * part) :=
  [("image", FilePart image);
   ("room_type", TextPart (selected_room_type sel));
   ("paint_type", TextPart (selected_paint_type sel));
   ("num_coats", TextPart "2")].

(** The page, with the module variable [uploadedImages] as its selection. *)
Definition state : Type := page (list File) ImagePage.result.
Definition uploadedImages (s : state) : list File := selection s.
Definition initial : state := fresh [].

(** [displaySingleImage(file)] with the [onload] of its reader. *)
Definition displaySingleImage (file : File) (s : state) : state :=
  if negb (is_image file) then
    showToast "error" "Invalid File" "Please upload an image file" s
  else select [file] s.

(** [removeSingleImage()] *)
Definition removeSingleImage (s : state) : state := select [] s.

(** [addMultipleImages(files)] *)
Definition addMultipleImages (files : list File) (s : state) : state :=
  let imageFiles := filter (λ f, is_image f = true) files in
  if length imageFiles =? 0 then
    showToast "error" "Invalid Files" "Please upload image files" s
  else if 4 <? length (uploadedImages s) + length imageFiles then
    showToast "warning" "Too Many Images" "Maximum 4 images allowed" s
  else select (uploadedImages s ++ imageFiles) s.

(** [array.splice(index, 1)]: a negative index counts from the end, and
    nothing goes when the start is past the last element. *)
Definition splice1 {A} (index : Z) (l : list A) : list A :=
  let len := Z.of_nat (length l) in
  let start := if (index <? 0)%Z then Z.max (len + index) 0 else Z.min index len in
  delete (Z.to_nat start) l.

(** [removeMultiImage(index)] *)
Definition removeMultiImage (index : Z) (s : state) : state :=
  select (splice1 index (uploadedImages s)) s.

(** [handleSingleSubmit(e)] up to its [await]. *)
Definition handleSingleSubmit (sel : selects) (s : state) : state :=
  match uploadedImages s with
  | [] => showToast "warning" "No Image" "Please upload an image first" s
  | image :: _ =>
      fetch {| endpoint := API_BASE_URL +:+ "/estimate/cv/single-room";
               body := single_form sel image |}
            (showLoading true s)
  end.

(** [handleMultiSubmit(e)] up to its [await]. *)
Definition handleMultiSubmit (sel : selects) (s : state) : state :=
  if length (uploadedImages s) <? 2 then
    showToast "warning" "Not Enough Images" "Please upload at least 2 wall images" s
  else
    fetch {| endpoint := API_BASE_URL +:+ "/estimate/cv/multi-room";
             body := multi_form sel (uploadedImages s) |}
          (showLoading true s).

Section Page.

Variable StringToNumber : string → number.
(** Whether the page has a results container. *)
Variable container : bool.

(** The rest of either handler, once its [fetch] settles: [try] the body,
    [catch] into a toast, [finally] hide the overlay. *)
Definition settle (done failed : string) (r : response) (s : state) : state :=
  let s := resumed s in
  showLoading false
    match r with
    | Json data =>
        match ImagePage.displayResults StringToNumber container data with
        | Ok shown => showToast "success" "Analysis Complete" done (render shown s)
        | TypeError => showToast "error" "Analysis Failed" failed s
        end
    | _ => showToast "error" "Analysis Failed" failed s
    end.

Inductive event :=
| DisplaySingleImage (file : File)
| RemoveSingleImage
| AddMultipleImages (files : list File)
| RemoveMultiImage (index : Z)
| SingleSubmit (sel : selects)
| MultiSubmit (sel : selects)
| SingleSettled (r : response)
| MultiSettled (r : response).

Definition step (s : state) (e : event) : state :=
  match e with
  | DisplaySingleImage file => displaySingleImage file s
  | RemoveSingleImage => removeSingleImage s
  | AddMultipleImages files => addMultipleImages files s
  | RemoveMultiImage index => removeMultiImage index s
  | SingleSubmit sel => handleSingleSubmit sel s
  | MultiSubmit sel => handleMultiSubmit sel s
  | SingleSettled r =>
      settle "Room dimensions extracted successfully"
             "Please try again with a clearer image" r s
  | MultiSettled r =>
      settle "Multi-wall estimation completed" "Please try again" r s
  end.

(** The page after a run of events. *)
Definition run (s : state) (es : list event) : state := foldl step s es.

End Page.
End ImageUploads.

(** ** The video page: the selected video and the submit handler *)

Module VideoUploads.

Definition API_BASE_URL : string := "http://localhost:8000/api/v1".

Record selects := { selected_room_type : string; selected_paint_type : string }.

(** The page, with the module variable [uploadedVideo] as its selection. *)
Definition state : Type := page (option File) VideoPage.result.
Definition uploadedVideo (s : state) : option File := selection s.
Definition initial : state := fresh None.

(** [50 * 1024 * 1024] *)
Definition maxSize : N := 50 * 1024 * 1024.

(** [displayVideo(file)] *)
Definition displayVideo (file : File) (s : state) : state :=
  if negb (is_video file) then
    showToast "error" "Invalid File Type" "Please upload a video file" s
  else if (maxSize <? file_size file)%N then
    showToast "error" "File Too Large" "Please upload a video smaller than 50MB" s
  else
    showToast "success" "Video Uploaded" "Please configure settings and submit"
      (select (Some file) s).

(** [removeVideo()] *)
Definition removeVideo (s : state) : state := select None s.

Definition video_form (sel : selects) (video : File) : list (string * part) :=
  [("video", FilePart video);
   ("room_type", TextPart (selected_room_type sel));
   ("paint_type", TextPart (selected_paint_type sel));
   ("num_coats", TextPart "2")].

(** [handleFormSubmit(e)] up to its [await]. *)
Definition handleFormSubmit (sel : selects) (s : state) : state :=
  match uploadedVideo s with
  | None => showToast "warning" "No Video" "Please upload a video first" s
  | Some video =>
      fetch {| endpoint := API_BASE_URL +:+ "/estimate/cv/video";
               body := video_form sel video |}
            (showLoading true s)
  end.

Section Page.

Variable StringToNumber : string → number.
Variable NumberToString : number → string.
Variables container manualModal : bool.

(** [responseData.message || 'Video analyzed successfully'], as
    [showToast] puts it into its template. *)
Definition success_message (responseData : value) : outcome string :=
  ToString NumberToString
    (or (get_opt responseData "message") (VStr "Video analyzed successfully")).

(** The rest of the handler once its [fetch] settles.  The results are
    written before the toast is made, so a message that cannot be turned
    into text leaves them on the page under the toast of the [catch]. *)
Definition settle (r : response) (s : state) : state :=
  let s := resumed s in
  let failed := showToast "error" "Analysis Failed"
                  "Please ensure the video clearly shows the room" in
  showLoading false
    match r with
    | Json responseData =>
        match d ← get responseData "data";
              VideoPage.displayResults StringToNumber container manualModal
                (or d responseData) with
        | Ok shown =>
            match success_message responseData with
            | Ok message =>
                showToast "success" "Analysis Complete" message (render shown s)
            | TypeError => failed (render shown s)
            end
        | TypeError => failed s
        end
    | _ => failed s
    end.

Inductive event :=
| DisplayVideo (file : File)
| RemoveVideo
| FormSubmit (sel : selects)
| Settled (r : response).

Definition step (s : state) (e : event) : state :=
  match e with
  | DisplayVideo file => displayVideo file s
  | RemoveVideo => removeVideo s
  | FormSubmit sel => handleFormSubmit sel s
  | Settled r => settle r s
  end.

Definition run (s : state) (es : list event) : state := foldl step s es.

End Page.
End VideoUploads.

(** ** The multi-wall upload of the estimation page (manual-estimation-new.js) *)

Module WallsPage.

(** One entry of [selectedWalls]. *)
Record wall := { file : File; name : string; preview : string }.

Record selects := {
  selected_room_type : string;
  selected_paint_type : string;
  selected_num_coats : number   (* parseInt of the select's value *)
}.

Definition state : Type := page (list wall) value.
Definition selectedWalls (s : state) : list wall := selection s.
Definition initial : state := fresh [].

(** [showError(message)] of the shared module: an error toast. *)
Definition showError (message : string) (s : state) : state :=
  showLoading false (showToast "error" "" message s).

(** [handleMultiWallSelect(files)]: the two checks made when files are
    picked.  The walls themselves arrive later, one [onload] at a time. *)
Definition handleMultiWallSelect (files : list File) (s : state) : state :=
  if 4 <? length files + length (selectedWalls s) then
    showError "Maximum 4 walls allowed. Please select fewer images." s
  else if length files <? 1 then
    showError "Please select at least one image." s
  else s.

(** The [onload] of one reader: the wall is pushed under the next name. *)
Definition wallLoaded (f : File) (dataUrl : string) (s : state) : state :=
  select (selectedWalls s ++
          [{| file := f;
              name := "Wall " +:+ pretty (length (selectedWalls s) + 1);
              preview := dataUrl |}]) s.

(** [removeWall(index)]: the wall goes and the others are renumbered. *)
Definition renumber (walls : list wall) : list wall :=
  imap (λ i w, {| file := file w; name := "Wall " +:+ pretty (i + 1);
                  preview := preview w |}) walls.

Definition removeWall (index : nat) (s : state) : state :=
  select (renumber (delete index (selectedWalls s))) s.

(** [handleModeToggle(mode)], as far as it touches [selectedWalls]: every
    mode but [multi] empties the list. *)
Definition handleModeToggle (mode : string) (s : state) : state :=
  if String.eqb mode "single" || String.eqb mode "video" || String.eqb mode "floorplan"
  then select [] s else s.

(** [selectedWalls.map(wall => ({...}))] of [handleMultiWallEstimation] *)
Definition roomData (sel : selects) (walls : list wall) : list ImageUploads.room_config :=
  map (λ w, {| ImageUploads.room_type := selected_room_type sel;
               ImageUploads.room_name := name w;
               ImageUploads.paint_type := selected_paint_type sel;
               ImageUploads.num_coats := selected_num_coats sel;
               ImageUploads.include_ceiling := false |}) walls.

Definition multi_form (sel : selects) (walls : list wall) : list (string * part) :=
  map (λ w, ("images", FilePart (file w))) walls
  ++ [("room_data", JsonPart (VArr (map ImageUploads.to_json (roomData sel walls))))].

(** [handleMultiWallEstimation()] up to its [await]. *)
Definition handleMultiWallEstimation (api : string) (sel : selects) (s : state) : state :=
  if length (selectedWalls s) <? 2 then
    showError "Please select at least 2 wall images for multi-wall mode" s
  else
    fetch {| endpoint := api +:+ "/api/v1/estimate/cv/multi-room";
             body := multi_form sel (selectedWalls s) |}
          (showLoading true s).

Inductive event :=
| MultiWallSelect (files : list File)
| WallLoaded (f : File) (dataUrl : string)
| RemoveWall (index : nat)
| ModeToggle (mode : string).

Definition step (s : state) (e : event) : state :=
  match e with
  | MultiWallSelect files => handleMultiWallSelect files s
  | WallLoaded f dataUrl => wallLoaded f dataUrl s
  | RemoveWall index => removeWall index s
  | ModeToggle mode => handleModeToggle mode s
  end.

Definition run (s : state) (es : list event) : state := foldl step s es.

End WallsPage.

(** ** The floor-plan results (the shared script of the estimation page) *)

Module FloorPlanPage.

(** One line of the room table. *)
Record row := {
  row_name : shown;
  row_length : shown;
  row_width : shown;
  row_floor_area : shown;
  row_wall_area : shown;
  row_doors : shown;
  row_windows : shown;
  row_paint : shown;
  row_cost : shown
}.

Record summary := {
  rooms_found : shown;
  dimensions_found : shown;
  text_regions : shown
}.

Record totals := {
  shown_total_rooms : shown;
  shown_total_floor_area : shown;
  shown_total_paintable_area : shown;
  shown_total_paint : shown;
  shown_total_cost : shown
}.

(** What [floorplanResultsContent.innerHTML] is set to: the warning that no
    room could be extracted, or the report with its extraction summary, its
    room table (when there are rooms) and its totals. *)
Inductive content :=
| Warning (message : string)
| Report (s : summary) (table : option (list row)) (t : totals).

(** The text of the warning, without its example of an annotation. *)
Definition no_rooms : string :=
  "No rooms with dimensions could be extracted. Please ensure the image contains clear dimension annotations".

(** What the function does to the page: the content it writes, if any, and
    whether it goes on to show the results panel. *)
Record effect := { written : option content; panel_shown : bool }.

Section Renderer.

Variable StringToNumber : string → number.
#[local] Abbreviation gt_zero := (gt_zero StringToNumber).

(** The body of [rooms.forEach((room, index) => ...)]: the five values
    read first, with the two dimensions put into their string, then the
    slots of the row in the order of the template. *)
Definition room_row (room : value) : outcome row :=
  areas ← get room "areas";
  paint ← get room "paint";
  total_cost ← get room "total_cost";
  cost ← get room "cost";
  dimensions ← get room "dimensions";
  length ← plain (or (get_opt dimensions "length") (VStr "?"));
  width ← plain (or (get_opt dimensions "width") (VStr "?"));
  n ← get room "name";
  name ← plain n;
  floorArea ← toFixed (or (get_opt areas "floor_area") (VNum zero)) 1;
  paintableArea ← toFixed (or (get_opt areas "paintable_area") (VNum zero)) 1;
  d ← get room "num_doors";
  doors ← plain d;
  w ← get room "num_windows";
  windows ← plain w;
  paintLiters ← toFixed (or (get_opt paint "liters") (VNum zero)) 2;
  shown_cost ← localized (or total_cost (or cost (VNum zero)));
  mret {| row_name := name;
          row_length := length;
          row_width := width;
          row_floor_area := floorArea;
          row_wall_area := paintableArea;
          row_doors := doors;
          row_windows := windows;
          row_paint := paintLiters;
          row_cost := shown_cost |}.

Fixpoint each_room (rooms : list value) : outcome (list row) :=
  match rooms with
  | [] => mret []
  | room :: rest => r ← room_row room; rs ← each_room rest; mret (r :: rs)
  end.

(** [rooms.forEach(...)]: a method of arrays only. *)
Definition room_table (rooms : value) : outcome (list row) :=
  match rooms with
  | VArr rs => each_room rs
  | _ => TypeError
  end.

(** [displayFloorPlanResults(data)].  [resultsContent] and [resultsPanel]
    tell whether the page has the two elements [floorplanResultsContent]
    and [floorplanResults]. *)
Definition displayFloorPlanResults (resultsContent resultsPanel : bool) (data : value)
  : outcome effect :=
  if negb resultsContent then mret {| written := None; panel_shown := false |}
  else
    r ← get data "rooms";
    let rooms := or r (VArr []) in
    tr ← get data "total_rooms";
    tfa ← get data "total_floor_area";
    tpa ← get data "total_paintable_area";
    tprl ← get data "total_paint_required_liters";
    tpr ← get data "total_paint_required";
    tc ← get data "total_cost";
    om ← get data "ocr_metadata";
    let total_rooms := or tr (VNum zero) in
    let total_floor_area := or tfa (VNum zero) in
    let total_paintable_area := or tpa (VNum zero) in
    let total_paint_required_liters := or tprl (or tpr (VNum zero)) in
    let total_cost := or tc (VNum zero) in
    let ocr_metadata := or om (VObj []) in
    len ← get rooms "length";
    if negb (truthy rooms) || is_zero len then
      mret {| written := Some (Warning no_rooms); panel_shown := false |}
    else
      found ← plain total_rooms;
      df ← get ocr_metadata "dimensions_found";
      dimensions ← plain (or df (VStr "N/A"));
      tx ← get ocr_metadata "text_regions";
      regions ← plain (or tx (VStr "N/A"));
      listed ← gt_zero len;
      table ← (if truthy rooms && listed
               then t ← room_table rooms; mret (Some t)
               else mret None);
      count ← plain total_rooms;
      floor ← localized total_floor_area;
      paintable ← localized total_paintable_area;
      paint ← toFixed total_paint_required_liters 1;
      cost ← localized total_cost;
      mret {| written :=
                Some (Report
                        {| rooms_found := found;
                           dimensions_found := dimensions;
                           text_regions := regions |}
                        table
                        {| shown_total_rooms := count;
                           shown_total_floor_area := floor;
                           shown_total_paintable_area := paintable;
                           shown_total_paint := paint;
                           shown_total_cost := cost |});
              panel_shown := resultsPanel |}.

End Renderer.
End FloorPlanPage.

(** ** Vocabulary of the properties *)

(** The name given to the wall at position [i]. *)
Definition wall_name (i : nat) : string := "Wall " +:+ pretty (i + 1).

(** Every wall in a list carries the name of its position. *)
Definition numbered (walls : list WallsPage.wall) : Prop :=
  WallsPage.name <$> walls = wall_name <$> seq 0 (length walls).

(** The value the video page puts in place of a confidence it cannot
    use. *)
Definition substitute (data : value) : number :=
  if truthy (get_opt (get_opt data "vision_api_result") "used")
  then decimal 90 2 else decimal 70 2.

(** ** The shapes the normalizers are written for *)

(** A finite Number in canonical form, which is what [JSON.parse] gives for
    a numeric literal within the range of binary64. *)
Definition finite_number (v : value) : bool :=
  match v with VNum n => is_finite n && valid n | _ => false end.

(** A leaf a normalizer can use or skip: missing, [null] or a finite
    Number. *)
Definition numeric_or_missing (v : value) : bool := nullish v || finite_number v.

(** The same for an area, which the fallback of the image page divides and
    doubles: a Number below [2^1000] in magnitude. *)
Definition area_or_missing (v : value) : bool :=
  nullish v
  || match v with
     | VNum n => is_finite n && valid n && magnitude_below 1000 n
     | _ => false
     end.

Definition text_or_missing (v : value) : bool :=
  match v with VUndefined | VNull | VStr _ => true | _ => false end.

Definition dimension_leaves (d : value) : bool :=
  numeric_or_missing (get_opt d "length")
  && numeric_or_missing (get_opt d "width")
  && numeric_or_missing (get_opt d "height").

(** The object the image page reads the dimensions from when [rooms] is
    missing, [null] or an array. *)
Definition image_dimension_source (data : value) : value :=
  match get_opt data "rooms" with
  | VArr (firstRoom :: _) =>
      or (get_opt (get_opt firstRoom "estimation") "dimensions")
         (or (get_opt firstRoom "estimation") (VObj []))
  | _ => or (get_opt data "dimensions") (VObj [])
  end.

(** [rooms] is missing, [null] or an array whose first entry is not
    [null]. *)
Definition rooms_listed (data : value) : bool :=
  match get_opt data "rooms" with
  | VUndefined | VNull | VArr [] => true
  | VArr (firstRoom :: _) => negb (nullish firstRoom)
  | _ => false
  end.

(** A body of the shape the image page is written for: an object, with or
    without the [data] envelope; [rooms] missing, [null] or an array whose
    first entry is not [null]; every numeric leaf on a candidate path
    missing, [null] or a finite Number. *)
Definition image_response_shape (response : value) : bool :=
  let data := or (get_opt response "data") response in
  negb (nullish response)
  && rooms_listed data
  && dimension_leaves (image_dimension_source data)
  && area_or_missing (get_opt data "total_paintable_area")
  && area_or_missing (get_opt (get_opt data "area_calculation") "paintable_area")
  && numeric_or_missing (get_opt data "total_paint_required")
  && numeric_or_missing (get_opt (get_opt (get_opt data "product_breakdown") "paint") "quantity")
  && numeric_or_missing (get_opt data "total_cost")
  && numeric_or_missing (get_opt (get_opt data "cost_breakdown") "total_cost").

(** The object the video page reads the dimensions from. *)
Definition video_dimension_source (data : value) : value :=
  or (get_opt data "dimensions")
     (or (get_opt data "room_dimensions")
         (or (get_opt (get_opt data "dimension_analysis") "dimensions") (VObj []))).

(** The value the video page takes as the overall confidence, before it
    looks at it. *)
Definition video_confidence_source (data : value) : value :=
  let confidence :=
    or (get_opt data "confidence") (or (get_opt data "detection_confidence") (VObj [])) in
  or (get_opt confidence "overall_confidence") (or confidence (VNum zero)).

(** The object the video page reads the detections from. *)
Definition video_detection_source (data : value) : value :=
  or (get_opt data "detection_results") (or (get_opt data "detections_summary") (VObj [])).

(** A request for manual input the modal can show: a reason that is text,
    a confidence score that is a Number and, in the current estimate, a
    height that is a Number, each of them when it is there. *)
Definition manual_request_shape (request : value) : bool :=
  text_or_missing (get_opt request "reason")
  && numeric_or_missing (get_opt request "confidence_score")
  && numeric_or_missing (get_opt (or (get_opt request "current_estimates") (VObj [])) "height").

(** The counts the video page shows: each candidate missing, [null] or a
    finite Number. *)
Definition video_counts (data : value) : list value :=
  let r := video_detection_source data in
  [get_opt r "detected_doors"; get_opt r "unique_doors";
   get_opt (get_opt data "aggregated_counts") "doors";
   get_opt r "detected_windows"; get_opt r "unique_windows";
   get_opt (get_opt data "aggregated_counts") "windows";
   get_opt r "total_detections";
   get_opt (get_opt data "video_analysis") "frames_analyzed";
   get_opt data "frame_count";
   get_opt (get_opt data "metadata") "frame_count"].

(** A body of the shape the video page is written for: numeric leaves as
    above, a method that is a string when there is one, an error
    percentage that is a Number when there is one, a confidence that can be
    converted to a number, counts that are Numbers, and a request for
    manual input, when the body asks for it, that the modal can show. *)
Definition video_response_shape (data : value) : bool :=
  let d := video_dimension_source data in
  negb (nullish data)
  && dimension_leaves d
  && numeric_or_missing (get_opt (get_opt data "area_calculation") "paintable_area")
  && numeric_or_missing (get_opt data "total_paintable_area")
  && numeric_or_missing (get_opt data "total_area")
  && numeric_or_missing (get_opt (get_opt (get_opt data "product_breakdown") "paint") "quantity")
  && numeric_or_missing (get_opt data "total_paint_required_liters")
  && numeric_or_missing (get_opt data "total_paint_liters")
  && numeric_or_missing (get_opt (get_opt data "cost_breakdown") "total_cost")
  && numeric_or_missing (get_opt data "total_cost")
  && text_or_missing (get_opt d "method")
  && text_or_missing (get_opt data "estimation_mode")
  && match get_opt (or (get_opt d "variance") (VObj [])) "error_percentage" with
     | VUndefined | VNum _ => true
     | _ => false
     end
  && convertible (video_confidence_source data)
  && forallb numeric_or_missing (video_counts data)
  && (negb (truthy (get_opt (get_opt data "manual_input_request") "needs_manual_input"))
      || manual_request_shape (get_opt data "manual_input_request")).

(** What is asked of a result: a value that is a finite Number, a slot
    that shows one, and a slot that shows one or its placeholder. *)
Definition finite_value (v : value) : bool :=
  match v with VNum n => is_finite n | _ => false end.

Definition finite_slot (s : shown) : bool :=
  match s with Fixed _ n => is_finite n | _ => false end.

Definition finite_or_placeholder (s : shown) : bool :=
  match s with
  | Fixed _ n => is_finite n
  | Text _ | Plain (VStr _) => true
  | _ => false
  end.

Definition image_result_finite (r : ImagePage.result) : bool :=
  finite_value (ImagePage.length (ImagePage.resolved r))
  && finite_value (ImagePage.width (ImagePage.resolved r))
  && finite_value (ImagePage.height (ImagePage.resolved r))
  && finite_slot (ImagePage.shown_paintable_area (ImagePage.rendered r))
  && finite_slot (ImagePage.shown_paint_required (ImagePage.rendered r))
  && finite_slot (ImagePage.shown_total_cost (ImagePage.rendered r))
  && finite_or_placeholder (ImagePage.shown_length (ImagePage.rendered r))
  && finite_or_placeholder (ImagePage.shown_width (ImagePage.rendered r))
  && finite_or_placeholder (ImagePage.shown_height (ImagePage.rendered r)).

Definition video_result_finite (r : VideoPage.result) : bool :=
  finite_or_placeholder (VideoPage.shown_area (VideoPage.rendered r))
  && finite_or_placeholder (VideoPage.shown_paint (VideoPage.rendered r))
  && finite_or_placeholder (VideoPage.shown_cost (VideoPage.rendered r))
  && finite_or_placeholder (VideoPage.shown_length (VideoPage.rendered r))
  && finite_or_placeholder (VideoPage.shown_width (VideoPage.rendered r))
  && finite_or_placeholder (VideoPage.shown_height (VideoPage.rendered r)).

(** ** Sample inputs for closed instances *)

Definition png : File :=
  {| file_name := "wall.png"; file_type := "image/png"; file_size := 2048 |}.

Definition mp4 : File :=
  {| file_name := "room.mp4"; file_type := "video/mp4"; file_size := 4096 |}.

Definition interior : ImageUploads.selects :=
  {| ImageUploads.selected_room_type := "bedroom";
     ImageUploads.selected_paint_type := "interior" |}.

(** A multi-room body in its envelope, and a video body. *)
Definition multi_room_body : value :=
  VObj [("success", VBool true);
        ("data",
         VObj [("rooms",
                VArr [VObj [("estimation",
                             VObj [("dimensions",
                                    VObj [("length", VNum (of_Z 12));
                                          ("width", VNum (of_Z 10))])])]]);
               ("total_paintable_area", VNum (of_Z 400));
               ("total_cost", VNum (decimal 12345 1))])].

Definition video_body : value :=
  VObj [("area_calculation", VObj [("paintable_area", VNum (of_Z 350))]);
        ("confidence", VObj [("overall_confidence", VNum (decimal 92 2))]);
        ("dimensions", VObj [("method", VStr "multi_frame_median")]);
        ("detection_results",
         VObj [("detected_doors", VNum (of_Z 1)); ("detected_windows", VNum (of_Z 2))]);
        ("manual_input_request",
         VObj [("needs_manual_input", VBool true);
               ("confidence_score", VNum (decimal 45 2));
               ("reason", VStr "Ceiling not visible");
               ("current_estimates", VObj [("height", VNum (decimal 95 1))])])].

(** The largest finite binary64 value, written 1.7976931348623157e308 in
    a body. *)
Definition max_value : number := SFmax_float prec emax.

(** ** The image page: the mode of the page (image-estimation.js) *)

Module ImageMode.

(** The two upload containers of the page and the two file inputs. *)
Inductive container := SingleContainer | MultiContainer.
Inductive input := SingleInput | MultiInput.

(** The module variable [currentMode] and the container on display. *)
Record state := { currentMode : string; displayed : container }.

(** [initializePage()].  [param] is [params.get('mode')]: the value of the
    parameter in the address of the page, [null] when there is none. *)
Definition initializePage (param : option string) : state :=
  let mode := match param with
              | Some m => if String.eqb m "" then "single" else m
              | None => "single"
              end in
  {| currentMode := mode;
     displayed := if String.eqb mode "multi" then MultiContainer else SingleContainer |}.

(** The click handler that [setupDragDrop] puts on a drop zone: the input
    whose file dialog it opens, for a click on the zone itself, its icon or
    its title. *)
Definition click (s : state) : input :=
  if String.eqb (currentMode s) "single" then SingleInput else MultiInput.

End ImageMode.

(** ** The video page: the simulated progress (the script of the video page) *)

Module VideoProgress.

Definition add : number → number → number := SFadd prec emax.

(** The local [progress] of [simulateProgress], whether its interval is
    still set, and the width last written to the bar, in percent. *)
Record state := { progress : number; interval : bool; width : option number }.

(** [showLoading(true)] followed by [simulateProgress()] on a page with a
    progress bar: the bar is put to [0%] and the interval starts. *)
Definition simulateProgress : state :=
  {| progress := zero; interval := true; width := Some zero |}.

(** One firing of the interval, with [random] the value of
    [Math.random()]. *)
Definition tick (s : state) (random : number) : state :=
  if negb (interval s) then s
  else
    let p := add (progress s) (mul random (of_Z 10)) in
    if ge p (of_Z 90) then
      {| progress := of_Z 90; interval := false; width := Some (of_Z 90) |}
    else {| progress := p; interval := true; width := Some p |}.

(** [clearInterval(window.progressInterval)] of [displayResults]. *)
Definition clearInterval (s : state) : state :=
  {| progress := progress s; interval := false; width := width s |}.

(** What [Math.random] returns: a canonical value in the range from 0 up
    to but not including 1. *)
Definition in_unit_range (random : number) : bool :=
  valid random && ge random zero && lt random (of_Z 1).

(** The page while it waits: the interval fires, or [displayResults]
    clears it. *)
Inductive event :=
| Fired (random : number)
| Cleared.

Definition step (s : state) (e : event) : state :=
  match e with
  | Fired random => tick s random
  | Cleared => clearInterval s
  end.

Definition run (s : state) (es : list event) : state := foldl step s es.

Definition drawn (e : event) : bool :=
  match e with Fired random => in_unit_range random | Cleared => true end.

(** Zero or a positive finite value. *)
Definition nonneg (x : number) : Prop :=
  match x with
  | S754_zero _ | S754_finite false _ _ => True
  | _ => False
  end.

(** What holds of the progress all along. *)
Definition steady (s : state) : Prop :=
  valid (progress s) = true
  ∧ nonneg (progress s)
  ∧ width s = Some (progress s)
  ∧ (progress s = of_Z 90 ∨ ge (progress s) (of_Z 90) = false).

End VideoProgress.

(** ** The multi-wall upload with its file readers (manual-estimation-new.js) *)

Module WallReaders.

(** The walls page together with the readers that [handleMultiWallSelect]
    has started and whose [onload] has not fired yet. *)
Record state := { page : WallsPage.state; reading : list File }.

Definition selectedWalls (s : state) : list WallsPage.wall :=
  WallsPage.selectedWalls (page s).

Definition initial : state := {| page := WallsPage.initial; reading := [] |}.

(** Whether [handleMultiWallSelect(files)] gets past its two checks. *)
Definition accepted (files : list File) (s : state) : bool :=
  negb (4 <? length files + length (selectedWalls s)) && negb (length files <? 1).

(** [handleMultiWallSelect(files)]: the checks, then one reader for every
    image among the files. *)
Definition handleMultiWallSelect (files : list File) (s : state) : state :=
  {| page := WallsPage.handleMultiWallSelect files (page s);
     reading := if accepted files s
                then reading s ++ filter (λ f, is_image f = true) files
                else reading s |}.

(** The [onload] of the reader at position [i] among those still reading;
    readers finish in any order. *)
Definition loaded (i : nat) (dataUrl : string) (s : state) : state :=
  match reading s !! i with
  | Some f => {| page := WallsPage.wallLoaded f dataUrl (page s);
                 reading := delete i (reading s) |}
  | None => s
  end.

Definition removeWall (index : nat) (s : state) : state :=
  {| page := WallsPage.removeWall index (page s); reading := reading s |}.

Definition handleModeToggle (mode : string) (s : state) : state :=
  {| page := WallsPage.handleModeToggle mode (page s); reading := reading s |}.

Inductive event :=
| MultiWallSelect (files : list File)
| Loaded (i : nat) (dataUrl : string)
| RemoveWall (index : nat)
| ModeToggle (mode : string).

Definition step (s : state) (e : event) : state :=
  match e with
  | MultiWallSelect files => handleMultiWallSelect files s
  | Loaded i dataUrl => loaded i dataUrl s
  | RemoveWall index => removeWall index s
  | ModeToggle mode => handleModeToggle mode s
  end.

Definition run (s : state) (es : list event) : state := foldl step s es.

(** A run in which files are selected only when no reader is still
    reading. *)
Fixpoint calm (s : state) (es : list event) : bool :=
  match es with
  | [] => true
  | e :: rest =>
      match e, reading s with
      | MultiWallSelect _, _ :: _ => false
      | _, _ => calm (step s e) rest
      end
  end.

(** The walls selected and the files still being read are at most four
    together. *)
Definition within_limit (s : state) : Prop :=
  length (selectedWalls s) + length (reading s) ≤ 4.

End WallReaders.

(** ** The shared script of the estimation page (app.js) *)

Module App.

(** What a [catch] of these scripts can be handed: an [Error] made by the
    script, with its message, or an error raised by the engine (a property
    read on [null] or [undefined] or a call of something that is not a
    function; a body that is not JSON; a request that cannot be made). *)
Inductive fault := TypeFault | SyntaxFault | NetworkFault.
Inductive exception := Error (message : string) | Engine (f : fault).

(** A step that returns or throws. *)
Inductive attempt (A : Type) :=
| Returned (a : A)
| Thrown (e : exception).
Arguments Returned {A} a.
Arguments Thrown {A} e.

(** A [TypeError] of the reading of a response, as a thrown exception. *)
Definition raised {A} (o : outcome A) : attempt A :=
  match o with Ok a => Returned a | TypeError => Thrown (Engine TypeFault) end.

(** The text of a toast: a string of the script or of the response, or the
    message of an error of the engine, whose wording is the engine's and is
    never empty. *)
Inductive text := Literal (s : string) | EngineMessage (f : fault).

(** [error.message || fallback] *)
Definition message_or (e : exception) (fallback : string) : text :=
  match e with
  | Error message => Literal (if String.eqb message "" then fallback else message)
  | Engine f => EngineMessage f
  end.

(** [showToast(message, type)] *)
Record toast := { shown_text : text; kind : string }.

(** A page built on the shared script: what is selected, the loading
    overlay, the requests made so far, what the results element holds and
    the toasts shown. *)
Record page (Selection Request Result : Type) := {
  selection : Selection;
  loading : bool;
  requests : list Request;
  written : option Result;
  toasts : list toast
}.
Arguments selection {Selection Request Result} p.
Arguments loading {Selection Request Result} p.
Arguments requests {Selection Request Result} p.
Arguments written {Selection Request Result} p.
Arguments toasts {Selection Request Result} p.

Section Operations.

Context {Selection Request Result : Type}.
Implicit Type s : page Selection Request Result.

Definition fresh (empty : Selection) : page Selection Request Result :=
  {| selection := empty; loading := false; requests := []; written := None;
     toasts := [] |}.

Definition select (sel : Selection) s : page Selection Request Result :=
  {| selection := sel; loading := loading s; requests := requests s;
     written := written s; toasts := toasts s |}.

Definition showToast (message : text) (type : string) s : page Selection Request Result :=
  {| selection := selection s; loading := loading s; requests := requests s;
     written := written s;
     toasts := toasts s ++ [{| shown_text := message; kind := type |}] |}.

(** [showLoading(message)] and [hideLoading()]; the text of the overlay is
    left out. *)
Definition showLoading s : page Selection Request Result :=
  {| selection := selection s; loading := true; requests := requests s;
     written := written s; toasts := toasts s |}.

Definition hideLoading s : page Selection Request Result :=
  {| selection := selection s; loading := false; requests := requests s;
     written := written s; toasts := toasts s |}.

(** [showError(message)]: the toast, then the overlay is hidden. *)
Definition showError (message : text) s : page Selection Request Result :=
  hideLoading (showToast message "error" s).

Definition showSuccess (message : text) s : page Selection Request Result :=
  showToast message "success" s.

(** A call of [fetch] goes out. *)
Definition fetch (r : Request) s : page Selection Request Result :=
  {| selection := selection s; loading := loading s; requests := requests s ++ [r];
     written := written s; toasts := toasts s |}.

(** [element.innerHTML = html] *)
Definition write (r : Result) s : page Selection Request Result :=
  {| selection := selection s; loading := loading s; requests := requests s;
     written := Some r; toasts := toasts s |}.

End Operations.

(** How a call of [fetch] ends: it cannot be made, or a response comes back
    with its [ok] flag and a body that parses as JSON or does not. *)
Inductive reply :=
| Unreachable
| Replied (ok : bool) (parsed : option value).

Section Conversion.

Variable NumberToString : number → string.
#[local] Abbreviation ToString := (ToString NumberToString).

(** [apiCall(endpoint, options)] from the point where its [fetch]
    settles.  The [Error] for a response that is not ok is made inside the
    [try], so a reason that cannot be turned into text is rethrown as the
    error of the engine. *)
Definition apiCall (r : reply) : attempt value :=
  match r with
  | Unreachable => Thrown (Engine NetworkFault)
  | Replied _ None => Thrown (Engine SyntaxFault)
  | Replied true (Some data) => Returned data
  | Replied false (Some data) =>
      match (message ← get data "message";
             detail ← get data "detail";
             ToString (or message (or detail (VStr "Request failed")))) with
      | Ok reason => Thrown (Error reason)
      | TypeError => Thrown (Engine TypeFault)
      end
  end.

End Conversion.

End App.

(** ** The manual form: its results and its handler (manual-estimation.js) *)

Module ManualResults.

(** What a template shows in one place of the results. *)
Inductive slot :=
| Number2 (v : value)       (* formatNumber(v) *)
| Currency (v : value)      (* formatCurrency(v) *)
| Raw (v : value)           (* ${v} *)
| Capitalized (s : string). (* s.charAt(0).toUpperCase() + s.slice(1) *)

(** [data.k1.k2]: the property reads of a path, one after the other. *)
Fixpoint read (v : value) (path : list string) : outcome value :=
  match path with
  | [] => mret v
  | k :: rest => x ← get v k; read x rest
  end.

(** [formatNumber(v)] and [formatCurrency(v)] call [v.toLocaleString]. *)
Definition formatNumber (v : value) : outcome slot :=
  if localizable v then Ok (Number2 v) else TypeError.

Definition formatCurrency (v : value) : outcome slot :=
  if localizable v then Ok (Currency v) else TypeError.

(** [${v}] *)
Definition raw (v : value) : outcome slot :=
  x ← converted v; mret (Raw x).

(** [v.charAt(0).toUpperCase() + v.slice(1)]: [charAt] is a method of
    strings only. *)
Definition capitalized (v : value) : outcome slot :=
  match v with
  | VStr s => Ok (Capitalized s)
  | _ => TypeError
  end.

(** [${formatNumber(data.k1.k2)}], [${formatCurrency(data.k1.k2)}],
    [${data.k1.k2}] and the capitalized [data.k1]. *)
Definition number_at (data : value) (path : list string) : outcome slot :=
  x ← read data path; formatNumber x.

Definition currency_at (data : value) (path : list string) : outcome slot :=
  x ← read data path; formatCurrency x.

Definition raw_at (data : value) (path : list string) : outcome slot :=
  x ← read data path; raw x.

Definition capitalized_at (data : value) (path : list string) : outcome slot :=
  x ← read data path; capitalized x.

(** [${data.k1.k2 ? `...` : ''}]: a part of the template that is there when
    the value at the path is truthy. *)
Definition when_at {A} (data : value) (path : list string) (part : outcome A)
  : outcome (option A) :=
  v ← read data path;
  if truthy v then x ← part; mret (Some x) else mret None.

(** One product of the breakdown. *)
Record product := {
  product_name : slot;
  product_quantity : slot;
  product_unit : slot;
  product_cost : slot
}.

(** The lines of the product that [path] leads to. *)
Definition product_at (data : value) (path : list string) : outcome product :=
  name ← raw_at data (path ++ ["product_name"]);
  quantity ← number_at data (path ++ ["quantity"]);
  unit ← raw_at data (path ++ ["unit"]);
  cost ← currency_at data (path ++ ["total_cost"]);
  mret {| product_name := name; product_quantity := quantity;
          product_unit := unit; product_cost := cost |}.

(** The card of product requirements, which the templates of the manual,
    the image and the video results have in the same words: the primer and
    the putty when they are listed, then the paint with its type. *)
Record card := {
  primer : option product;
  putty : option product;
  paint_name : slot;
  paint_label : slot;
  paint_quantity : slot;
  paint_unit : slot;
  paint_cost : slot
}.

Definition product_card (data : value) : outcome card :=
  primer ← when_at data ["product_breakdown"; "primer"]
             (product_at data ["product_breakdown"; "primer"]);
  putty ← when_at data ["product_breakdown"; "putty"]
            (product_at data ["product_breakdown"; "putty"]);
  name ← raw_at data ["product_breakdown"; "paint"; "product_name"];
  label ← capitalized_at data ["paint_type"];
  quantity ← number_at data ["product_breakdown"; "paint"; "quantity"];
  unit ← raw_at data ["product_breakdown"; "paint"; "unit"];
  cost ← currency_at data ["product_breakdown"; "paint"; "total_cost"];
  mret {| primer := primer; putty := putty; paint_name := name;
          paint_label := label; paint_quantity := quantity;
          paint_unit := unit; paint_cost := cost |}.

(** The three summary cards of the same templates: the paintable area, the
    paint required and the number of coats. *)
Record summary := {
  paintable_area : slot;
  paint_required : slot;
  number_of_coats : slot
}.

Definition summary_cards (data : value) : outcome summary :=
  paintable ← number_at data ["area_calculation"; "paintable_area"];
  required ← number_at data ["product_breakdown"; "paint"; "quantity"];
  coats ← raw_at data ["num_coats"];
  mret {| paintable_area := paintable; paint_required := required;
          number_of_coats := coats |}.

Record view := {
  cards : summary;
  total_wall_area : slot;
  door_area : slot;
  window_area : slot;
  ceiling_area : option slot;
  products : card;
  total_cost : slot;
  estimated_range : slot
}.

(** [displayManualResults(data)].  [resultsSection] and [resultsContent]
    tell whether the page has the two elements. *)
Definition displayManualResults (resultsSection resultsContent : bool) (data : value)
  : outcome (option view) :=
  if negb resultsSection || negb resultsContent then mret None
  else
    cards ← summary_cards data;
    walls ← number_at data ["area_calculation"; "total_wall_area"];
    doors ← number_at data ["area_calculation"; "door_area"];
    windows ← number_at data ["area_calculation"; "window_area"];
    ceiling ← when_at data ["area_calculation"; "ceiling_area"]
                (number_at data ["area_calculation"; "ceiling_area"]);
    _ ← number_at data ["area_calculation"; "paintable_area"];
    products ← product_card data;
    total ← currency_at data ["cost_breakdown"; "total_cost"];
    range ← raw_at data ["summary"; "estimated_cost_range"];
    mret (Some {| cards := cards; total_wall_area := walls; door_area := doors;
                  window_area := windows; ceiling_area := ceiling;
                  products := products; total_cost := total;
                  estimated_range := range |}).

End ManualResults.

Module ManualFlow.

(** The values of the inputs of the form when it is submitted; a custom
    door or window dimension is [None] when the page has no such input. *)
Record inputs := {
  length : string;
  width : string;
  height : string;
  num_doors : string;
  num_windows : string;
  paint_type : string;
  num_coats : string;
  include_ceiling : bool;
  door_height : option string;
  door_width : option string;
  window_height : option string;
  window_width : option string
}.

(** One call of [apiCall]: the endpoint and the object that is sent as
    JSON. *)
Record request := { endpoint : string; json : value }.

Definition state : Type := App.page unit request ManualResults.view.
Definition initial : state := App.fresh tt.

Section Handler.

(** The engine's [parseFloat] and [parseInt]. *)
Variables parseFloat parseInt : string → number.
Variable NumberToString : number → string.
(** Whether the page has the two results elements. *)
Variables resultsSection resultsContent : bool.

(** [parseInt(x) || 0] *)
Definition count (x : string) : number :=
  if JsNum.truthy (parseInt x) then parseInt x else zero.

(** [if (x) data.room.k = parseFloat(x)] *)
Definition custom (k : string) (x : option string) : list (string * value) :=
  match x with
  | Some s => if String.eqb s "" then [] else [(k, VNum (parseFloat s))]
  | None => []
  end.

(** [getManualFormData()]: the form as [validateManualForm] reads it, and
    the object that is sent. *)
Definition getManualFormData (i : inputs) : ManualPage.form_data * value :=
  let room := {| ManualPage.length := parseFloat (length i);
                 ManualPage.width := parseFloat (width i);
                 ManualPage.height := parseFloat (height i);
                 ManualPage.num_doors := count (num_doors i);
                 ManualPage.num_windows := count (num_windows i) |} in
  let data := {| ManualPage.form_room := room;
                 ManualPage.paint_type := paint_type i;
                 ManualPage.num_coats := parseInt (num_coats i);
                 ManualPage.include_ceiling := include_ceiling i |} in
  (data,
   VObj [("room",
          VObj ([("length", VNum (ManualPage.length room));
                 ("width", VNum (ManualPage.width room));
                 ("height", VNum (ManualPage.height room));
                 ("num_doors", VNum (ManualPage.num_doors room));
                 ("num_windows", VNum (ManualPage.num_windows room))]
                ++ custom "door_height" (door_height i)
                ++ custom "door_width" (door_width i)
                ++ custom "window_height" (window_height i)
                ++ custom "window_width" (window_width i)));
         ("paint_type", VStr (paint_type i));
         ("num_coats", VNum (parseInt (num_coats i)));
         ("include_ceiling", VBool (include_ceiling i))]).

(** [handleManualEstimation()] up to its [await]. *)
Definition handleManualEstimation (i : inputs) (s : state) : state :=
  let '(formData, sent) := getManualFormData i in
  match ManualPage.validateManualForm formData with
  | (true, _) =>
      App.fetch {| endpoint := "/api/v1/estimate/manual"; json := sent |}
        (App.showLoading s)
  | (false, Some message) => App.showError (App.Literal message) s
  | (false, None) => s
  end.

(** The rest of the handler once the call has settled. *)
Definition settle (r : App.reply) (s : state) : state :=
  let failed e :=
    App.showError (App.message_or e "Failed to calculate estimation") in
  match App.apiCall NumberToString r with
  | App.Thrown e => failed e s
  | App.Returned response =>
      match get response "data" with
      | TypeError => failed (App.Engine App.TypeFault) s
      | Ok data =>
          let s := App.showSuccess (App.Literal "Calculation complete! 🎉")
                     (App.hideLoading s) in
          match ManualResults.displayManualResults resultsSection resultsContent data with
          | TypeError => failed (App.Engine App.TypeFault) s
          | Ok (Some v) => App.write v s
          | Ok None => s
          end
      end
  end.

Inductive event :=
| Submit (i : inputs)
| Settled (r : App.reply).

Definition step (s : state) (e : event) : state :=
  match e with
  | Submit i => handleManualEstimation i s
  | Settled r => settle r s
  end.

Definition run (s : state) (es : list event) : state := foldl step s es.

End Handler.

End ManualFlow.

(** ** The new manual page: its results (manual-estimation-new.js) *)

Module ManualNew.

(** One line of the product card. *)
Record product_row := { row_label : value; row_quantity : shown; row_unit : value }.

(** [q?.toFixed(d) || placeholder]: the placeholder for a quantity that is
    [null] or [undefined]; [toFixed] is a method of Numbers only. *)
Definition fixed_or (q : value) (d : nat) (placeholder : string) : outcome shown :=
  if nullish q then mret (Text placeholder) else toFixed q d.

(** The template of one item, with the name and the unit it falls back
    on. *)
Definition product_item (name unit : string) (item : value) : outcome product_row :=
  n ← get item "product_name";
  label ← converted (or n (VStr name));
  q ← get item "quantity";
  quantity ← fixed_or q 2 "0";
  u ← get item "unit";
  shown_unit ← converted (or u (VStr unit));
  mret {| row_label := label; row_quantity := quantity; row_unit := shown_unit |}.

(** [items.forEach(item => ...)] *)
Fixpoint each_item (name unit : string) (items : list value) : outcome (list product_row) :=
  match items with
  | [] => mret []
  | item :: rest =>
      r ← product_item name unit item;
      rs ← each_item name unit rest;
      mret (r :: rs)
  end.

(** What one of [primer], [paints] and [putty] adds to the items: nothing
    when it is falsy, a line for each entry when it is an array, one line
    when it is something else with a truthy [product_name]. *)
Definition product_items (name unit : string) (product : value) : outcome (list product_row) :=
  if negb (truthy product) then mret []
  else
    match product with
    | VArr items => each_item name unit items
    | _ =>
        n ← get product "product_name";
        if truthy n then r ← product_item name unit product; mret [r]
        else mret []
    end.

(** The content of the product card: the line "No products", or the
    items. *)
Inductive breakdown :=
| NoProducts
| Products (rows : list product_row).

(** [generateProductBreakdown(productBreakdown)] *)
Definition generateProductBreakdown (productBreakdown : value) : outcome breakdown :=
  if negb (truthy productBreakdown) then mret NoProducts
  else
    primer ← get productBreakdown "primer";
    a ← product_items "Primer" "L" primer;
    paints ← get productBreakdown "paints";
    b ← product_items "Paint" "L" paints;
    putty ← get productBreakdown "putty";
    c ← product_items "Putty" "kg" putty;
    let items := a ++ b ++ c in
    mret (if 0 <? length items then Products items else NoProducts).

Record view := {
  paintable_area : shown;
  paint_required : shown;
  number_of_coats : value;
  products : breakdown;
  total_cost : shown
}.

(** [displayResults(data)] of the new manual page, up to the timers that
    scroll to the results and animate the total.  [container] tells whether
    the page has a results container. *)
Definition displayResults (container : bool) (data : value) : outcome (option view) :=
  if negb container then mret None
  else
    summary ← get data "summary";
    area ← fixed_or (get_opt summary "paintable_area_sqft") 1 "N/A";
    paint ← fixed_or (get_opt summary "paint_required_liters") 2 "N/A";
    nc ← get data "num_coats";
    coats ← converted (or nc (VStr "N/A"));
    pb ← get data "product_breakdown";
    products ← generateProductBreakdown pb;
    cb ← get data "cost_breakdown";
    total ← toFixed (or (get_opt cb "total_cost") (VNum zero)) 0;
    mret (Some {| paintable_area := area; paint_required := paint;
                  number_of_coats := coats;
                  products := products; total_cost := total |}).

End ManualNew.

(** ** The floor-plan upload of the estimation page (its shared script) *)

Module FloorPlanUploads.

Definition FLOORPLAN_API_URL : string := "http://localhost:8000/api/v1/estimate/floorplan".

(** What is handed to [formData.append]: a file, or a value that the form
    stores as its string. *)
Inductive entry :=
| FileEntry (f : File)
| TextEntry (s : string)
| NumberEntry (n : number)
| BoolEntry (b : bool).

(** The values of the controls of the form; [None] for a control the page
    does not have. *)
Record controls := {
  ceiling_height : option string;
  paint_type : option string;
  num_coats : option string;
  include_ceiling : option bool
}.

Record state := {
  selectedFloorplanFile : option File;
  loading : bool;
  requests : list (list (string * entry));
  content : option FloorPlanPage.content;
  panel : bool;
  toasts : list App.toast
}.

Definition initial : state :=
  {| selectedFloorplanFile := None; loading := false; requests := [];
     content := None; panel := false; toasts := [] |}.

Definition showToast (message : App.text) (type : string) (s : state) : state :=
  {| selectedFloorplanFile := selectedFloorplanFile s; loading := loading s;
     requests := requests s; content := content s; panel := panel s;
     toasts := toasts s ++ [{| App.shown_text := message; App.kind := type |}] |}.

Definition showLoading (show : bool) (s : state) : state :=
  {| selectedFloorplanFile := selectedFloorplanFile s; loading := show;
     requests := requests s; content := content s; panel := panel s;
     toasts := toasts s |}.

(** [10 * 1024 * 1024] *)
Definition maxSize : N := 10 * 1024 * 1024.

(** [handleFloorPlanSelection(event)], with [file] the first file of the
    input, if it has one. *)
Definition handleFloorPlanSelection (file : option File) (s : state) : state :=
  match file with
  | None => s
  | Some file =>
      if negb (is_image file) then
        showToast (App.Literal "Please select an image file") "error" s
      else if (maxSize <? file_size file)%N then
        showToast (App.Literal "Image size must be less than 10MB") "error" s
      else
        {| selectedFloorplanFile := Some file; loading := loading s;
           requests := requests s; content := content s; panel := panel s;
           toasts := toasts s |}
  end.

(** The [drop] handler of the upload area, on a page that has the file
    input: the files go to the input, and the selection handler runs, when
    the first of them is an image. *)
Definition drop (files : list File) (s : state) : state :=
  match files with
  | file :: _ => if is_image file then handleFloorPlanSelection (Some file) s else s
  | [] => s
  end.

(** [removeFloorPlanImage()] *)
Definition removeFloorPlanImage (s : state) : state :=
  {| selectedFloorplanFile := None; loading := loading s; requests := requests s;
     content := content s; panel := false; toasts := toasts s |}.

Section Handler.

Variable StringToNumber : string → number.
Variables parseFloat parseInt : string → number.
Variable NumberToString : number → string.
(** Whether the page has the two results elements. *)
Variables resultsContent resultsPanel : bool.

(** [x?.value || fallback], then the parsing: the fallbacks [10.0] and [2]
    parse as themselves. *)
Definition parsed (parse : string → number) (x : option string) (fallback : Z) : number :=
  match x with
  | Some s => if String.eqb s "" then of_Z fallback else parse s
  | None => of_Z fallback
  end.

Definition form (file : File) (c : controls) : list (string * entry) :=
  [("image", FileEntry file);
   ("ceiling_height", NumberEntry (parsed parseFloat (ceiling_height c) 10));
   ("paint_type",
    TextEntry match paint_type c with
              | Some s => if String.eqb s "" then "interior" else s
              | None => "interior"
              end);
   ("num_coats", NumberEntry (parsed parseInt (num_coats c) 2));
   ("include_ceiling",
    BoolEntry match include_ceiling c with Some b => b | None => false end)].

(** [handleFloorPlanSubmit(event)] up to its [await]. *)
Definition handleFloorPlanSubmit (c : controls) (s : state) : state :=
  match selectedFloorplanFile s with
  | None => showToast (App.Literal "Please select a floor plan image") "error" s
  | Some file =>
      {| selectedFloorplanFile := selectedFloorplanFile s; loading := true;
         requests := requests s ++ [form file c]; content := content s;
         panel := panel s; toasts := toasts s |}
  end.

(** What [displayFloorPlanResults] has done to the page. *)
Definition display (e : FloorPlanPage.effect) (s : state) : state :=
  {| selectedFloorplanFile := selectedFloorplanFile s; loading := loading s;
     requests := requests s;
     content := match FloorPlanPage.written e with
                | Some c => Some c
                | None => content s
                end;
     panel := panel s || FloorPlanPage.panel_shown e;
     toasts := toasts s |}.

(** The body of the [try] once the call has settled: the page as it leaves
    it, and what it has thrown if it has.  The success toast comes after the
    results are displayed, and its template turns the message into text. *)
Definition attempted (r : App.reply) (s : state) : state * option App.exception :=
  match r with
  | App.Unreachable => (s, Some (App.Engine App.NetworkFault))
  | App.Replied _ None => (s, Some (App.Engine App.SyntaxFault))
  | App.Replied false (Some error) =>
      match (detail ← get error "detail";
             ToString NumberToString
               (or detail (VStr "Floor plan analysis failed"))) with
      | Ok reason => (s, Some (App.Error reason))
      | TypeError => (s, Some (App.Engine App.TypeFault))
      end
  | App.Replied true (Some result) =>
      match get result "success" with
      | TypeError => (s, Some (App.Engine App.TypeFault))
      | Ok success =>
          if truthy success then
            match (data ← get result "data";
                   FloorPlanPage.displayFloorPlanResults StringToNumber
                     resultsContent resultsPanel data) with
            | TypeError => (s, Some (App.Engine App.TypeFault))
            | Ok e =>
                let s := display e s in
                match ToString NumberToString
                        (or (get_opt result "message")
                            (VStr "Floor plan analyzed successfully!")) with
                | Ok message => (showToast (App.Literal message) "success" s, None)
                | TypeError => (s, Some (App.Engine App.TypeFault))
                end
            end
          else (s, Some (App.Error "Floor plan analysis failed"))
      end
  end.

(** The rest of the handler: [try], [catch] into a toast, [finally] hide
    the overlay. *)
Definition settle (r : App.reply) (s : state) : state :=
  showLoading false
    match attempted r s with
    | (s', None) => s'
    | (s', Some e) =>
        showToast (App.message_or e "Failed to analyze floor plan") "error" s'
    end.

Inductive event :=
| Selection (file : option File)
| Drop (files : list File)
| Remove
| Submit (c : controls)
| Settled (r : App.reply).

Definition step (s : state) (e : event) : state :=
  match e with
  | Selection file => handleFloorPlanSelection file s
  | Drop files => drop files s
  | Remove => removeFloorPlanImage s
  | Submit c => handleFloorPlanSubmit c s
  | Settled r => settle r s
  end.

Definition run (s : state) (es : list event) : state := foldl step s es.

End Handler.

End FloorPlanUploads.

(** ** The blueprint page (blueprint-estimation.js) *)

Module BlueprintPage.

Definition API_BASE_URL : string := "http://localhost:8000/api/v1".

Definition validTypes : list string :=
  ["image/jpeg"; "image/jpg"; "image/png"; "application/pdf"].

(** [validTypes.includes(file.type)] *)
Definition valid_type (f : File) : bool :=
  existsb (String.eqb (file_type f)) validTypes.

(** [10 * 1024 * 1024] *)
Definition maxSize : N := 10 * 1024 * 1024.

(** One line of the card of detected rooms. *)
Record room_line := { line_label : value; line_area : shown }.

Record view := {
  rooms : option (list room_line);
  total_floor_area : shown;
  paintable_wall_area : shown;
  paint_required : shown;
  rooms_detected : value;
  shown_ceiling_height : string;
  shown_paint_type : string;
  total_cost : shown
}.

(** The values of the controls of the form. *)
Record controls := {
  ceiling_height : string;
  paint_type : string;
  include_ceiling : bool
}.

Section Results.

Variable StringToNumber : string → number.
#[local] Abbreviation show_positive := (VideoPage.show_positive StringToNumber).

(** [x > 0 ? x.toFixed(d) : 'N/A'], as on the video page. *)
#[local] Abbreviation positive_or := show_positive.

(** The template of one room, [index] being its position in the array. *)
Definition room_line_of (index : nat) (room : value) : outcome room_line :=
  areas ← get room "areas";
  let floorArea := or (get_opt areas "floor_area") (VNum zero) in
  name ← get room "name";
  label ← converted (or name (VStr ("Room " +:+ pretty (index + 1))));
  area ← positive_or floorArea 1 "N/A";
  mret {| line_label := label; line_area := area |}.

(** [data.rooms.map((room, index) => ...)] *)
Fixpoint each_line (index : nat) (rooms : list value) : outcome (list room_line) :=
  match rooms with
  | [] => mret []
  | room :: rest =>
      l ← room_line_of index room;
      ls ← each_line (S index) rest;
      mret (l :: ls)
  end.

(** [displayResults(data)] of the blueprint page.  [container] tells
    whether the page has a results container; the two configuration lines
    echo the controls. *)
Definition displayResults (container : bool) (c : controls) (data : value)
  : outcome (option view) :=
  if negb container then mret None
  else
    rs ← get data "rooms";
    lines ← match rs with
            | VArr rooms => ls ← each_line 0 rooms; mret (Some ls)
            | _ => mret None
            end;
    tprl ← get data "total_paint_required_liters";
    tfa ← get data "total_floor_area";
    tpa ← get data "total_paintable_area";
    floor ← positive_or (or tfa (VNum zero)) 1 "N/A";
    wall ← positive_or (or tpa (VNum zero)) 1 "N/A";
    paint ← positive_or (or tprl (VNum zero)) 2 "N/A";
    tr ← get data "total_rooms";
    detected ← converted (or tr (VNum zero));
    tc ← get data "total_cost";
    cost ← ManualNew.fixed_or tc 0 "0";
    mret (Some {| rooms := lines; total_floor_area := floor;
                  paintable_wall_area := wall; paint_required := paint;
                  rooms_detected := detected;
                  shown_ceiling_height := ceiling_height c;
                  shown_paint_type := paint_type c;
                  total_cost := cost |}).

End Results.

(** The page, with the module variable [uploadedFile] as its selection. *)
Definition state : Type := page (option File) view.
Definition uploadedFile (s : state) : option File := selection s.
Definition initial : state := fresh None.

(** [displayBlueprint(file)] *)
Definition displayBlueprint (file : File) (s : state) : state :=
  if negb (valid_type file) then
    showToast "error" "Invalid File Type" "Please upload an image or PDF floor plan" s
  else if (maxSize <? file_size file)%N then
    showToast "error" "File Too Large" "Please upload a file smaller than 10MB" s
  else
    showToast "success" "Floor Plan Uploaded" "Please configure settings and submit"
      (select (Some file) s).

(** [removeBlueprint()] *)
Definition removeBlueprint (s : state) : state := select None s.

Definition blueprint_form (c : controls) (file : File) : list (string * part) :=
  [("image", FilePart file);
   ("ceiling_height", TextPart (ceiling_height c));
   ("paint_type", TextPart (paint_type c));
   ("num_coats", TextPart "2");
   ("include_ceiling", TextPart (if include_ceiling c then "true" else "false"))].

(** [handleFormSubmit(e)] up to its [await]. *)
Definition handleFormSubmit (c : controls) (s : state) : state :=
  match uploadedFile s with
  | None => showToast "warning" "No Floor Plan" "Please upload a floor plan first" s
  | Some file =>
      fetch {| endpoint := API_BASE_URL +:+ "/estimate/floorplan";
               body := blueprint_form c file |}
            (showLoading true s)
  end.

Section Page.

Variable StringToNumber : string → number.
Variable NumberToString : number → string.
Variable container : bool.

(** The rest of the handler once its [fetch] settles; [c] holds the values
    of the controls at that time.  The success toast comes after the
    results are displayed, and its template turns the message into text. *)
Definition settle (r : response) (c : controls) (s : state) : state :=
  let s := resumed s in
  let failed := showToast "error" "Analysis Failed"
                  "Please ensure the floor plan is clear and try again" in
  showLoading false
    match r with
    | Json responseData =>
        match d ← get responseData "data";
              displayResults StringToNumber container c (or d responseData) with
        | Ok shown =>
            match ToString NumberToString
                    (or (get_opt responseData "message")
                        (VStr "Floor plan analyzed successfully")) with
            | Ok message =>
                showToast "success" "Analysis Complete" message (render shown s)
            | TypeError => failed (render shown s)
            end
        | TypeError => failed s
        end
    | _ => failed s
    end.

Inductive event :=
| DisplayBlueprint (file : File)
| RemoveBlueprint
| FormSubmit (c : controls)
| Settled (r : response) (c : controls).

Definition step (s : state) (e : event) : state :=
  match e with
  | DisplayBlueprint file => displayBlueprint file s
  | RemoveBlueprint => removeBlueprint s
  | FormSubmit c => handleFormSubmit c s
  | Settled r c => settle r c s
  end.

Definition run (s : state) (es : list event) : state := foldl step s es.

End Page.

End BlueprintPage.

(** ** The manual-input modal (manual-input-modal.js) *)

Module ManualInputModal.

(** What the callback registered with [onSubmit] is handed: a measured
    ceiling height with [user_provided: true], or the notice that the user
    skipped. *)
Inductive answer :=
| Measured (ceiling_height : number)
| Skipped.

(** The content of the input [ceilingHeight]: what the user typed, or the
    [height.toFixed(1)] that [show] put there. *)
Inductive field :=
| Typed (s : string)
| Prefilled (height : number).

Record state := {
  active : bool;
  ceilingHeight : field;
  modalMessage : option value;
  confidenceValue : option number;
  onSubmitCallback : bool;
  answers : list answer
}.

(** [new ManualInputModal()] *)
Definition created : state :=
  {| active := false; ceilingHeight := Typed ""; modalMessage := None;
     confidenceValue := None; onSubmitCallback := false; answers := [] |}.

(** [onSubmit(callback)] *)
Definition onSubmit (s : state) : state :=
  {| active := active s; ceilingHeight := ceilingHeight s;
     modalMessage := modalMessage s; confidenceValue := confidenceValue s;
     onSubmitCallback := true; answers := answers s |}.

(** The user types into the input. *)
Definition typed (text : string) (s : state) : state :=
  {| active := active s; ceilingHeight := Typed text;
     modalMessage := modalMessage s; confidenceValue := confidenceValue s;
     onSubmitCallback := onSubmitCallback s; answers := answers s |}.

(** [hide()]: the modal closes and the form is reset. *)
Definition hide (s : state) : state :=
  {| active := false; ceilingHeight := Typed "";
     modalMessage := modalMessage s; confidenceValue := confidenceValue s;
     onSubmitCallback := onSubmitCallback s; answers := answers s |}.

(** The callback is called, when there is one; it is taken to return. *)
Definition call (a : answer) (s : state) : state :=
  {| active := active s; ceilingHeight := ceilingHeight s;
     modalMessage := modalMessage s; confidenceValue := confidenceValue s;
     onSubmitCallback := onSubmitCallback s;
     answers := if onSubmitCallback s then answers s ++ [a] else answers s |}.

Section Modal.

Variable StringToNumber : string → number.
(** The engine's [parseFloat] of the content of the input. *)
Variable parseFloat : field → number.

#[local] Abbreviation defaulted := (VideoPage.defaulted).

(** [show(data)] for the object the video page passes: the modal as the
    call leaves it, and whether it raised.  The two texts are set one after
    the other, each once its value has been converted, before the height is
    read; the modal opens at the end. *)
Definition show (data : VideoPage.manual_request) (s : state) : state * bool :=
  let confidence := defaulted (VideoPage.request_confidence data) (VNum zero) in
  let reason := defaulted (VideoPage.request_reason data)
                  (VStr "Low confidence in automated estimation") in
  let currentEstimate := defaulted (VideoPage.request_currentEstimate data) VNull in
  if negb (convertible reason) then (s, true)
  else
    let s := {| active := active s; ceilingHeight := ceilingHeight s;
                modalMessage := Some reason; confidenceValue := confidenceValue s;
                onSubmitCallback := onSubmitCallback s; answers := answers s |} in
    match ToNumber StringToNumber confidence with
    | TypeError => (s, true)
    | Ok n =>
      let percent := Math_round (mul n (of_Z 100)) in
      let s := {| active := active s; ceilingHeight := ceilingHeight s;
                  modalMessage := modalMessage s; confidenceValue := Some percent;
                  onSubmitCallback := onSubmitCallback s; answers := answers s |} in
      match (if truthy currentEstimate then
               height ← get currentEstimate "height";
               if truthy height then
                 match height with
                 | VNum h => mret (Prefilled h)
                 | _ => TypeError
                 end
               else mret (ceilingHeight s)
             else mret (ceilingHeight s)) with
      | TypeError => (s, true)
      | Ok input =>
          ({| active := true; ceilingHeight := input;
              modalMessage := modalMessage s; confidenceValue := confidenceValue s;
              onSubmitCallback := onSubmitCallback s; answers := answers s |},
           false)
      end
    end.

(** The [submit] handler of the form. *)
Definition submit (s : state) : state :=
  let ceilingHeight := parseFloat (ceilingHeight s) in
  hide (if JsNum.truthy ceilingHeight then call (Measured ceilingHeight) s else s).

(** The [click] handler of the skip button. *)
Definition skip (s : state) : state := hide (call Skipped s).

Inductive event :=
| OnSubmit
| Show (data : VideoPage.manual_request)
| Type_ (text : string)
| Submit
| Skip.

Definition step (s : state) (e : event) : state :=
  match e with
  | OnSubmit => onSubmit s
  | Show data => (show data s).1
  | Type_ text => typed text s
  | Submit => submit s
  | Skip => skip s
  end.

Definition run (s : state) (es : list event) : state := foldl step s es.

End Modal.

End ManualInputModal.

(** ** Vocabulary of the further properties *)

(** The files a request carries, in the order of its form. *)
Definition files_of (r : request) : list File :=
  omap (λ p, match p.2 with FilePart f => Some f | _ => None end) (body r).

(** A request of the image page as it should be: image files only, one of
    them on the single-room endpoint, two to four on the multi-room one. *)
Definition image_request (r : request) : Prop :=
  Forall (λ f, is_image f = true) (files_of r)
  ∧ ((endpoint r = ImageUploads.API_BASE_URL +:+ "/estimate/cv/single-room"
      ∧ length (files_of r) = 1)
     ∨ (endpoint r = ImageUploads.API_BASE_URL +:+ "/estimate/cv/multi-room"
        ∧ 2 ≤ length (files_of r) ≤ 4)).

Definition images_only (s : ImageUploads.state) : Prop :=
  Forall (λ f, is_image f = true) (ImageUploads.uploadedImages s)
  ∧ length (ImageUploads.uploadedImages s) ≤ 4
  ∧ Forall image_request (posts s).

(** A video the video page accepts: of a video type and of at most 50 MiB. *)
Definition acceptable_video (f : File) : Prop :=
  is_video f = true ∧ (file_size f <= VideoUploads.maxSize)%N.

(** A request of the video page as it should be. *)
Definition video_request (r : request) : Prop :=
  endpoint r = VideoUploads.API_BASE_URL +:+ "/estimate/cv/video"
  ∧ ∃ f, files_of r = [f] ∧ acceptable_video f.

Definition videos_only (s : VideoUploads.state) : Prop :=
  (∀ f, VideoUploads.uploadedVideo s = Some f → acceptable_video f)
  ∧ Forall video_request (posts s).

(** A value that is there to have a method called on it. *)
Definition present (v : value) : bool := negb (nullish v).

(** [shape] tells how a step of a template ends: it returns when the shape
    holds and raises when it does not. *)
Definition decides {A} (shape : bool) (step : outcome A) : Prop :=
  if shape then ∃ x, step = Ok x else step = TypeError.

Definition is_string (v : value) : bool :=
  match v with VStr _ => true | _ => false end.

(** The value at the end of a path, [undefined] from where the reading
    stops. *)
Fixpoint at_path (v : value) (path : list string) : value :=
  match path with
  | [] => v
  | k :: rest => at_path (get_opt v k) rest
  end.

(** Whether a path can be read: every value that has a property read from
    it is there. *)
Fixpoint readable (v : value) (path : list string) : bool :=
  match path with
  | [] => true
  | k :: rest => present v && readable (get_opt v k) rest
  end.

(** What a body has at a path can be shown as it is, can be formatted, is
    a string. *)
Definition can_show (data : value) (path : list string) : bool :=
  readable data path && convertible (at_path data path).

Definition can_format (data : value) (path : list string) : bool :=
  readable data path && localizable (at_path data path).

Definition has_text (data : value) (path : list string) : bool :=
  readable data path && is_string (at_path data path).

(** One product of a breakdown as the templates need it: a name and a unit
    that can be shown, a quantity and a cost that can be formatted. *)
Definition product_shape (data : value) (path : list string) : bool :=
  can_show data (path ++ ["product_name"])
  && (can_format data (path ++ ["quantity"])
      && (can_show data (path ++ ["unit"])
          && can_format data (path ++ ["total_cost"]))).

(** A part that has to have its shape only when it is there. *)
Definition optional (data : value) (path : list string) (shape : bool) : bool :=
  readable data path && (if truthy (at_path data path) then shape else true).

(** The body as the card of product requirements needs it: the primer and
    the putty when they are listed, the paint, and a paint type that is a
    string. *)
Definition card_shape (data : value) : bool :=
  optional data ["product_breakdown"; "primer"]
    (product_shape data ["product_breakdown"; "primer"])
  && (optional data ["product_breakdown"; "putty"]
        (product_shape data ["product_breakdown"; "putty"])
      && (can_show data ["product_breakdown"; "paint"; "product_name"]
          && (has_text data ["paint_type"]
              && (can_format data ["product_breakdown"; "paint"; "quantity"]
                  && (can_show data ["product_breakdown"; "paint"; "unit"]
                      && can_format data ["product_breakdown"; "paint"; "total_cost"]))))).

(** What the three summary cards need. *)
Definition summary_shape (data : value) : bool :=
  can_format data ["area_calculation"; "paintable_area"]
  && (can_format data ["product_breakdown"; "paint"; "quantity"]
      && can_show data ["num_coats"]).

(** The body [displayManualResults] can display. *)
Definition manual_result_shape (data : value) : bool :=
  summary_shape data
  && (can_format data ["area_calculation"; "total_wall_area"]
      && (can_format data ["area_calculation"; "door_area"]
          && (can_format data ["area_calculation"; "window_area"]
              && (optional data ["area_calculation"; "ceiling_area"]
                    (can_format data ["area_calculation"; "ceiling_area"])
                  && (card_shape data
                      && (can_format data ["cost_breakdown"; "total_cost"]
                          && can_show data ["summary"; "estimated_cost_range"])))))).

(** A quantity the new manual page can show: missing, [null] or a
    Number. *)
Definition quantity_or_missing (q : value) : bool :=
  match q with VUndefined | VNull | VNum _ => true | _ => false end.

(** An entry of a product list the page can show: not [null], with a name
    and a unit that can be shown and a quantity that is a Number or
    missing. *)
Definition listed_item (item : value) : bool :=
  present item
  && convertible (get_opt item "product_name")
  && quantity_or_missing (get_opt item "quantity")
  && convertible (get_opt item "unit").

(** One of [primer], [paints] and [putty] as the page can show it. *)
Definition listed (product : value) : bool :=
  match product with
  | VArr items => forallb listed_item items
  | _ =>
      if truthy product && truthy (get_opt product "product_name")
      then listed_item product
      else true
  end.

(** The line the page shows for an entry. *)
Definition row_of (name unit : string) (item : value) : ManualNew.product_row :=
  {| ManualNew.row_label := or (get_opt item "product_name") (VStr name);
     ManualNew.row_quantity :=
       match get_opt item "quantity" with
       | VNum n => Fixed 2 n
       | _ => Text "0"
       end;
     ManualNew.row_unit := or (get_opt item "unit") (VStr unit) |}.

(** The lines for one of [primer], [paints] and [putty]. *)
Definition rows_of (name unit : string) (product : value) : list ManualNew.product_row :=
  match product with
  | VArr items => row_of name unit <$> items
  | _ =>
      if truthy product && truthy (get_opt product "product_name")
      then [row_of name unit product]
      else []
  end.

(** A product breakdown the new manual page can show: one that is missing,
    or one whose three lists can be shown. *)
Definition breakdown_shape (pb : value) : bool :=
  negb (truthy pb)
  || (listed (get_opt pb "primer") && listed (get_opt pb "paints")
      && listed (get_opt pb "putty")).

(** The body the new manual page can display: two summary figures that are
    Numbers or missing, a number of coats that can be shown, a breakdown
    that can be shown, and a total cost that is a Number or falsy. *)
Definition manual_new_shape (data : value) : bool :=
  let summary := get_opt data "summary" in
  let total := get_opt (get_opt data "cost_breakdown") "total_cost" in
  present data
  && quantity_or_missing (get_opt summary "paintable_area_sqft")
  && quantity_or_missing (get_opt summary "paint_required_liters")
  && convertible (get_opt data "num_coats")
  && breakdown_shape (get_opt data "product_breakdown")
  && (negb (truthy total) || is_number total).

(** A floor plan the estimation page accepts: an image of at most
    10 MiB. *)
Definition acceptable_floorplan (f : File) : Prop :=
  is_image f = true ∧ (file_size f <= FloorPlanUploads.maxSize)%N.

(** A request of the floor-plan form as it should be: the image first, then
    the four settings. *)
Definition floorplan_request (r : list (string * FloorPlanUploads.entry)) : Prop :=
  ∃ f height type coats ceiling,
    r = [("image", FloorPlanUploads.FileEntry f);
         ("ceiling_height", FloorPlanUploads.NumberEntry height);
         ("paint_type", FloorPlanUploads.TextEntry type);
         ("num_coats", FloorPlanUploads.NumberEntry coats);
         ("include_ceiling", FloorPlanUploads.BoolEntry ceiling)]
    ∧ acceptable_floorplan f ∧ type ≠ "".

Definition floorplans_only (s : FloorPlanUploads.state) : Prop :=
  (∀ f, FloorPlanUploads.selectedFloorplanFile s = Some f → acceptable_floorplan f)
  ∧ Forall floorplan_request (FloorPlanUploads.requests s).

(** A figure that a template passes to [toFixed] after [|| 0]: a Number, or
    anything falsy. *)
Definition number_or_falsy (v : value) : bool := negb (truthy v) || is_number v.

(** A room the floor-plan table can show: not [null]; a length, a width,
    a name and two counts that can be turned into text; a floor area, a
    paintable area and litres of paint that are Numbers or falsy; a cost
    that [toLocaleString] can be called on. *)
Definition room_shape (room : value) : bool :=
  present room
  && convertible (get_opt (get_opt room "dimensions") "length")
  && convertible (get_opt (get_opt room "dimensions") "width")
  && convertible (get_opt room "name")
  && number_or_falsy (get_opt (get_opt room "areas") "floor_area")
  && number_or_falsy (get_opt (get_opt room "areas") "paintable_area")
  && convertible (get_opt room "num_doors")
  && convertible (get_opt room "num_windows")
  && number_or_falsy (get_opt (get_opt room "paint") "liters")
  && localizable (or (get_opt room "total_cost") (or (get_opt room "cost") (VNum zero))).

(** What the floor-plan report needs of the body around its rooms: a number
    of rooms and two figures of the extraction that can be turned into
    text; totals of floor area, paintable area and cost that
    [toLocaleString] can be called on; a total of paint that is a Number or
    falsy. *)
Definition report_shape (data : value) : bool :=
  let metadata := or (get_opt data "ocr_metadata") (VObj []) in
  convertible (get_opt data "total_rooms")
  && convertible (get_opt metadata "dimensions_found")
  && convertible (get_opt metadata "text_regions")
  && localizable (or (get_opt data "total_floor_area") (VNum zero))
  && localizable (or (get_opt data "total_paintable_area") (VNum zero))
  && number_or_falsy (or (get_opt data "total_paint_required_liters")
                         (get_opt data "total_paint_required"))
  && localizable (or (get_opt data "total_cost") (VNum zero)).

(** A floor plan the blueprint page accepts: of one of the four types and of
    at most 10 MiB. *)
Definition acceptable_blueprint (f : File) : Prop :=
  file_type f ∈ BlueprintPage.validTypes ∧ (file_size f <= BlueprintPage.maxSize)%N.

Definition blueprint_request (r : request) : Prop :=
  endpoint r = BlueprintPage.API_BASE_URL +:+ "/estimate/floorplan"
  ∧ ∃ f, files_of r = [f] ∧ acceptable_blueprint f.

Definition blueprints_only (s : BlueprintPage.state) : Prop :=
  (∀ f, BlueprintPage.uploadedFile s = Some f → acceptable_blueprint f)
  ∧ Forall blueprint_request (posts s).

(** The label of the room at position [i] of the blueprint results. *)
Definition room_label (i : nat) (room : value) : value :=
  or (get_opt room "name") (VStr ("Room " +:+ pretty (i + 1))).

Section BlueprintShapes.

Variable StringToNumber : string → number.

(** A figure for [x > 0 ? x.toFixed(d) : 'N/A']: a Number, or anything that
    is not greater than zero. *)
Definition fixed_if_positive (v : value) : bool :=
  negb (gt (numeric StringToNumber v) zero) || is_number v.

(** A figure the blueprint page can show. *)
Definition blueprint_figure (v : value) : bool :=
  convertible v && fixed_if_positive (or v (VNum zero)).

(** A room the blueprint page can show. *)
Definition blueprint_room_shape (room : value) : bool :=
  present room
  && convertible (get_opt room "name")
  && blueprint_figure (get_opt (get_opt room "areas") "floor_area").

(** A body the blueprint page can display. *)
Definition blueprint_shape (data : value) : bool :=
  present data
  && match get_opt data "rooms" with
     | VArr rooms => forallb blueprint_room_shape rooms
     | _ => true
     end
  && blueprint_figure (get_opt data "total_floor_area")
  && blueprint_figure (get_opt data "total_paintable_area")
  && blueprint_figure (get_opt data "total_paint_required_liters")
  && convertible (get_opt data "total_rooms")
  && quantity_or_missing (get_opt data "total_cost").

End BlueprintShapes.

(** An answer of the modal as its callback can rely on it: a measured
    height is neither zero nor NaN. *)
Definition usable_answer (a : ManualInputModal.answer) : Prop :=
  match a with
  | ManualInputModal.Measured h => JsNum.truthy h = true
  | ManualInputModal.Skipped => True
  end.

(** * Properties *)

(** ** Numbers *)

Example of_Z_400 : of_Z 400 = S754_finite false 7036874417766400 (-44).
Proof. reflexivity. Qed.

Example round_half_up : Math_round (decimal 25 1) = of_Z 3.
Proof. vm_compute. reflexivity. Qed.

Example round_neg_half : Math_round (decimal (-25) 1) = of_Z (-2).
Proof. vm_compute. reflexivity. Qed.

Example round_neg_small : Math_round (decimal (-3) 1) = S754_zero true.
Proof. vm_compute. reflexivity. Qed.

(** ** Binary64 arithmetic stays finite below the overflow threshold *)

Section Finiteness.

#[local] Open Scope Z_scope.

Lemma digits2_size (p : positive) : digits2_pos p = Pos.size p.
Proof. induction p; simpl; congruence. Qed.

Lemma Zdigits2_log2 (m : Z) : 0 < m → Zdigits2 m = Z.log2 m + 1.
Proof.
  destruct m as [|p|p]; try lia. intros _. simpl. rewrite digits2_size.
  destruct p; simpl; lia.
Qed.

Lemma Zdigits2_nonneg (m : Z) : 0 <= Zdigits2 m.
Proof. destruct m; simpl; lia. Qed.

Lemma Zdigits2_pos (m : Z) : 0 < m → 0 < Zdigits2 m.
Proof. destruct m; simpl; lia. Qed.

Lemma Zdigits2_bounds (m : Z) : 0 < m → 2 ^ (Zdigits2 m - 1) <= m < 2 ^ Zdigits2 m.
Proof.
  intros Hm. rewrite Zdigits2_log2 by exact Hm.
  replace (Z.log2 m + 1 - 1) with (Z.log2 m) by lia.
  replace (Z.log2 m + 1) with (Z.succ (Z.log2 m)) by lia.
  apply Z.log2_spec. exact Hm.
Qed.

Lemma Zdigits2_le_pow (m k : Z) : 0 <= k → 0 <= m < 2 ^ k → Zdigits2 m <= k.
Proof.
  intros Hk [Hm Hlt]. destruct (Z.eq_dec m 0) as [->|Hne]; [simpl; lia|].
  rewrite Zdigits2_log2 by lia.
  assert (Z.log2 m < k) by (apply Z.log2_lt_pow2; lia). lia.
Qed.

Lemma Zdigits2_ge_pow (m k : Z) : 0 <= k → 2 ^ k <= m → k + 1 <= Zdigits2 m.
Proof.
  intros Hk Hle. assert (0 < 2 ^ k) by (apply Z.pow_pos_nonneg; lia).
  rewrite Zdigits2_log2 by lia.
  assert (k <= Z.log2 m) by (apply Z.log2_le_pow2; lia). lia.
Qed.

Lemma Zdigits2_mono (a b : Z) : 0 <= a <= b → Zdigits2 a <= Zdigits2 b.
Proof.
  intros [Ha Hab]. destruct (Z.eq_dec a 0) as [->|Hne].
  - simpl. apply Zdigits2_nonneg.
  - rewrite !Zdigits2_log2 by lia.
    assert (Z.log2 a <= Z.log2 b) by (apply Z.log2_le_mono; lia). lia.
Qed.

Lemma Zdigits2_shift (m n : Z) :
  0 <= m → 0 <= n → Zdigits2 (m / 2 ^ n) = Z.max 0 (Zdigits2 m - n).
Proof.
  intros Hm Hn. destruct (Z.eq_dec m 0) as [->|Hne].
  { rewrite Z.div_0_l by (apply Z.pow_nonzero; lia). simpl. lia. }
  assert (Hpow : 0 < 2 ^ n) by (apply Z.pow_pos_nonneg; lia).
  pose proof (Zdigits2_bounds m ltac:(lia)) as [Hlo Hhi].
  destruct (Z_lt_le_dec (Zdigits2 m) (n + 1)) as [Hsmall|Hbig].
  - assert (m < 2 ^ n).
    { eapply Z.lt_le_trans; [exact Hhi|]. apply Z.pow_le_mono_r; lia. }
    rewrite Z.div_small by lia. simpl. lia.
  - assert (Hq : 2 ^ (Zdigits2 m - 1 - n) <= m / 2 ^ n < 2 ^ (Zdigits2 m - n)).
    { split.
      - apply Z.div_le_lower_bound; [lia|].
        rewrite <- Z.pow_add_r by lia.
        replace (n + (Zdigits2 m - 1 - n)) with (Zdigits2 m - 1) by lia. exact Hlo.
      - apply Z.div_lt_upper_bound; [lia|].
        rewrite <- Z.pow_add_r by lia.
        replace (n + (Zdigits2 m - n)) with (Zdigits2 m) by lia. exact Hhi. }
    assert (Zdigits2 (m / 2 ^ n) <= Zdigits2 m - n).
    { apply Zdigits2_le_pow; [lia|]. split; [apply Z.div_pos; lia|tauto]. }
    assert (Zdigits2 m - 1 - n + 1 <= Zdigits2 (m / 2 ^ n)).
    { apply Zdigits2_ge_pow; [lia|tauto]. }
    lia.
Qed.

Lemma Zdigits2_succ (m : Z) : 0 <= m → Zdigits2 (m + 1) <= Zdigits2 m + 1.
Proof.
  intros Hm. destruct (Z.eq_dec m 0) as [->|Hne]; [simpl; lia|].
  pose proof (Zdigits2_bounds m ltac:(lia)) as [_ Hhi].
  pose proof (Zdigits2_nonneg m).
  apply Zdigits2_le_pow; [lia|]. split; [lia|].
  rewrite Z.pow_add_r by lia. lia.
Qed.

(** shifting *)
Lemma shr_1_m (mrs : shr_record) : 0 <= shr_m mrs → shr_m (shr_1 mrs) = shr_m mrs / 2.
Proof.
  destruct mrs as [m r s]. simpl. intros Hm.
  destruct m as [|p|p]; try lia; [reflexivity|].
  destruct p; simpl shr_m.
  - rewrite Pos2Z.inj_xI. apply Z.div_unique with (r := 1); lia.
  - rewrite Pos2Z.inj_xO. apply Z.div_unique with (r := 0); lia.
  - reflexivity.
Qed.

Lemma shr_iter_m (p : positive) (mrs : shr_record) :
  0 <= shr_m mrs → shr_m (SpecFloat.iter_pos shr_1 p mrs) = shr_m mrs / 2 ^ Z.pos p.
Proof.
  revert mrs. induction p as [p IH|p IH|]; intros mrs Hm; simpl SpecFloat.iter_pos.
  - assert (H1 : 0 <= shr_m (shr_1 mrs)) by (rewrite shr_1_m by lia; apply Z.div_pos; lia).
    assert (H2 : 0 <= shr_m (SpecFloat.iter_pos shr_1 p (shr_1 mrs))).
    { rewrite IH by lia. apply Z.div_pos; [lia|]. apply Z.pow_pos_nonneg; lia. }
    rewrite IH by lia. rewrite IH by lia. rewrite shr_1_m by lia.
    rewrite !Z.div_div by (try apply Z.pow_pos_nonneg; lia).
    f_equal. replace (Z.pos p~1) with (1 + Z.pos p + Z.pos p) by lia.
    rewrite !Z.pow_add_r by lia. lia.
  - assert (H2 : 0 <= shr_m (SpecFloat.iter_pos shr_1 p mrs)).
    { rewrite IH by lia. apply Z.div_pos; [lia|]. apply Z.pow_pos_nonneg; lia. }
    rewrite IH by lia. rewrite IH by lia.
    rewrite !Z.div_div by (try apply Z.pow_pos_nonneg; lia).
    f_equal. replace (Z.pos p~0) with (Z.pos p + Z.pos p) by lia.
    rewrite !Z.pow_add_r by lia. lia.
  - rewrite shr_1_m by lia. reflexivity.
Qed.

Lemma shr_record_of_loc_m (m : Z) (l : location) : shr_m (shr_record_of_loc m l) = m.
Proof. destruct l as [|[]]; reflexivity. Qed.

Lemma shr_spec (m e n : Z) (l : location) :
  0 <= m →
  let '(mrs, e') := shr (shr_record_of_loc m l) e n in
  shr_m mrs = m / 2 ^ Z.max 0 n ∧ e' = e + Z.max 0 n.
Proof.
  intros Hm. unfold shr. destruct n as [|p|p].
  - rewrite shr_record_of_loc_m. simpl. rewrite Z.div_1_r. lia.
  - rewrite shr_iter_m by (rewrite shr_record_of_loc_m; lia).
    rewrite shr_record_of_loc_m. replace (Z.max 0 (Z.pos p)) with (Z.pos p) by lia. lia.
  - rewrite shr_record_of_loc_m. replace (Z.max 0 (Z.neg p)) with 0 by lia.
    simpl. rewrite Z.div_1_r. lia.
Qed.

#[local] Abbreviation fexp := (SpecFloat.fexp prec emax).

Lemma round_nearest_even_range (m : Z) (l : location) :
  m <= round_nearest_even m l <= m + 1.
Proof.
  destruct l as [|[]]; simpl; try lia. destruct (Z.even m); lia.
Qed.

(** The rounding of [mx * 2^ex] in terms of integers. *)
Lemma binary_round_aux_spec (s : bool) (mx ex : Z) (lx : location) :
  0 <= mx →
  ∃ m2,
    let n1 := Z.max 0 (fexp (Zdigits2 mx + ex) - ex) in
    let m1 := mx / 2 ^ n1 in
    let e1 := ex + n1 in
    let n2 := Z.max 0 (fexp (Zdigits2 m2 + e1) - e1) in
    let m3 := m2 / 2 ^ n2 in
    let e3 := e1 + n2 in
    m1 <= m2 <= m1 + 1 ∧
    binary_round_aux prec emax s mx ex lx =
      match m3 with
      | Z0 => S754_zero s
      | Zpos m => if e3 <=? emax - prec then S754_finite s m e3 else S754_infinity s
      | Zneg _ => S754_nan
      end.
Proof.
  intros Hm. unfold binary_round_aux, shr_fexp.
  pose proof (shr_spec mx ex (fexp (Zdigits2 mx + ex) - ex) lx Hm) as H1.
  destruct (shr (shr_record_of_loc mx lx) ex (fexp (Zdigits2 mx + ex) - ex)) as [mrs1 e1].
  destruct H1 as [Hm1 He1].
  set (m2 := round_nearest_even (shr_m mrs1) (loc_of_shr_record mrs1)).
  assert (Hm1' : 0 <= shr_m mrs1).
  { rewrite Hm1. apply Z.div_pos; [lia|]. apply Z.pow_pos_nonneg; lia. }
  pose proof (round_nearest_even_range (shr_m mrs1) (loc_of_shr_record mrs1)) as Hr.
  fold m2 in Hr.
  pose proof (shr_spec m2 e1 (fexp (Zdigits2 m2 + e1) - e1) loc_Exact ltac:(lia)) as H2.
  destruct (shr (shr_record_of_loc m2 loc_Exact) e1 (fexp (Zdigits2 m2 + e1) - e1)) as [mrs2 e2].
  destruct H2 as [Hm2 He2].
  exists m2. cbv zeta. rewrite <- He1, <- Hm1. split; [exact Hr|].
  rewrite <- Hm2, <- He2. reflexivity.
Qed.

Lemma fexp_eq (e : Z) : fexp e = Z.max (e - 53) (-1074).
Proof. reflexivity. Qed.

Lemma round_bounded (s : bool) (mx ex : Z) (lx : location) (k : Z) :
  0 <= mx →
  ex <= fexp (Zdigits2 mx + ex) →
  Zdigits2 mx + ex <= k → -1074 <= k →
  match binary_round_aux prec emax s mx ex lx with
  | S754_zero _ => Zdigits2 mx + ex <= -1074
  | S754_finite _ m e =>
      valid_binary prec emax (S754_finite s m e) = true
      ∧ Z.pos (digits2_pos m) + e <= k + 1
      ∧ (-1074 < Zdigits2 mx + ex → Zdigits2 mx + ex <= Z.pos (digits2_pos m) + e)
  | S754_infinity _ => 1024 <= k
  | S754_nan => False
  end.
Proof.
  intros Hm Hal Hk Hlo.
  destruct (binary_round_aux_spec s mx ex lx Hm) as (m2 & Hspec).
  cbv zeta in Hspec. destruct Hspec as [Hm2 ->].
  rewrite !fexp_eq in *.
  pose proof (Zdigits2_nonneg mx) as Hd0.
  remember (Zdigits2 mx) as d eqn:Ed.
  remember (Z.max 0 (Z.max (d + ex - 53) (-1074) - ex)) as n1 eqn:En1.
  remember (ex + n1) as e1 eqn:Ee1.
  remember (Z.max 0 (Z.max (Zdigits2 m2 + e1 - 53) (-1074) - e1)) as n2 eqn:En2.
  assert (Hm1 : 0 <= mx / 2 ^ n1) by (apply Z.div_pos; [lia|apply Z.pow_pos_nonneg; lia]).
  assert (Hd1 : Zdigits2 (mx / 2 ^ n1) = Z.max 0 (d - n1)).
  { rewrite Ed. apply Zdigits2_shift; lia. }
  remember (mx / 2 ^ n1) as m1 eqn:Em1. clear Em1.
  assert (Hd2a : Zdigits2 m1 <= Zdigits2 m2) by (apply Zdigits2_mono; lia).
  assert (Hd2b : Zdigits2 m2 <= Zdigits2 m1 + 1).
  { etransitivity; [|apply Zdigits2_succ; lia]. apply Zdigits2_mono; lia. }
  assert (Hd3 : Zdigits2 (m2 / 2 ^ n2) = Z.max 0 (Zdigits2 m2 - n2))
    by (apply Zdigits2_shift; lia).
  assert (Hm3 : 0 <= m2 / 2 ^ n2) by (apply Z.div_pos; [lia|apply Z.pow_pos_nonneg; lia]).
  remember (Zdigits2 m1) as d1 eqn:Ed1. remember (Zdigits2 m2) as d2 eqn:Ed2.
  clear Ed1 Ed2 Ed.
  destruct (m2 / 2 ^ n2) as [|p3|p3] eqn:E3; [| |lia].
  - simpl in Hd3. lia.
  - change (Zdigits2 (Z.pos p3)) with (Z.pos (digits2_pos p3)) in Hd3.
    destruct (Z.leb_spec (e1 + n2) (emax - prec)) as [Hfin|Hinf];
      unfold emax, prec in *; [|lia].
    split; [|split].
    + unfold valid_binary, bounded, canonical_mantissa.
      apply andb_true_iff. split; [|apply Z.leb_le; unfold emax, prec; lia].
      apply Z.eqb_eq. rewrite fexp_eq. lia.
    + lia.
    + lia.
Qed.

Lemma valid_finite (s : bool) (m : positive) (e : Z) :
  valid (S754_finite s m e) = true →
  e = Z.max (Z.pos (digits2_pos m) + e - 53) (-1074) ∧ e <= 971.
Proof.
  unfold valid, valid_binary, bounded, canonical_mantissa.
  intros [H1 H2]%andb_true_iff. apply Z.eqb_eq in H1. apply Z.leb_le in H2.
  rewrite fexp_eq in H1. unfold emax, prec in H2. lia.
Qed.

Lemma Zdigits2_mul (a b : Z) :
  0 < a → 0 < b →
  Zdigits2 a + Zdigits2 b - 1 <= Zdigits2 (a * b) <= Zdigits2 a + Zdigits2 b.
Proof.
  intros Ha Hb.
  pose proof (Zdigits2_bounds a Ha) as [Ha1 Ha2].
  pose proof (Zdigits2_bounds b Hb) as [Hb1 Hb2].
  pose proof (Zdigits2_pos a Ha). pose proof (Zdigits2_pos b Hb).
  split.
  - assert (Zdigits2 a - 1 + (Zdigits2 b - 1) + 1 <= Zdigits2 (a * b)); [|lia].
    apply Zdigits2_ge_pow; [lia|]. rewrite Z.pow_add_r by lia.
    apply Z.mul_le_mono_nonneg; try lia; apply Z.pow_nonneg; lia.
  - apply Zdigits2_le_pow; [lia|]. split; [lia|].
    rewrite Z.pow_add_r by lia. apply Z.mul_lt_mono_nonneg; lia.
Qed.

Lemma fin_of_round (s : bool) (mx ex : Z) (lx : location) (k : Z) :
  0 <= mx →
  ex <= fexp (Zdigits2 mx + ex) →
  Zdigits2 mx + ex <= k → -1074 <= k → k < 1024 →
  fin (k + 1) (binary_round_aux prec emax s mx ex lx).
Proof.
  intros Hm Hal Hk Hlo Hhi.
  pose proof (round_bounded s mx ex lx k Hm Hal Hk Hlo) as H.
  assert (Hs : ∀ s' m e, binary_round_aux prec emax s mx ex lx = S754_finite s' m e → s' = s).
  { intros s' m e. destruct (binary_round_aux_spec s mx ex lx Hm) as (m2 & Hspec).
    cbv zeta in Hspec. destruct Hspec as [_ ->].
    destruct (_ / _); try discriminate. destruct (_ <=? _); congruence. }
  destruct (binary_round_aux prec emax s mx ex lx) as [s'|s'| |s' m e] eqn:E;
    try contradiction; try lia.
  - split; [reflexivity|exact I].
  - rewrite (Hs s' m e eq_refl) in *. destruct H as (Hv & Hb & _). split; assumption.
Qed.

Lemma mul_fin (kx ky : Z) (x y : spec_float) :
  fin kx x → fin ky y → -1074 <= kx + ky → kx + ky < 1024 →
  fin (kx + ky + 1) (SFmul prec emax x y).
Proof.
  intros [Hvx Hbx] [Hvy Hby] Hlo Hhi.
  destruct x as [sx|sx| |sx mx ex], y as [sy|sy| |sy my ey];
    cbn [below] in Hbx, Hby; try contradiction; try (split; [reflexivity|exact I]).
  apply valid_finite in Hvx as [Hcx _], Hvy as [Hcy _].
  unfold SFmul.
  pose proof (Zdigits2_mul (Z.pos mx) (Z.pos my) ltac:(lia) ltac:(lia)) as [Hd1 Hd2].
  change (Zdigits2 (Z.pos mx)) with (Z.pos (digits2_pos mx)) in *.
  change (Zdigits2 (Z.pos my)) with (Z.pos (digits2_pos my)) in *.
  change (Z.pos mx * Z.pos my) with (Z.pos (mx * my)) in *.
  apply fin_of_round; try lia. rewrite fexp_eq. lia.
Qed.

Lemma div_core_spec (m1 : positive) (e1 : Z) (m2 : positive) (e2 : Z) :
  let d1 := Z.pos (digits2_pos m1) in
  let d2 := Z.pos (digits2_pos m2) in
  let e' := Z.min (fexp (d1 + e1 - (d2 + e2))) (e1 - e2) in
  let s := e1 - e2 - e' in
  ∃ l,
    SFdiv_core_binary prec emax (Z.pos m1) e1 (Z.pos m2) e2
    = (Z.pos m1 * 2 ^ s / Z.pos m2, e', l).
Proof.
  intros d1 d2 e' s. unfold SFdiv_core_binary.
  change (Zdigits2 (Z.pos m1)) with d1. change (Zdigits2 (Z.pos m2)) with d2.
  fold e'. fold s.
  assert (Hs : 0 <= s) by (unfold s, e'; lia).
  assert (Hm : match s with
               | Z.pos _ => Z.shiftl (Z.pos m1) s
               | 0 => Z.pos m1
               | Z.neg _ => 0
               end = Z.pos m1 * 2 ^ s).
  { destruct s as [|p|p]; try lia.
    - now rewrite Z.shiftl_mul_pow2 by lia. }
  rewrite Hm. unfold Z.div.
  destruct (Z.div_eucl (Z.pos m1 * 2 ^ s) (Z.pos m2)) as [q r].
  eexists. reflexivity.
Qed.

Lemma div_fin (kx ly : Z) (x y : spec_float) :
  fin kx x →
  valid y = true →
  match y with
  | S754_finite _ my ey => ly <= Z.pos (digits2_pos my) + ey
  | S754_infinity _ => True
  | _ => False
  end →
  -1074 <= kx - ly + 1 → kx - ly + 1 < 1024 →
  fin (kx - ly + 2) (SFdiv prec emax x y).
Proof.
  intros [Hvx Hbx] Hvy Hy Hlo Hhi.
  destruct x as [sx|sx| |sx mx ex], y as [sy|sy| |sy my ey];
    cbn [below] in Hbx; try contradiction; try (split; [reflexivity|exact I]).
  apply valid_finite in Hvx as [Hcx _], Hvy as [Hcy _].
  unfold SFdiv.
  destruct (div_core_spec mx ex my ey) as (l & ->). cbv zeta.
  remember (Z.pos (digits2_pos mx)) as d1 eqn:Ed1.
  remember (Z.pos (digits2_pos my)) as d2 eqn:Ed2.
  rewrite fexp_eq.
  remember (Z.min (Z.max (d1 + ex - (d2 + ey) - 53) (-1074)) (ex - ey)) as e' eqn:Ee.
  remember (ex - ey - e') as s eqn:Es.
  assert (Hs : 0 <= s) by lia.
  pose proof (Zdigits2_bounds (Z.pos mx) ltac:(lia)) as [Hx1 Hx2].
  pose proof (Zdigits2_bounds (Z.pos my) ltac:(lia)) as [Hy1 Hy2].
  change (Zdigits2 (Z.pos mx)) with (Z.pos (digits2_pos mx)) in *.
  change (Zdigits2 (Z.pos my)) with (Z.pos (digits2_pos my)) in *.
  rewrite <- Ed1 in *. rewrite <- Ed2 in *.
  assert (Hd1 : 0 < d1) by lia. assert (Hd2 : 0 < d2) by lia.
  assert (Hpow : 0 < 2 ^ s) by (apply Z.pow_pos_nonneg; lia).
  set (q := Z.pos mx * 2 ^ s / Z.pos my).
  assert (Hq0 : 0 <= q) by (apply Z.div_pos; lia).
  (* the quotient has at most d1 + s - d2 + 1 digits *)
  assert (Hup : Zdigits2 q <= Z.max 0 (d1 + s - d2 + 1)).
  { destruct (Z_lt_le_dec (d1 + s - d2 + 1) 0) as [Hneg|Hnn].
    - assert (Hlt : Z.pos mx * 2 ^ s < Z.pos my).
      { eapply Z.lt_le_trans; [|exact Hy1].
        eapply Z.lt_le_trans; [apply Z.mul_lt_mono_pos_r; [lia|exact Hx2]|].
        rewrite <- Z.pow_add_r by lia. apply Z.pow_le_mono_r; lia. }
      unfold q. rewrite Z.div_small by lia. simpl. lia.
    - replace (Z.max 0 (d1 + s - d2 + 1)) with (d1 + s - d2 + 1) by lia.
      apply Zdigits2_le_pow; [lia|]. split; [lia|].
      unfold q. apply Z.div_lt_upper_bound; [lia|].
      eapply Z.lt_le_trans; [apply Z.mul_lt_mono_pos_r; [lia|exact Hx2]|].
      rewrite <- Z.pow_add_r by lia.
      eapply Z.le_trans; [|apply Z.mul_le_mono_nonneg_r; [|exact Hy1]].
      + rewrite <- Z.pow_add_r by lia. apply Z.pow_le_mono_r; lia.
      + apply Z.pow_nonneg; lia. }
  (* and at least d1 + s - d2 when that is positive *)
  assert (Hdown : 1 <= d1 + s - d2 → d1 + s - d2 <= Zdigits2 q).
  { intros Hbig.
    assert (d1 + s - d2 - 1 + 1 <= Zdigits2 q); [|lia].
    apply Zdigits2_ge_pow; [lia|].
    unfold q. apply Z.div_le_lower_bound; [lia|].
    eapply Z.le_trans; [apply Z.mul_le_mono_nonneg_r; [|apply Z.lt_le_incl, Hy2]|].
    - apply Z.pow_nonneg; lia.
    - rewrite <- Z.pow_add_r by lia.
      eapply Z.le_trans; [|apply Z.mul_le_mono_nonneg_r; [lia|exact Hx1]].
      rewrite <- Z.pow_add_r by lia. apply Z.pow_le_mono_r; lia. }
  pose proof (Zdigits2_nonneg q) as Hdq.
  replace (kx - ly + 2) with (kx - ly + 1 + 1) by lia.
  apply fin_of_round; try lia.
  rewrite fexp_eq. destruct (Z_lt_le_dec (d1 + s - d2) 1); lia.
Qed.

Lemma Zdigits2_mul_pow2 (m n : Z) :
  0 < m → 0 <= n → Zdigits2 (m * 2 ^ n) = Zdigits2 m + n.
Proof.
  intros Hm Hn. pose proof (Zdigits2_bounds m Hm) as [H1 H2].
  pose proof (Zdigits2_pos m Hm).
  assert (Hpow : 0 < 2 ^ n) by (apply Z.pow_pos_nonneg; lia).
  assert (Zdigits2 (m * 2 ^ n) <= Zdigits2 m + n).
  { apply Zdigits2_le_pow; [lia|]. split; [lia|].
    rewrite Z.pow_add_r by lia. apply Z.mul_lt_mono_pos_r; lia. }
  assert (Zdigits2 m - 1 + n + 1 <= Zdigits2 (m * 2 ^ n)).
  { apply Zdigits2_ge_pow; [lia|].
    rewrite Z.pow_add_r by lia. apply Z.mul_le_mono_nonneg_r; lia. }
  lia.
Qed.

(** A positive integer converts to a canonical value that is at least 1,
    or to +Infinity. *)
Lemma of_Z_pos (p : positive) :
  match binary_normalize prec emax (Z.pos p) 0 false with
  | S754_finite _ m e =>
      valid (S754_finite false m e) = true ∧ 1 <= Z.pos (digits2_pos m) + e
  | S754_infinity _ => True
  | _ => False
  end.
Proof.
  unfold binary_normalize, binary_round, shl_align.
  rewrite Z.add_0_r, Z.sub_0_r, fexp_eq.
  pose proof (Zdigits2_pos (Z.pos p) ltac:(lia)) as Hd.
  change (Zdigits2 (Z.pos p)) with (Z.pos (digits2_pos p)) in Hd.
  remember (Z.pos (digits2_pos p)) as d eqn:Ed.
  destruct (Z.max (d - 53) (-1074)) as [|q|q] eqn:Ef.
  - pose proof (round_bounded false (Z.pos p) 0 loc_Exact d) as H.
    change (Zdigits2 (Z.pos p)) with (Z.pos (digits2_pos p)) in H. rewrite <- Ed in H.
    rewrite fexp_eq in H. specialize (H ltac:(lia) ltac:(lia) ltac:(lia) ltac:(lia)).
    destruct (binary_round_aux prec emax false (Z.pos p) 0 loc_Exact);
      [lia|exact I|contradiction|].
    destruct H as (Hv & _ & Hl). split; [exact Hv|lia].
  - pose proof (round_bounded false (Z.pos p) 0 loc_Exact d) as H.
    change (Zdigits2 (Z.pos p)) with (Z.pos (digits2_pos p)) in H. rewrite <- Ed in H.
    rewrite fexp_eq in H. specialize (H ltac:(lia) ltac:(lia) ltac:(lia) ltac:(lia)).
    destruct (binary_round_aux prec emax false (Z.pos p) 0 loc_Exact);
      [lia|exact I|contradiction|].
    destruct H as (Hv & _ & Hl). split; [exact Hv|lia].
  - assert (Hz : Z.pos (Pos.iter xO p q) = Z.pos p * 2 ^ Z.pos q).
    { change (Pos.iter xO p q) with (shift_pos q p).
      rewrite shift_pos_correct. rewrite Zpower_pos_nat, Zpower_nat_Z.
      rewrite positive_nat_Z. lia. }
    pose proof (round_bounded false (Z.pos (Pos.iter xO p q)) (Z.neg q) loc_Exact d) as H.
    rewrite Hz in H. rewrite Zdigits2_mul_pow2 in H by lia.
    change (Zdigits2 (Z.pos p)) with (Z.pos (digits2_pos p)) in H. rewrite <- Ed in H.
    rewrite fexp_eq in H. specialize (H ltac:(lia) ltac:(lia) ltac:(lia) ltac:(lia)).
    rewrite <- Hz in H.
    destruct (binary_round_aux prec emax false (Z.pos (Pos.iter xO p q)) (Z.neg q) loc_Exact);
      [lia|exact I|contradiction|].
    destruct H as (Hv & _ & Hl). split; [exact Hv|lia].
Qed.

Lemma round_sign (s : bool) (mx ex : Z) (lx : location) :
  0 <= mx →
  match binary_round_aux prec emax s mx ex lx with
  | S754_zero s' | S754_infinity s' | S754_finite s' _ _ => s' = s
  | S754_nan => True
  end.
Proof.
  intros Hm. destruct (binary_round_aux_spec s mx ex lx Hm) as (m2 & Hspec).
  cbv zeta in Hspec. destruct Hspec as [_ ->].
  destruct (_ / _); try reflexivity. destruct (_ <=? _); reflexivity.
Qed.

(** The conversion of a positive integer is positive. *)
Lemma of_Z_pos_sign (p : positive) :
  match of_Z (Z.pos p) with
  | S754_zero s' | S754_infinity s' | S754_finite s' _ _ => s' = false
  | S754_nan => True
  end.
Proof.
  unfold of_Z, binary_normalize, binary_round.
  destruct (shl_align p 0 _) as [mz ez]. apply round_sign. lia.
Qed.

Lemma of_Z_pos_positive (p : positive) :
  gt (of_Z (Z.pos p)) zero = true ∧ JsNum.truthy (of_Z (Z.pos p)) = true.
Proof.
  pose proof (of_Z_pos p) as H. pose proof (of_Z_pos_sign p) as Hs.
  fold (of_Z (Z.pos p)) in H.
  destruct (of_Z (Z.pos p)) as [s'|s'| |s' m e]; try contradiction; subst s';
    split; reflexivity.
Qed.

Lemma fin_is_finite (k : Z) (x : number) : fin k x → is_finite x = true.
Proof. intros [_ Hb]. destruct x; try contradiction; reflexivity. Qed.

(** The side estimated from an area below [2^1000] is finite, however
    many rooms the area is shared between. *)
Lemma side_finite (pa : number) (p : positive) :
  fin 1000 pa →
  is_finite (div (div (mul (div pa (of_Z (Z.pos p))) (of_Z 2)) (of_Z 10)) (of_Z 2)) = true.
Proof.
  intros Hpa.
  assert (H1 : fin 1001 (div pa (of_Z (Z.pos p)))).
  { change 1001 with (1000 - 1 + 2). apply div_fin; try lia; try exact Hpa.
    - pose proof (of_Z_pos p) as H. fold (of_Z (Z.pos p)) in H.
      destruct (of_Z (Z.pos p)); try contradiction; [reflexivity|tauto].
    - pose proof (of_Z_pos p) as H. fold (of_Z (Z.pos p)) in H.
      destruct (of_Z (Z.pos p)); try contradiction; [exact I|tauto]. }
  assert (H2 : fin 1004 (mul (div pa (of_Z (Z.pos p))) (of_Z 2))).
  { change 1004 with (1001 + 2 + 1). apply mul_fin; try lia; try exact H1.
    split; [reflexivity|vm_compute; discriminate]. }
  assert (H3 : fin 1002 (div (mul (div pa (of_Z (Z.pos p))) (of_Z 2)) (of_Z 10))).
  { change 1002 with (1004 - 4 + 2). apply div_fin; try lia; try exact H2.
    - reflexivity.
    - vm_compute. discriminate. }
  apply (fin_is_finite (1002 - 2 + 2)). apply div_fin; try lia; try exact H3.
  - reflexivity.
  - vm_compute. discriminate.
Qed.

End Finiteness.

(** ** Conversions *)

Section Conversions.

Variable StringToNumber : string → number.

Lemma ToNumber_number (n : number) : ToNumber StringToNumber (VNum n) = Ok n.
Proof. reflexivity. Qed.

Lemma gt_zero_cases (v : value) :
  gt_zero StringToNumber v
  = if convertible v then Ok (gt (numeric StringToNumber v) zero) else TypeError.
Proof. unfold gt_zero, ToNumber. by destruct (convertible v). Qed.

Lemma gt_zero_number (n : number) : gt_zero StringToNumber (VNum n) = Ok (gt n zero).
Proof. reflexivity. Qed.

Lemma isNaN_cases (v : value) :
  isNaN StringToNumber v
  = if convertible v then Ok (is_nan (numeric StringToNumber v)) else TypeError.
Proof. unfold isNaN, ToNumber. by destruct (convertible v). Qed.

Lemma divide_numbers (a b : number) :
  divide StringToNumber (VNum a) (VNum b) = Ok (div a b).
Proof. reflexivity. Qed.

Lemma plain_cases (v : value) :
  plain v = if convertible v then Ok (Plain v) else TypeError.
Proof. unfold plain, converted. by destruct (convertible v). Qed.

Lemma sum_cases (a b : value) :
  sum a b = if convertible a && convertible b then Ok (Sum a b) else TypeError.
Proof. unfold sum, converted. by destruct (convertible a), (convertible b). Qed.

End Conversions.

(** ** The image page: the area-based dimension fallback *)

Section ImageFallback.

Variable StringToNumber : string → number.

(** C2.  A body with [total_paintable_area = 400], no [dimensions] and no
    [rooms]: length, width and height are first read as [0], so the fallback
    fires with room count [1]; the wall area is [400 / 1 = 400], the
    perimeter [(400 * 2) / 10 = 80], the side [80 / 2 = 40], and the
    dimensions come out as length [40], width [40], height [10]. *)
Theorem area_fallback_400 (fields : list (string * value)) :
  lookup_field "total_paintable_area" fields = VNum (of_Z 400) →
  lookup_field "dimensions" fields = VUndefined →
  lookup_field "rooms" fields = VUndefined →
  let data := VObj fields in
  ImagePage.read_dimensions StringToNumber data
    = Ok {| ImagePage.length := VNum zero; ImagePage.width := VNum zero;
            ImagePage.height := VNum zero |}
  ∧ ImagePage.paintableArea data = Ok (VNum (of_Z 400))
  ∧ ImagePage.fallback_fires
      {| ImagePage.length := VNum zero; ImagePage.width := VNum zero;
         ImagePage.height := VNum zero |} (VNum (of_Z 400)) = true
  ∧ ImagePage.estimatedHeight = of_Z 10
  ∧ ImagePage.roomCount data = Ok (VNum (of_Z 1))
  ∧ divide StringToNumber (VNum (of_Z 400)) (VNum (of_Z 1)) = Ok (of_Z 400)
  ∧ div (mul (of_Z 400) (of_Z 2)) (of_Z 10) = of_Z 80
  ∧ div (of_Z 80) (of_Z 2) = of_Z 40
  ∧ ImagePage.resolve_dimensions StringToNumber data
    = Ok {| ImagePage.length := VNum (of_Z 40); ImagePage.width := VNum (of_Z 40);
            ImagePage.height := VNum (of_Z 10) |}.
Proof.
  intros Harea Hdims Hrooms data.
  assert (Hread : ImagePage.read_dimensions StringToNumber data
    = Ok {| ImagePage.length := VNum zero; ImagePage.width := VNum zero;
            ImagePage.height := VNum zero |}).
  { unfold ImagePage.read_dimensions, ImagePage.dimensions, data. simpl.
    rewrite Hrooms. simpl. rewrite Hdims. reflexivity. }
  assert (Hpa : ImagePage.paintableArea data = Ok (VNum (of_Z 400))).
  { unfold ImagePage.paintableArea, data. simpl. rewrite Harea. reflexivity. }
  assert (Hcount : ImagePage.roomCount data = Ok (VNum (of_Z 1))).
  { unfold ImagePage.roomCount, data. simpl. rewrite Hrooms. reflexivity. }
  split; [exact Hread|]. split; [exact Hpa|].
  split; [vm_compute; reflexivity|]. split; [reflexivity|].
  split; [exact Hcount|].
  split; [vm_compute; reflexivity|]. split; [vm_compute; reflexivity|].
  split; [vm_compute; reflexivity|].
  unfold ImagePage.resolve_dimensions.
  rewrite Hread. simpl. rewrite Hpa. simpl. rewrite Hcount.
  vm_compute. reflexivity.
Qed.

End ImageFallback.

Lemma area_fallback_400_witness :
  ImagePage.resolve_dimensions unread (VObj [("total_paintable_area", VNum (of_Z 400))])
  = Ok {| ImagePage.length := VNum (of_Z 40); ImagePage.width := VNum (of_Z 40);
          ImagePage.height := VNum (of_Z 10) |}.
Proof.
  apply (area_fallback_400 unread [("total_paintable_area", VNum (of_Z 400))]);
    reflexivity.
Defined.

(** ** The upload list of the image page *)

Section UploadList.

Variable StringToNumber : string → number.
Variable container : bool.

Import ImageUploads.

#[local] Abbreviation run := (ImageUploads.run StringToNumber container).
#[local] Abbreviation step := (ImageUploads.step StringToNumber container).

Lemma length_delete_le {A} (i : nat) (l : list A) :
  length (delete i l) ≤ length l.
Proof.
  revert i. induction l as [|x l IH]; intros [|i]; simpl; try lia.
  specialize (IH i). lia.
Qed.

Lemma length_splice1 {A} (index : Z) (l : list A) :
  length (splice1 index l) ≤ length l.
Proof. unfold splice1. apply length_delete_le. Qed.

(** What [addMultipleImages] does to the list: nothing, or all the images
    of the batch at its end. *)
Lemma addMultipleImages_selection (files : list File) (s : state) :
  let imageFiles := filter (λ f, is_image f = true) files in
  uploadedImages (addMultipleImages files s) =
    if (length imageFiles =? 0) || (4 <? length (uploadedImages s) + length imageFiles)
    then uploadedImages s
    else uploadedImages s ++ imageFiles.
Proof.
  unfold addMultipleImages. simpl.
  destruct (length (filter _ files) =? 0); simpl; [reflexivity|].
  destruct (4 <? _); reflexivity.
Qed.

Lemma addMultipleImages_bounded (files : list File) (s : state) :
  length (uploadedImages s) ≤ 4 →
  length (uploadedImages (addMultipleImages files s)) ≤ 4.
Proof.
  intros Hs. rewrite addMultipleImages_selection.
  destruct (length (filter _ files) =? 0); simpl; [exact Hs|].
  destruct (Nat.ltb_spec 4 (length (uploadedImages s) + length (filter (λ f, is_image f = true) files)));
    [exact Hs|].
  rewrite length_app. lia.
Qed.

Lemma displaySingleImage_bounded (file : File) (s : state) :
  length (uploadedImages s) ≤ 4 →
  length (uploadedImages (displaySingleImage file s)) ≤ 4.
Proof.
  intros Hs. unfold displaySingleImage.
  destruct (negb (is_image file)); simpl; [exact Hs|lia].
Qed.

Lemma removeMultiImage_bounded (index : Z) (s : state) :
  length (uploadedImages s) ≤ 4 →
  length (uploadedImages (removeMultiImage index s)) ≤ 4.
Proof.
  intros Hs. unfold removeMultiImage. simpl.
  pose proof (length_splice1 index (uploadedImages s)). lia.
Qed.

(** The submit handlers and the settling of a request leave the list as it
    is. *)
Lemma handleSingleSubmit_selection (sel : selects) (s : state) :
  uploadedImages (handleSingleSubmit sel s) = uploadedImages s.
Proof.
  unfold handleSingleSubmit.
  destruct (uploadedImages s) eqn:E; simpl; unfold uploadedImages in *; congruence.
Qed.

Lemma handleMultiSubmit_selection (sel : selects) (s : state) :
  uploadedImages (handleMultiSubmit sel s) = uploadedImages s.
Proof.
  unfold handleMultiSubmit. destruct (_ <? 2); reflexivity.
Qed.

Lemma settle_selection (done failed : string) (r : response) (s : state) :
  uploadedImages (settle StringToNumber container done failed r s) = uploadedImages s.
Proof.
  unfold settle. destruct r as [status| |data]; simpl; try reflexivity.
  destruct (ImagePage.displayResults _ _ _); reflexivity.
Qed.

Lemma step_bounded (s : state) (e : event) :
  length (uploadedImages s) ≤ 4 →
  length (uploadedImages (step s e)) ≤ 4.
Proof.
  intros Hs. destruct e; cbn [ImageUploads.step].
  - by apply displaySingleImage_bounded.
  - unfold removeSingleImage. simpl. lia.
  - by apply addMultipleImages_bounded.
  - by apply removeMultiImage_bounded.
  - by rewrite handleSingleSubmit_selection.
  - by rewrite handleMultiSubmit_selection.
  - by rewrite settle_selection.
  - by rewrite settle_selection.
Qed.

Lemma run_bounded (es : list event) (s : state) :
  length (uploadedImages s) ≤ 4 →
  length (uploadedImages (run s es)) ≤ 4.
Proof.
  revert s. induction es as [|e es IH]; intros s Hs; simpl; [exact Hs|].
  apply IH. by apply step_bounded.
Qed.

Lemma reachable_bounded (es : list event) :
  length (uploadedImages (run initial es)) ≤ 4.
Proof. apply run_bounded. simpl. lia. Qed.

(** C9.  The upload list of the image page never holds more than four
    entries: it is empty at first; adding a batch, removing one entry by
    index, selecting a single image and removing the single image each take
    a list of at most four entries to a list of at most four entries, so
    does every other event of the page, and so the list has at most four
    entries after any run of events.  A batch that would take the list past
    four leaves it exactly as it was. *)
Theorem uploadedImages_at_most_four (s : state) (es : list event) :
  length (uploadedImages s) ≤ 4 →
  (∀ files, length (uploadedImages (addMultipleImages files s)) ≤ 4)
  ∧ (∀ index, length (uploadedImages (removeMultiImage index s)) ≤ 4)
  ∧ (∀ file, length (uploadedImages (displaySingleImage file s)) ≤ 4)
  ∧ length (uploadedImages (removeSingleImage s)) ≤ 4
  ∧ length (uploadedImages (run s es)) ≤ 4
  ∧ length (uploadedImages (run initial es)) ≤ 4
  ∧ (∀ files,
       4 < length (uploadedImages s) + length (filter (λ f, is_image f = true) files) →
       uploadedImages (addMultipleImages files s) = uploadedImages s).
Proof.
  intros Hs. repeat split.
  - intros files. by apply addMultipleImages_bounded.
  - intros index. by apply removeMultiImage_bounded.
  - intros file. by apply displaySingleImage_bounded.
  - simpl. lia.
  - by apply run_bounded.
  - apply reachable_bounded.
  - intros files Hover. rewrite addMultipleImages_selection. simpl.
    apply Nat.ltb_lt in Hover. rewrite Hover. by rewrite orb_true_r.
Qed.

(** C7.  On the image page a multi-image selection with fewer than two or
    more than four files is never sent: after any run of events the list
    holds at most four files, and when it holds fewer than two or more than
    four the submit handler stops at its check, shows the warning and makes
    no call of [fetch].  In particular a batch of images picked on a fresh
    page and submitted at once leads to no call unless it has two to four
    files. *)
Theorem multi_submit_outside_bounds (es : list event) (sel : selects) (files : list File) :
  let s := run initial es in
  let batch := filter (λ f, is_image f = true) files in
  (length (uploadedImages s) < 2 ∨ 4 < length (uploadedImages s) →
   posts (handleMultiSubmit sel s) = posts s
   ∧ in_flight (handleMultiSubmit sel s) = in_flight s
   ∧ toasts (handleMultiSubmit sel s) =
       toasts s ++ [{| toast_type := "warning"; toast_title := "Not Enough Images";
                       toast_message := "Please upload at least 2 wall images" |}])
  ∧ (length batch < 2 ∨ 4 < length batch →
     posts (run initial [AddMultipleImages files; MultiSubmit sel]) = []).
Proof.
  intros s batch. split.
  - intros [Hfew|Hmany].
    + unfold handleMultiSubmit. apply Nat.ltb_lt in Hfew. rewrite Hfew. done.
    + pose proof (reachable_bounded es). unfold s in Hmany. lia.
  - intros Hout. cbn [ImageUploads.run foldl ImageUploads.step].
    unfold handleMultiSubmit.
    rewrite addMultipleImages_selection. fold batch. simpl uploadedImages at 1 2.
    simpl length at 2 3.
    destruct (Nat.eqb_spec (length batch) 0) as [E0|E0]; simpl orb.
    + simpl. unfold addMultipleImages. fold batch. rewrite E0. reflexivity.
    + destruct (Nat.ltb_spec 4 (length batch)) as [E4|E4].
      * simpl. unfold addMultipleImages. fold batch.
        destruct (length batch =? 0); [reflexivity|].
        apply Nat.ltb_lt in E4. simpl. rewrite E4. reflexivity.
      * simpl app. destruct (Nat.ltb_spec (length batch) 2) as [E2|E2]; [|lia].
        unfold addMultipleImages. fold batch.
        destruct (length batch =? 0); [reflexivity|].
        destruct (4 <? _); reflexivity.
Qed.

End UploadList.

Lemma uploadedImages_at_most_four_witness :
  length (ImageUploads.uploadedImages ImageUploads.initial) ≤ 4
  ∧ length (ImageUploads.uploadedImages
              (ImageUploads.run unread true ImageUploads.initial
                 [ImageUploads.AddMultipleImages [png; png; png];
                  ImageUploads.AddMultipleImages [png; png]])) ≤ 4.
Proof.
  split; [simpl; lia|].
  apply (uploadedImages_at_most_four unread true ImageUploads.initial). simpl. lia.
Defined.

Lemma multi_submit_outside_bounds_witness :
  length (ImageUploads.uploadedImages
            (ImageUploads.run unread true ImageUploads.initial
               [ImageUploads.AddMultipleImages [png]])) < 2
  ∧ posts (ImageUploads.handleMultiSubmit interior
             (ImageUploads.run unread true ImageUploads.initial
                [ImageUploads.AddMultipleImages [png]])) = []
  ∧ posts (ImageUploads.run unread true ImageUploads.initial
             [ImageUploads.AddMultipleImages [png; png; png; png; png];
              ImageUploads.MultiSubmit interior]) = [].
Proof.
  split; [simpl; lia|]. split.
  - apply (multi_submit_outside_bounds unread true
             [ImageUploads.AddMultipleImages [png]] interior []).
    left. simpl. lia.
  - apply (multi_submit_outside_bounds unread true [] interior
             [png; png; png; png; png]).
    right. simpl. lia.
Defined.

(** ** The multi-wall payload *)

Section Payload.

Import ImageUploads.

Lemma roomData_shared (sel : selects) (files : list File) :
  Forall (λ c, room_type c = selected_room_type sel
               ∧ paint_type c = selected_paint_type sel
               ∧ num_coats c = of_Z 2
               ∧ include_ceiling c = false)
         (roomData sel files).
Proof.
  apply Forall_lookup_2. intros i c Hc.
  unfold roomData in Hc. apply list_lookup_imap_Some in Hc as (f & _ & ->).
  done.
Qed.

Lemma renumber_numbered (walls : list WallsPage.wall) :
  numbered (WallsPage.renumber walls).
Proof.
  unfold numbered, WallsPage.renumber.
  rewrite fmap_imap, length_imap. apply (imap_seq_0 walls wall_name).
Qed.

Lemma wallLoaded_numbered (f : File) (dataUrl : string) (s : WallsPage.state) :
  numbered (WallsPage.selectedWalls s) →
  numbered (WallsPage.selectedWalls (WallsPage.wallLoaded f dataUrl s)).
Proof.
  unfold numbered. intros Hs. simpl.
  rewrite fmap_app, length_app, seq_app, fmap_app, Hs. reflexivity.
Qed.

Lemma walls_step_numbered (s : WallsPage.state) (e : WallsPage.event) :
  numbered (WallsPage.selectedWalls s) →
  numbered (WallsPage.selectedWalls (WallsPage.step s e)).
Proof.
  intros Hs. destruct e as [files|f dataUrl|index|mode]; cbn [WallsPage.step].
  - unfold WallsPage.handleMultiWallSelect.
    destruct (4 <? _); [exact Hs|]. destruct (_ <? 1); exact Hs.
  - by apply wallLoaded_numbered.
  - apply renumber_numbered.
  - unfold WallsPage.handleModeToggle. destruct (_ || _); [reflexivity|exact Hs].
Qed.

Lemma walls_run_numbered (es : list WallsPage.event) (s : WallsPage.state) :
  numbered (WallsPage.selectedWalls s) →
  numbered (WallsPage.selectedWalls (WallsPage.run s es)).
Proof.
  revert s. induction es as [|e es IH]; intros s Hs; simpl; [exact Hs|].
  apply IH. by apply walls_step_numbered.
Qed.

Lemma readers_step_numbered (s : WallReaders.state) (e : WallReaders.event) :
  numbered (WallReaders.selectedWalls s) →
  numbered (WallReaders.selectedWalls (WallReaders.step s e)).
Proof.
  intros Hs. unfold WallReaders.selectedWalls in *.
  destruct e as [files|i dataUrl|index|mode]; cbn [WallReaders.step].
  - apply (walls_step_numbered _ (WallsPage.MultiWallSelect files) Hs).
  - unfold WallReaders.loaded. destruct (WallReaders.reading s !! i) as [f|]; [|exact Hs].
    by apply wallLoaded_numbered.
  - apply (walls_step_numbered _ (WallsPage.RemoveWall index) Hs).
  - apply (walls_step_numbered _ (WallsPage.ModeToggle mode) Hs).
Qed.

Lemma readers_run_numbered (es : list WallReaders.event) (s : WallReaders.state) :
  numbered (WallReaders.selectedWalls s) →
  numbered (WallReaders.selectedWalls (WallReaders.run s es)).
Proof.
  revert s. induction es as [|e es IH]; intros s Hs; simpl; [exact Hs|].
  apply IH. by apply readers_step_numbered.
Qed.

(** Descriptors made from the names of numbered walls are those made from
    the positions. *)
Lemma numbered_descriptors {A} (describe : string → A) (walls : list WallsPage.wall) :
  numbered walls →
  (λ w, describe (WallsPage.name w)) <$> walls
  = imap (λ i _, describe ("Wall " +:+ pretty (i + 1))) walls.
Proof.
  intros Hn. apply list_eq. intros i.
  rewrite list_lookup_fmap, list_lookup_imap.
  destruct (walls !! i) as [w|] eqn:Ew; [|reflexivity]. simpl. do 2 f_equal.
  assert (H : (WallsPage.name <$> walls) !! i = Some (WallsPage.name w))
    by (by rewrite list_lookup_fmap, Ew).
  rewrite Hn, list_lookup_fmap, lookup_seq_lt in H
    by (by eapply lookup_lt_Some).
  by injection H as <-.
Qed.

(** C5, as the scripts have it.  The payload of a multi-image submission.
    With at least two files in its list, a page sends one request whose form
    carries the files under [images], in the order of the list, and then,
    under [room_data], the JSON of an array with one descriptor for each
    file, in the same order: descriptor [i] has the room type and the paint
    type of the selects, [room_name] "Wall i+1", the number of coats, and
    [include_ceiling] [false], the first entry like the others.  On the
    image page the number of coats is the constant 2 and every selection is
    appended to the list in its own order.  On the estimation page the
    number of coats is the one parsed from its select, written as [null]
    when it is not a finite number, and the list holds the walls in the
    order in which their readers finished, after any run of selections,
    readings, removals and changes of mode. *)
Theorem multi_payload_descriptors
  (sel : selects) (s : state) (picked : list File)
  (api : string) (wsel : WallsPage.selects) (es : list WallReaders.event) :
  let files := uploadedImages s in
  let ws := WallReaders.page (WallReaders.run WallReaders.initial es) in
  let walls := WallsPage.selectedWalls ws in
  (2 ≤ length files →
   posts (handleMultiSubmit sel s)
   = posts s
     ++ [{| endpoint := API_BASE_URL +:+ "/estimate/cv/multi-room";
            body :=
              ((λ f, ("images", FilePart f)) <$> files)
              ++ [("room_data",
                   JsonPart
                     (VArr (imap (λ i _,
                                    VObj [("room_type", VStr (selected_room_type sel));
                                          ("room_name", VStr ("Wall " +:+ pretty (i + 1)));
                                          ("paint_type", VStr (selected_paint_type sel));
                                          ("num_coats", VNum (of_Z 2));
                                          ("include_ceiling", VBool false)])
                                 files)))] |}])
  ∧ (filter (λ f, is_image f = true) picked ≠ [] →
     length files + length (filter (λ f, is_image f = true) picked) ≤ 4 →
     uploadedImages (addMultipleImages picked s)
     = files ++ filter (λ f, is_image f = true) picked)
  ∧ (2 ≤ length walls →
     posts (WallsPage.handleMultiWallEstimation api wsel ws)
     = posts ws
       ++ [{| endpoint := api +:+ "/api/v1/estimate/cv/multi-room";
              body :=
                ((λ w, ("images", FilePart (WallsPage.file w))) <$> walls)
                ++ [("room_data",
                     JsonPart
                       (VArr (imap (λ i _,
                                      VObj [("room_type",
                                             VStr (WallsPage.selected_room_type wsel));
                                            ("room_name", VStr ("Wall " +:+ pretty (i + 1)));
                                            ("paint_type",
                                             VStr (WallsPage.selected_paint_type wsel));
                                            ("num_coats",
                                             json_number (WallsPage.selected_num_coats wsel));
                                            ("include_ceiling", VBool false)])
                                   walls)))] |}])
  ∧ (∀ i dataUrl f,
       WallReaders.reading (WallReaders.run WallReaders.initial es) !! i = Some f →
       WallsPage.file
       <$> WallReaders.selectedWalls
             (WallReaders.loaded i dataUrl (WallReaders.run WallReaders.initial es))
       = (WallsPage.file <$> walls) ++ [f]).
Proof.
  intros files ws walls.
  split; [|split; [|split]].
  - intros Hlen. unfold handleMultiSubmit. fold files.
    destruct (Nat.ltb_spec (length files) 2) as [Hlt|_]; [lia|].
    cbn [posts fetch showLoading]. do 3 f_equal.
    unfold multi_form. f_equal. do 4 f_equal.
    unfold roomData. change (map to_json ?l) with (to_json <$> l).
    rewrite fmap_imap. apply imap_ext. reflexivity.
  - intros Hne Hlen. unfold addMultipleImages. fold files.
    destruct (Nat.eqb_spec (length (filter (λ f, is_image f = true) picked)) 0) as [H0|_].
    + by destruct (filter _ picked).
    + destruct (Nat.ltb_spec 4
                  (length files + length (filter (λ f, is_image f = true) picked)))
        as [Hgt|_]; [lia|reflexivity].
  - intros Hlen. unfold WallsPage.handleMultiWallEstimation. fold walls.
    destruct (Nat.ltb_spec (length walls) 2) as [Hlt|_]; [lia|].
    cbn [posts fetch showLoading]. do 3 f_equal.
    unfold WallsPage.multi_form. f_equal. do 4 f_equal.
    unfold WallsPage.roomData. change (map to_json (map ?g ?l)) with (to_json <$> (g <$> l)).
    rewrite <- list_fmap_compose.
    apply (numbered_descriptors
             (λ name, VObj [("room_type", VStr (WallsPage.selected_room_type wsel));
                            ("room_name", VStr name);
                            ("paint_type", VStr (WallsPage.selected_paint_type wsel));
                            ("num_coats", json_number (WallsPage.selected_num_coats wsel));
                            ("include_ceiling", VBool false)])).
    apply (readers_run_numbered es WallReaders.initial). reflexivity.
  - intros i dataUrl f Hf. unfold WallReaders.loaded. rewrite Hf.
    unfold WallReaders.selectedWalls, walls, ws. cbn [WallReaders.page].
    unfold WallsPage.wallLoaded, WallsPage.selectedWalls. cbn [selection select].
    by rewrite fmap_app.
Qed.

(** In the script the first descriptor excludes the ceiling as well. *)
Lemma first_descriptor_excludes_ceiling (sel : selects) (files : list File) :
  Forall (λ c, include_ceiling c = false) (roomData sel files).
Proof. eapply Forall_impl; [apply roomData_shared|]. simpl. tauto. Qed.

End Payload.

(** C5 as claimed fails on the estimation page: two files are picked, the
    reader of the second finishes first, and the request carries the second
    file first, as "Wall 1".  The first descriptor has [include_ceiling]
    [false] like the second. *)
Lemma walls_follow_the_readers :
  let a := {| file_name := "north.png"; file_type := "image/png"; file_size := 4096 |} in
  let b := {| file_name := "south.png"; file_type := "image/png"; file_size := 1024 |} in
  let wsel := {| WallsPage.selected_room_type := "bedroom";
                 WallsPage.selected_paint_type := "interior";
                 WallsPage.selected_num_coats := of_Z 2 |} in
  let descriptor name :=
    VObj [("room_type", VStr "bedroom"); ("room_name", VStr name);
          ("paint_type", VStr "interior"); ("num_coats", VNum (of_Z 2));
          ("include_ceiling", VBool false)] in
  let s := WallReaders.run WallReaders.initial
             [WallReaders.MultiWallSelect [a; b];
              WallReaders.Loaded 1 "data:south"; WallReaders.Loaded 0 "data:north"] in
  toasts (WallReaders.page s) = []
  ∧ posts (WallsPage.handleMultiWallEstimation "" wsel (WallReaders.page s))
    = [{| endpoint := "/api/v1/estimate/cv/multi-room";
          body := [("images", FilePart b); ("images", FilePart a);
                   ("room_data",
                    JsonPart (VArr [descriptor "Wall 1"; descriptor "Wall 2"]))] |}]
  ∧ [b; a] ≠ [a; b].
Proof. vm_compute. repeat split; try reflexivity. discriminate. Qed.

Lemma multi_payload_descriptors_witness :
  let a := {| file_name := "north.png"; file_type := "image/png"; file_size := 4096 |} in
  let b := {| file_name := "south.png"; file_type := "image/png"; file_size := 1024 |} in
  let descriptor name :=
    VObj [("room_type", VStr "bedroom"); ("room_name", VStr name);
          ("paint_type", VStr "interior"); ("num_coats", VNum (of_Z 2));
          ("include_ceiling", VBool false)] in
  posts (ImageUploads.handleMultiSubmit interior
           (ImageUploads.addMultipleImages [a; b] ImageUploads.initial))
  = [{| endpoint := "http://localhost:8000/api/v1/estimate/cv/multi-room";
        body := [("images", FilePart a); ("images", FilePart b);
                 ("room_data",
                  JsonPart (VArr [descriptor "Wall 1"; descriptor "Wall 2"]))] |}].
Proof.
  intros a b descriptor.
  destruct (multi_payload_descriptors interior
              (ImageUploads.addMultipleImages [a; b] ImageUploads.initial) []
              "" {| WallsPage.selected_room_type := "bedroom";
                    WallsPage.selected_paint_type := "interior";
                    WallsPage.selected_num_coats := of_Z 2 |} [])
    as (H & _).
  apply H. vm_compute. lia.
Defined.

(** ** Submitting while a request is in flight *)

Section InFlight.

Variable StringToNumber : string → number.
Variable NumberToString : number → string.
Variables container manualModal : bool.

(** Every single-image submit with an image in the list makes its own call
    and shows the overlay; nothing in the handler looks at the overlay or at
    the number of calls still awaited. *)
Lemma single_submits_post (sel : ImageUploads.selects) (n : nat) (s : ImageUploads.state) :
  ImageUploads.uploadedImages s ≠ [] →
  let s' := ImageUploads.run StringToNumber container s
              (replicate n (ImageUploads.SingleSubmit sel)) in
  length (posts s') = length (posts s) + n
  ∧ in_flight s' = in_flight s + n
  ∧ ImageUploads.uploadedImages s' = ImageUploads.uploadedImages s.
Proof.
  revert s. induction n as [|n IH]; intros s Hs; simpl.
  - repeat split; lia.
  - unfold ImageUploads.handleSingleSubmit at 1 2 3.
    destruct (ImageUploads.uploadedImages s) as [|image rest] eqn:E; [done|].
    match goal with |- context [ImageUploads.run _ _ ?t _] => set (s1 := t) end.
    assert (H1 : ImageUploads.uploadedImages s1 ≠ []).
    { unfold s1, ImageUploads.uploadedImages in *. simpl. by rewrite E. }
    destruct (IH s1 H1) as (Hp & Hf & Hu). simpl in Hp, Hf, Hu.
    rewrite Hp, Hf, Hu. unfold s1. simpl. rewrite length_app. simpl.
    unfold ImageUploads.uploadedImages in *. repeat split; try lia. by rewrite E.
Qed.

Lemma video_submits_post (sel : VideoUploads.selects) (n : nat) (s : VideoUploads.state) :
  VideoUploads.uploadedVideo s ≠ None →
  let s' := VideoUploads.run StringToNumber NumberToString container manualModal s
              (replicate n (VideoUploads.FormSubmit sel)) in
  length (posts s') = length (posts s) + n
  ∧ in_flight s' = in_flight s + n
  ∧ VideoUploads.uploadedVideo s' = VideoUploads.uploadedVideo s.
Proof.
  revert s. induction n as [|n IH]; intros s Hs; simpl.
  - repeat split; lia.
  - unfold VideoUploads.handleFormSubmit at 1 2 3.
    destruct (VideoUploads.uploadedVideo s) as [video|] eqn:E; [|done].
    match goal with |- context [VideoUploads.run _ _ _ _ ?t _] => set (s1 := t) end.
    assert (H1 : VideoUploads.uploadedVideo s1 ≠ None).
    { unfold s1, VideoUploads.uploadedVideo in *. simpl. by rewrite E. }
    destruct (IH s1 H1) as (Hp & Hf & Hu). simpl in Hp, Hf, Hu.
    rewrite Hp, Hf, Hu. unfold s1. simpl. rewrite length_app. simpl.
    unfold VideoUploads.uploadedVideo in *. repeat split; try lia. by rewrite E.
Qed.

(** C8, as the scripts have it.  A submit made while earlier requests of the
    same view are still awaited goes out like any other: with an image (a
    video) selected, [n] invocations of the submit handler in a row make [n]
    calls of [fetch], all of them in flight together.  No control is
    disabled.  The loading overlay goes up with each submit and comes down
    as soon as any one request settles, so after two submits and one
    settled request it is down while the other request is still in
    flight. *)
Theorem submit_is_not_guarded
  (isel : ImageUploads.selects) (vsel : VideoUploads.selects) (n : nat)
  (si : ImageUploads.state) (sv : VideoUploads.state) (r : response) :
  ImageUploads.uploadedImages si ≠ [] →
  VideoUploads.uploadedVideo sv ≠ None →
  let si' := ImageUploads.run StringToNumber container si
               (replicate n (ImageUploads.SingleSubmit isel)) in
  let sv' := VideoUploads.run StringToNumber NumberToString container manualModal sv
               (replicate n (VideoUploads.FormSubmit vsel)) in
  length (posts si') = length (posts si) + n
  ∧ in_flight si' = in_flight si + n
  ∧ loading (ImageUploads.handleSingleSubmit isel si) = true
  ∧ loading (ImageUploads.step StringToNumber container si
               (ImageUploads.SingleSettled r)) = false
  ∧ length (posts sv') = length (posts sv) + n
  ∧ in_flight sv' = in_flight sv + n
  ∧ loading (VideoUploads.handleFormSubmit vsel sv) = true
  ∧ loading (VideoUploads.settle StringToNumber NumberToString container manualModal r sv)
    = false
  ∧ (let s := ImageUploads.run StringToNumber container si
                [ImageUploads.SingleSubmit isel; ImageUploads.SingleSubmit isel;
                 ImageUploads.SingleSettled r] in
     loading s = false ∧ in_flight s = in_flight si + 1)
  ∧ (let s := VideoUploads.run StringToNumber NumberToString container manualModal sv
                [VideoUploads.FormSubmit vsel; VideoUploads.FormSubmit vsel;
                 VideoUploads.Settled r] in
     loading s = false ∧ in_flight s = in_flight sv + 1).
Proof.
  intros Hi Hv si' sv'.
  destruct (single_submits_post isel n si Hi) as (Hp & Hf & _).
  destruct (video_submits_post vsel n sv Hv) as (Hq & Hg & _).
  split; [exact Hp|]. split; [exact Hf|].
  split.
  { unfold ImageUploads.handleSingleSubmit.
    destruct (ImageUploads.uploadedImages si); [done|reflexivity]. }
  split; [reflexivity|].
  split; [exact Hq|]. split; [exact Hg|].
  split.
  { unfold VideoUploads.handleFormSubmit.
    destruct (VideoUploads.uploadedVideo sv); [reflexivity|done]. }
  split; [reflexivity|].
  split.
  - split; [reflexivity|].
    destruct (single_submits_post isel 2 si Hi) as (_ & Hf2 & _).
    cbn [replicate ImageUploads.run foldl] in Hf2 |- *.
    unfold ImageUploads.step at 1. unfold ImageUploads.settle.
    cbn [in_flight showLoading resumed].
    transitivity (pred (in_flight si + 2)); [|lia].
    rewrite <- Hf2.
    by destruct r as [| |data];
      [| |destruct (ImagePage.displayResults _ _ _)].
  - split; [reflexivity|].
    destruct (video_submits_post vsel 2 sv Hv) as (_ & Hg2 & _).
    cbn [replicate VideoUploads.run foldl] in Hg2 |- *.
    unfold VideoUploads.step at 1. unfold VideoUploads.settle.
    cbn [in_flight showLoading resumed].
    transitivity (pred (in_flight sv + 2)); [|lia].
    rewrite <- Hg2.
    by destruct r as [| |data];
      [| |destruct (_ ≫= _); [destruct (VideoUploads.success_message _ _)|]].
Qed.

End InFlight.

(** C8 as claimed fails: on a page with one image selected, two submits in
    a row make two calls of [fetch], both in flight. *)
Lemma double_submit_posts_twice :
  let s := ImageUploads.run unread true ImageUploads.initial
             [ImageUploads.DisplaySingleImage png;
              ImageUploads.SingleSubmit interior;
              ImageUploads.SingleSubmit interior] in
  length (posts s) ≠ 1 ∧ length (posts s) = 2 ∧ in_flight s = 2.
Proof. vm_compute. split; [discriminate|split; reflexivity]. Qed.

Lemma submit_is_not_guarded_witness :
  let si := ImageUploads.displaySingleImage png ImageUploads.initial in
  let sv := VideoUploads.displayVideo mp4 VideoUploads.initial in
  length (posts (ImageUploads.run unread true si
                   (replicate 2 (ImageUploads.SingleSubmit interior)))) = 0 + 2.
Proof.
  intros si sv.
  apply (submit_is_not_guarded unread (λ _, "0") true true interior
           {| VideoUploads.selected_room_type := "bedroom";
              VideoUploads.selected_paint_type := "interior" |}
           2 si sv NotJson); discriminate.
Defined.

(** ** Floor-plan results without rooms *)

Section FloorPlan.

Variable StringToNumber : string → number.

(** C10.  When the rooms of a floor-plan response are missing (absent,
    [null] or any other falsy value) or an empty array, the renderer writes
    the warning about dimension annotations and returns: no extraction
    summary, no room table, no totals and no cost are written, and the
    results panel is not shown. *)
Theorem floorplan_without_rooms (fields : list (string * value)) (resultsPanel : bool) :
  truthy (lookup_field "rooms" fields) = false ∨ lookup_field "rooms" fields = VArr [] →
  FloorPlanPage.displayFloorPlanResults StringToNumber true resultsPanel (VObj fields)
  = Ok {| FloorPlanPage.written := Some (FloorPlanPage.Warning FloorPlanPage.no_rooms);
          FloorPlanPage.panel_shown := false |}.
Proof.
  intros Hrooms. unfold FloorPlanPage.displayFloorPlanResults. simpl.
  destruct Hrooms as [Hfalsy|Hempty].
  - replace (or (lookup_field "rooms" fields) (VArr [])) with (VArr [])
      by (unfold or; by rewrite Hfalsy).
    reflexivity.
  - rewrite Hempty. reflexivity.
Qed.

End FloorPlan.

Lemma floorplan_without_rooms_witness :
  FloorPlanPage.displayFloorPlanResults unread true true
    (VObj [("success", VBool true); ("total_rooms", VNum (of_Z 0)); ("rooms", VArr [])])
  = Ok {| FloorPlanPage.written := Some (FloorPlanPage.Warning FloorPlanPage.no_rooms);
          FloorPlanPage.panel_shown := false |}.
Proof. apply floorplan_without_rooms. right. reflexivity. Defined.

(** ** The manual validator *)

Section Validator.

Import ManualPage.

Lemma SFcompare_antisym (x y : number) (c : comparison) :
  SFcompare x y = Some c → SFcompare y x = Some (CompOpp c).
Proof.
  destruct x as [sx|sx| |sx mx ex], y as [sy|sy| |sy my ey]; simpl;
    try discriminate;
    try (destruct sx; intros [= <-]; reflexivity);
    try (destruct sy; intros [= <-]; reflexivity);
    try (intros [= <-]; reflexivity).
  - destruct sx, sy; intros [= <-]; reflexivity.
  - destruct sx, sy; intros [= <-]; try reflexivity.
    + rewrite (Z.compare_antisym ex ey).
      destruct (ex ?= ey)%Z; simpl; try reflexivity.
      rewrite (Pos.compare_cont_antisym mx my Eq). reflexivity.
    + rewrite (Z.compare_antisym ex ey).
      destruct (ex ?= ey)%Z; simpl; try reflexivity.
      by rewrite (Pos.compare_cont_antisym mx my Eq).
Qed.

Lemma SFcompare_nan (x y : number) :
  SFcompare x y = None ↔ is_nan x = true ∨ is_nan y = true.
Proof.
  destruct x as [sx|sx| |sx mx ex], y as [sy|sy| |sy my ey]; simpl;
    split; try discriminate; try tauto; try (intros [?|?]; discriminate);
    try (destruct sx; discriminate); try (destruct sy; discriminate).
Qed.

(** One dimension passes both checks of the validator exactly when it is
    NaN or lies in the range. *)
Lemma dimension_passes (x : number) (bound : Z) :
  is_nan (of_Z bound) = false →
  le x zero = false ∧ gt x (of_Z bound) = false
  ↔ is_nan x = true ∨ (lt zero x = true ∧ le x (of_Z bound) = true).
Proof.
  intros Hb. unfold le, gt, lt, SFleb, SFltb.
  destruct (SFcompare x zero) as [c0|] eqn:E0.
  - pose proof (SFcompare_antisym _ _ _ E0) as E0'. rewrite E0'.
    assert (Hx : is_nan x = false).
    { destruct (is_nan x) eqn:En; [|reflexivity].
      assert (SFcompare x zero = None) by (apply SFcompare_nan; by left). congruence. }
    destruct (SFcompare x (of_Z bound)) as [cb|] eqn:Eb.
    + pose proof (SFcompare_antisym _ _ _ Eb) as Eb'. rewrite Eb'.
      rewrite Hx. destruct c0, cb; simpl; intuition congruence.
    + apply SFcompare_nan in Eb as [?|?]; congruence.
  - apply SFcompare_nan in E0 as [En|?]; [|discriminate].
    rewrite En.
    assert (Eb : SFcompare (of_Z bound) x = None) by (apply SFcompare_nan; by right).
    rewrite Eb. tauto.
Qed.

(** The validator accepts a form exactly when each of the three dimensions
    is NaN or in its range. *)
Lemma validateManualForm_accepts (data : form_data) :
  let r := form_room data in
  validateManualForm data = (true, None)
  ↔ (is_nan (length r) = true ∨ (lt zero (length r) = true ∧ le (length r) (of_Z 100) = true))
    ∧ (is_nan (width r) = true ∨ (lt zero (width r) = true ∧ le (width r) (of_Z 100) = true))
    ∧ (is_nan (height r) = true ∨ (lt zero (height r) = true ∧ le (height r) (of_Z 20) = true)).
Proof.
  intros r.
  rewrite <- !dimension_passes by reflexivity.
  unfold validateManualForm. fold r.
  generalize (le (length r) zero) (le (width r) zero) (le (height r) zero)
    (gt (length r) (of_Z 100)) (gt (width r) (of_Z 100)) (gt (height r) (of_Z 20)).
  intros [] [] [] [] [] []; cbn [orb]; split;
    first [discriminate | reflexivity | intuition discriminate | intuition reflexivity].
Qed.

(** Every form whose dimensions lie in (0,100] x (0,100] x (0,20] is
    accepted. *)
Lemma validateManualForm_valid (data : form_data) :
  let r := form_room data in
  in_range (length r) 100 = true →
  in_range (width r) 100 = true →
  in_range (height r) 20 = true →
  validateManualForm data = (true, None).
Proof.
  intros r Hl Hw Hh. apply validateManualForm_accepts. fold r.
  unfold in_range in *.
  apply andb_true_iff in Hl as [[_ ?]%andb_true_iff ?].
  apply andb_true_iff in Hw as [[_ ?]%andb_true_iff ?].
  apply andb_true_iff in Hh as [[_ ?]%andb_true_iff ?].
  auto.
Qed.

(** C6.  The validator is meant to accept a form only when length, width
    and height are present, finite, greater than 0 and within their bounds.
    A dimension that is NaN, which is what [parseFloat] gives for an empty
    input, passes both of its checks: with length NaN, width 10 and height
    10 the verdict is [true] and no error is shown. *)
Theorem validateManualForm_accepts_NaN :
  validateManualForm
    {| form_room := {| length := NaN; width := of_Z 10; height := of_Z 10;
                       num_doors := zero; num_windows := zero |};
       paint_type := "interior"; num_coats := of_Z 2; include_ceiling := false |}
  = (true, None)
  ∧ is_finite NaN = false.
Proof. split; reflexivity. Qed.

End Validator.

(** ** Reading properties *)

Lemma get_not_nullish (v : value) (k : string) :
  nullish v = false → get v k = Ok (get_opt v k).
Proof. unfold get_opt. destruct v; simpl; try discriminate; reflexivity. Qed.

Lemma get_Ok_not_nullish (v x : value) (k : string) :
  get v k = Ok x → nullish v = false.
Proof. destruct v; simpl; try discriminate; reflexivity. Qed.

Lemma truthy_not_nullish (v : value) : truthy v = true → nullish v = false.
Proof. destruct v; simpl; try discriminate; reflexivity. Qed.

Lemma or_not_nullish (a b : value) : nullish b = false → nullish (or a b) = false.
Proof.
  intros Hb. unfold or. destruct (truthy a) eqn:Ha; [|exact Hb].
  by apply truthy_not_nullish.
Qed.

(** ** The video page: confidence *)

Section Confidence.

Variable StringToNumber : string → number.

Import VideoPage.

#[local] Abbreviation dimensions := (VideoPage.dimensions).
#[local] Abbreviation rawConfidence := (VideoPage.rawConfidence).
#[local] Abbreviation overallConfidence := (VideoPage.overallConfidence StringToNumber).
#[local] Abbreviation confidencePercent := (VideoPage.confidencePercent StringToNumber).
#[local] Abbreviation confidenceBand := (VideoPage.confidenceBand StringToNumber).

Lemma error_percentage_not_nullish (data v : value) :
  error_percentage data = Ok v → nullish data = false.
Proof.
  unfold error_percentage, VideoPage.dimensions.
  destruct data; simpl; try discriminate; reflexivity.
Qed.

Lemma rawConfidence_not_nullish (data : value) :
  nullish data = false →
  ∃ raw, rawConfidence data = Ok raw ∧ truthy raw = true.
Proof.
  intros Hd. unfold VideoPage.rawConfidence, confidence.
  rewrite !(get_not_nullish data) by exact Hd. simpl.
  set (c := or _ (or _ (VObj []))).
  assert (Hc : truthy c = true).
  { unfold c, or. destruct (truthy (get_opt data "confidence")) eqn:E1; [exact E1|].
    destruct (truthy (get_opt data "detection_confidence")) eqn:E2; [exact E2|reflexivity]. }
  rewrite (get_not_nullish c) by (by apply truthy_not_nullish). simpl.
  eexists. split; [reflexivity|].
  unfold or at 1. destruct (truthy (get_opt c "overall_confidence")) eqn:E; [exact E|].
  unfold or. by rewrite Hc.
Qed.

Lemma rawConfidence_source (data : value) :
  nullish data = false → rawConfidence data = Ok (video_confidence_source data).
Proof.
  intros Hd. unfold VideoPage.rawConfidence, confidence, video_confidence_source.
  rewrite !(get_not_nullish data) by exact Hd. simpl.
  set (c := or _ (or _ (VObj []))).
  assert (Hc : nullish c = false) by (unfold c; repeat apply or_not_nullish; reflexivity).
  by rewrite (get_not_nullish c).
Qed.

Lemma rawConfidence_Ok_not_nullish (data raw : value) :
  rawConfidence data = Ok raw → nullish data = false.
Proof.
  unfold VideoPage.rawConfidence, confidence.
  destruct data; simpl; try discriminate; reflexivity.
Qed.

Lemma overallConfidence_cases (data raw : value) :
  rawConfidence data = Ok raw →
  overallConfidence data =
    if convertible raw
    then Ok (if is_nan (numeric StringToNumber raw) || negb (is_number raw)
             then VNum (substitute data) else raw)
    else TypeError.
Proof.
  intros Hraw. pose proof (rawConfidence_Ok_not_nullish _ _ Hraw) as Hd.
  unfold VideoPage.overallConfidence. rewrite Hraw. simpl.
  rewrite isNaN_cases. destruct (convertible raw); [|reflexivity]. simpl.
  destruct (is_nan (numeric StringToNumber raw) || negb (is_number raw)); [|reflexivity].
  rewrite (get_not_nullish data) by exact Hd. reflexivity.
Qed.

(** The percent, for a confidence that converts: of the substitute, or of
    the Number that was kept. *)
Lemma confidencePercent_cases (data raw : value) :
  rawConfidence data = Ok raw →
  confidencePercent data =
    if convertible raw
    then Ok (Math_round
               (mul (if is_nan (numeric StringToNumber raw) || negb (is_number raw)
                     then substitute data else numeric StringToNumber raw)
                    (of_Z 100)))
    else TypeError.
Proof.
  intros Hraw. unfold VideoPage.confidencePercent.
  rewrite (overallConfidence_cases data raw Hraw).
  destruct (convertible raw) eqn:Hc; [|reflexivity]. simpl.
  destruct (is_nan (numeric StringToNumber raw) || negb (is_number raw)) eqn:E;
    [reflexivity|].
  unfold ToNumber. rewrite Hc. reflexivity.
Qed.

Lemma confidencePercent_convertible (data raw : value) :
  rawConfidence data = Ok raw → convertible raw = true →
  ∃ p, confidencePercent data = Ok p.
Proof.
  intros Hraw Hc. rewrite (confidencePercent_cases data raw Hraw), Hc. eauto.
Qed.

(** The band, once the percent is there. *)
Lemma confidenceBand_cases (data x : value) (p : number) :
  confidencePercent data = Ok p →
  error_percentage data = Ok x →
  confidenceBand data
  = if defined x
    then match x with VNum e => Ok (variance_band e) | _ => TypeError end
    else Ok (percent_band p).
Proof.
  intros Hp Hx. unfold VideoPage.confidenceBand. rewrite Hp. simpl. rewrite Hx.
  destruct x; reflexivity.
Qed.

(** C4, as the script has it.  The two mappings of the video page exclude
    each other, and the variance decides when it is a Number.  For a
    confidence that can be converted to a number: when the dimensions of
    the response carry an error percentage that is a Number, the band is
    the one of the four-band mapping of that error (at most 5 Excellent, at
    most 8 Good, at most 15 Medium, else Low), whatever the confidence is;
    when they carry none, the band is the one the percentage mapping gives
    for the confidence percent.  An error percentage that is there but is
    not a Number ([null], a string) makes [toFixed] raise, and a confidence
    that cannot be converted makes [isNaN] raise before either mapping; no
    band is chosen then. *)
Theorem variance_takes_precedence (data raw v : value) (e : number) :
  rawConfidence data = Ok raw →
  (convertible raw = true → error_percentage data = Ok (VNum e) →
     confidenceBand data = Ok (variance_band e))
  ∧ (convertible raw = true → error_percentage data = Ok VUndefined →
     ∃ p, confidencePercent data = Ok p ∧ confidenceBand data = Ok (percent_band p))
  ∧ (error_percentage data = Ok v → defined v = true → is_number v = false →
     confidenceBand data = TypeError)
  ∧ (convertible raw = false → confidenceBand data = TypeError)
  ∧ (le e (of_Z 5) = true → confidenceLevel (variance_band e) = "Excellent")
  ∧ (le e (of_Z 5) = false → le e (of_Z 8) = true →
     confidenceLevel (variance_band e) = "Good")
  ∧ (le e (of_Z 5) = false → le e (of_Z 8) = false → le e (of_Z 15) = true →
     confidenceLevel (variance_band e) = "Medium")
  ∧ (le e (of_Z 5) = false → le e (of_Z 8) = false → le e (of_Z 15) = false →
     confidenceLevel (variance_band e) = "Low")
  ∧ expectedError (variance_band e) = Measured e.
Proof.
  intros Hraw.
  split; [|split; [|split; [|split]]].
  - intros Hc He. destruct (confidencePercent_convertible data raw Hraw Hc) as (p & Hp).
    by rewrite (confidenceBand_cases data _ p Hp He).
  - intros Hc He. destruct (confidencePercent_convertible data raw Hraw Hc) as (p & Hp).
    exists p. split; [exact Hp|]. by rewrite (confidenceBand_cases data _ p Hp He).
  - intros He Hdef Hnum. unfold VideoPage.confidenceBand.
    destruct (confidencePercent data) as [p|]; [|reflexivity]. simpl.
    rewrite He. simpl. rewrite Hdef. destruct v; try discriminate; reflexivity.
  - intros Hc. unfold VideoPage.confidenceBand.
    by rewrite (confidencePercent_cases data raw Hraw), Hc.
  - unfold variance_band.
    destruct (le e (of_Z 5)), (le e (of_Z 8)), (le e (of_Z 15));
      repeat split; intros; try reflexivity; try discriminate.
Qed.


End Confidence.



(** C4 as claimed fails for an error percentage that is there without
    being a Number: a body with [error_percentage: null], or with the string
    ["4.2"], has the key, and [toFixed] raises, so that no level is computed
    from either mapping and the handler reports a failed analysis.  A
    confidence that cannot be converted does the same to a body with a
    numeric error percentage. *)
Lemma present_error_percentage_without_band :
  let body (confidence error_percentage : value) :=
    VObj [("confidence", confidence);
          ("dimensions", VObj [("variance", VObj [("error_percentage", error_percentage)])])] in
  VideoPage.error_percentage (body (VNum (decimal 95 2)) VNull) = Ok VNull
  ∧ VideoPage.confidenceBand unread (body (VNum (decimal 95 2)) VNull) = TypeError
  ∧ VideoPage.error_percentage (body (VNum (decimal 95 2)) (VStr "4.2")) = Ok (VStr "4.2")
  ∧ VideoPage.confidenceBand unread (body (VNum (decimal 95 2)) (VStr "4.2")) = TypeError
  ∧ VideoPage.displayResults unread true false (body (VNum (decimal 95 2)) VNull) = TypeError
  ∧ VideoPage.error_percentage
      (body (VObj [("toString", VNum (of_Z 1))]) (VNum (of_Z 4))) = Ok (VNum (of_Z 4))
  ∧ VideoPage.confidenceBand unread
      (body (VObj [("toString", VNum (of_Z 1))]) (VNum (of_Z 4))) = TypeError
  ∧ toasts (VideoUploads.run unread (λ _, "0") true false VideoUploads.initial
              [VideoUploads.DisplayVideo mp4;
               VideoUploads.FormSubmit {| VideoUploads.selected_room_type := "bedroom";
                                          VideoUploads.selected_paint_type := "interior" |};
               VideoUploads.Settled (Json (body (VNum (decimal 95 2)) VNull))])
    = [{| toast_type := "success"; toast_title := "Video Uploaded";
          toast_message := "Please configure settings and submit" |};
       {| toast_type := "error"; toast_title := "Analysis Failed";
          toast_message := "Please ensure the video clearly shows the room" |}].
Proof. vm_compute. repeat split; reflexivity. Qed.

Lemma variance_takes_precedence_witness :
  let data := VObj [("confidence", VNum (decimal 95 2));
                    ("dimensions",
                     VObj [("variance", VObj [("error_percentage", VNum (decimal 62 1))])])] in
  VideoPage.confidenceBand unread data = Ok (VideoPage.variance_band (decimal 62 1))
  ∧ VideoPage.confidenceLevel (VideoPage.variance_band (decimal 62 1)) = "Good".
Proof.
  intros data.
  pose proof (variance_takes_precedence unread data (VNum (decimal 95 2)) VNull
                (decimal 62 1) eq_refl)
    as (H1 & _ & _ & _ & _ & H5 & _).
  split; [apply H1; reflexivity|apply H5; reflexivity].
Defined.

(** ** Normalization on bodies of the expected shape *)

Section Totality.

Variable StringToNumber : string → number.

Lemma finite_number_inv (v : value) :
  finite_number v = true → ∃ n, v = VNum n ∧ is_finite n = true ∧ valid n = true.
Proof.
  destruct v; simpl; try discriminate.
  intros [? ?]%andb_true_iff. eauto.
Qed.

(** A leaf with a default: the Number read, or the default when it is
    missing or zero. *)
Lemma numeric_or_default (v : value) (default : number) :
  numeric_or_missing v = true → is_finite default = true →
  ∃ n, or v (VNum default) = VNum n ∧ is_finite n = true.
Proof.
  intros Hv Hd. unfold numeric_or_missing in Hv. apply orb_true_iff in Hv as [Hv|Hv].
  - destruct v; try discriminate; simpl; eauto.
  - apply finite_number_inv in Hv as (n & -> & Hf & _).
    unfold or. destruct (truthy (VNum n)); eauto.
Qed.

Lemma numeric_or_text (v : value) (placeholder : string) :
  numeric_or_missing v = true →
  (∃ n, or v (VStr placeholder) = VNum n ∧ is_finite n = true)
  ∨ or v (VStr placeholder) = VStr placeholder.
Proof.
  intros Hv. unfold numeric_or_missing in Hv. apply orb_true_iff in Hv as [Hv|Hv].
  - right. destruct v; try discriminate; reflexivity.
  - apply finite_number_inv in Hv as (n & -> & Hf & _).
    unfold or. destruct (truthy (VNum n)); eauto.
Qed.

Lemma area_is_numeric (v : value) :
  area_or_missing v = true → numeric_or_missing v = true.
Proof.
  unfold area_or_missing, numeric_or_missing. intros [H|H]%orb_true_iff.
  - by rewrite H.
  - destruct v; try discriminate. apply andb_true_iff in H as [H _].
    exact H.
Qed.

Lemma area_truthy (v : value) :
  area_or_missing v = true → truthy v = true →
  ∃ n, v = VNum n ∧ fin 1000 n.
Proof.
  unfold area_or_missing. intros [H|H]%orb_true_iff Ht.
  - destruct v; discriminate.
  - destruct v; try discriminate. exists n. split; [reflexivity|].
    apply andb_true_iff in H as [[Hf Hv]%andb_true_iff Hm].
    split; [exact Hv|]. destruct n; try discriminate.
    simpl in Hm. by apply Z.leb_le.
Qed.

Lemma show_dimension_number (n : number) :
  is_finite n = true →
  ∃ s, ImagePage.show_dimension StringToNumber (VNum n) = Ok s
       ∧ finite_or_placeholder s = true.
Proof.
  intros Hn. unfold ImagePage.show_dimension. rewrite gt_zero_number. simpl.
  destruct (gt n zero); simpl; eauto.
Qed.

Lemma of_nat_S (k : nat) : of_nat (S k) = of_Z (Z.pos (Pos.of_succ_nat k)).
Proof. unfold of_nat. by rewrite Zpos_P_of_succ_nat, Nat2Z.inj_succ. Qed.

Ltac run_binds := cbn [mbind outcome_bind mret outcome_ret].

Lemma image_dimensions_shape (data : value) :
  nullish data = false → rooms_listed data = true →
  ImagePage.dimensions StringToNumber data = Ok (image_dimension_source data).
Proof.
  intros Hd Hrooms. unfold ImagePage.dimensions, image_dimension_source, rooms_listed in *.
  rewrite !(get_not_nullish data) by exact Hd. run_binds.
  destruct (get_opt data "rooms") as [| | | | |[|firstRoom rest]|]; try discriminate;
    try reflexivity.
  unfold ImagePage.has_rooms. cbn [truthy get String.eqb Ascii.eqb Bool.eqb].
  cbn [length]. rewrite of_nat_S. run_binds. rewrite gt_zero_number.
  destruct (of_Z_pos_positive (Pos.of_succ_nat (length rest))) as [-> _].
  run_binds. cbn [get_index nth]. run_binds.
  apply negb_true_iff in Hrooms. rewrite (get_not_nullish firstRoom) by exact Hrooms.
  reflexivity.
Qed.

Lemma image_roomCount_shape (data : value) :
  nullish data = false → rooms_listed data = true →
  ∃ p, ImagePage.roomCount data = Ok (VNum (of_Z (Z.pos p))).
Proof.
  intros Hd Hrooms. unfold ImagePage.roomCount, rooms_listed in *.
  rewrite !(get_not_nullish data) by exact Hd. run_binds.
  destruct (get_opt data "rooms") as [| | | | |[|firstRoom rest]|]; try discriminate;
    try (by exists 1%positive).
  cbn [truthy get String.eqb Ascii.eqb Bool.eqb length]. run_binds.
  rewrite of_nat_S. exists (Pos.of_succ_nat (length rest)).
  unfold or. cbn [truthy].
  destruct (of_Z_pos_positive (Pos.of_succ_nat (length rest))) as [_ ->]. reflexivity.
Qed.

Lemma Object_keys_not_nullish (v : value) : nullish v = false → Object_keys v = Ok tt.
Proof. destruct v; simpl; try discriminate; reflexivity. Qed.

Lemma image_dimension_source_not_nullish (data : value) :
  nullish (image_dimension_source data) = false.
Proof.
  unfold image_dimension_source.
  destruct (get_opt data "rooms") as [| | | | |[|firstRoom rest]|];
    repeat apply or_not_nullish; reflexivity.
Qed.

Lemma image_read_shape (data : value) :
  nullish data = false → rooms_listed data = true →
  dimension_leaves (image_dimension_source data) = true →
  ∃ l w h,
    ImagePage.read_dimensions StringToNumber data
    = Ok {| ImagePage.length := VNum l; ImagePage.width := VNum w;
            ImagePage.height := VNum h |}
    ∧ is_finite l = true ∧ is_finite w = true ∧ is_finite h = true.
Proof.
  intros Hd Hrooms Hleaves. unfold ImagePage.read_dimensions.
  rewrite (image_dimensions_shape data Hd Hrooms). run_binds.
  rewrite !(get_not_nullish (image_dimension_source data))
    by apply image_dimension_source_not_nullish.
  run_binds. unfold dimension_leaves in Hleaves.
  apply andb_true_iff in Hleaves as [[Hl Hw]%andb_true_iff Hh].
  destruct (numeric_or_default _ zero Hl eq_refl) as (l & -> & Hfl).
  destruct (numeric_or_default _ zero Hw eq_refl) as (w & -> & Hfw).
  destruct (numeric_or_default _ zero Hh eq_refl) as (h & -> & Hfh).
  exists l, w, h. auto.
Qed.

Lemma image_paintable_shape (data : value) :
  nullish data = false →
  area_or_missing (get_opt data "total_paintable_area") = true →
  area_or_missing (get_opt (get_opt data "area_calculation") "paintable_area") = true →
  ∃ pa, ImagePage.paintableArea data = Ok pa ∧ area_or_missing pa = true.
Proof.
  intros Hd Ha Hb. unfold ImagePage.paintableArea.
  rewrite !(get_not_nullish data) by exact Hd. run_binds.
  destruct (truthy (get_opt data "total_paintable_area")) eqn:E; run_binds.
  - eexists. split; [reflexivity|assumption].
  - eexists. split; [reflexivity|assumption].
Qed.

Lemma image_paintRequired_shape (data : value) :
  nullish data = false →
  numeric_or_missing (get_opt data "total_paint_required") = true →
  numeric_or_missing
    (get_opt (get_opt (get_opt data "product_breakdown") "paint") "quantity") = true →
  ∃ pr, ImagePage.paintRequired data = Ok pr ∧ numeric_or_missing pr = true.
Proof.
  intros Hd Ha Hb. unfold ImagePage.paintRequired.
  rewrite !(get_not_nullish data) by exact Hd. run_binds.
  destruct (truthy (get_opt data "total_paint_required")) eqn:E; run_binds.
  - eexists. split; [reflexivity|assumption].
  - eexists. split; [reflexivity|assumption].
Qed.

Lemma image_totalCost_shape (data : value) :
  nullish data = false →
  numeric_or_missing (get_opt data "total_cost") = true →
  numeric_or_missing (get_opt (get_opt data "cost_breakdown") "total_cost") = true →
  ∃ tc, ImagePage.totalCost data = Ok tc ∧ numeric_or_missing tc = true.
Proof.
  intros Hd Ha Hb. unfold ImagePage.totalCost.
  rewrite !(get_not_nullish data) by exact Hd. run_binds.
  destruct (truthy (get_opt data "total_cost")) eqn:E; run_binds.
  - eexists. split; [reflexivity|assumption].
  - eexists. split; [reflexivity|assumption].
Qed.

Lemma image_resolve_shape (data : value) :
  nullish data = false → rooms_listed data = true →
  dimension_leaves (image_dimension_source data) = true →
  area_or_missing (get_opt data "total_paintable_area") = true →
  area_or_missing (get_opt (get_opt data "area_calculation") "paintable_area") = true →
  ∃ l w h,
    ImagePage.resolve_dimensions StringToNumber data
    = Ok {| ImagePage.length := VNum l; ImagePage.width := VNum w;
            ImagePage.height := VNum h |}
    ∧ is_finite l = true ∧ is_finite w = true ∧ is_finite h = true.
Proof.
  intros Hd Hrooms Hleaves Ha Hb. unfold ImagePage.resolve_dimensions.
  destruct (image_read_shape data Hd Hrooms Hleaves) as (l & w & h & -> & Hl & Hw & Hh).
  destruct (image_paintable_shape data Hd Ha Hb) as (pa & -> & Hpa).
  run_binds. unfold ImagePage.fallback_fires.
  cbn [ImagePage.length ImagePage.width].
  destruct (is_zero (VNum l) && is_zero (VNum w)); cbn [andb]; [|eauto 10].
  destruct (truthy pa) eqn:Et; [|eauto 10].
  destruct (image_roomCount_shape data Hd Hrooms) as (p & ->). run_binds.
  destruct (area_truthy pa Hpa Et) as (n & -> & Hn).
  pose proof (side_finite n p Hn) as Hside.
  unfold ImagePage.estimatedSide. rewrite divide_numbers. run_binds.
  do 3 eexists. split; [reflexivity|].
  unfold ImagePage.estimatedHeight. auto.
Qed.

(** On a body of the expected shape the image page renders, and every
    number it leaves behind is finite. *)
Lemma image_page_total (response : value) :
  image_response_shape response = true →
  ∃ r, ImagePage.displayResults StringToNumber true response = Ok (Some r)
       ∧ image_result_finite r = true.
Proof.
  unfold image_response_shape. cbv zeta.
  set (data := or (get_opt response "data") response).
  intros H.
  apply andb_true_iff in H as [H Hc2]. apply andb_true_iff in H as [H Hc1].
  apply andb_true_iff in H as [H Hp2]. apply andb_true_iff in H as [H Hp1].
  apply andb_true_iff in H as [H Ha2]. apply andb_true_iff in H as [H Ha1].
  apply andb_true_iff in H as [H Hleaves]. apply andb_true_iff in H as [Hr Hrooms].
  apply negb_true_iff in Hr.
  assert (Hd : nullish data = false) by (apply or_not_nullish; exact Hr).
  unfold ImagePage.displayResults, ImagePage.unwrap. cbn [negb].
  rewrite (get_not_nullish response) by exact Hr. run_binds. fold data.
  rewrite (Object_keys_not_nullish data Hd). run_binds.
  destruct (image_resolve_shape data Hd Hrooms Hleaves Ha1 Ha2)
    as (l & w & h & -> & Hl & Hw & Hh). run_binds.
  destruct (image_paintable_shape data Hd Ha1 Ha2) as (pa & -> & Hpa). run_binds.
  destruct (numeric_or_default pa zero (area_is_numeric _ Hpa) eq_refl) as (a & -> & Hfa).
  cbn [toFixed]. run_binds.
  destruct (image_paintRequired_shape data Hd Hp1 Hp2) as (pr & -> & Hpr). run_binds.
  destruct (numeric_or_default pr zero Hpr eq_refl) as (q & -> & Hfq).
  cbn [toFixed]. run_binds. cbn [ImagePage.length ImagePage.width ImagePage.height].
  destruct (show_dimension_number l Hl) as (sl & -> & Hsl).
  destruct (show_dimension_number w Hw) as (sw & -> & Hsw).
  destruct (show_dimension_number h Hh) as (sh & -> & Hsh). run_binds.
  destruct (image_totalCost_shape data Hd Hc1 Hc2) as (tc & -> & Htc). run_binds.
  destruct (numeric_or_default tc zero Htc eq_refl) as (c & -> & Hfc).
  cbn [toFixed]. run_binds.
  eexists. split; [reflexivity|].
  unfold image_result_finite. cbn.
  rewrite Hl, Hw, Hh, Hfa, Hfq, Hfc, Hsl, Hsw, Hsh. reflexivity.
Qed.

Lemma get_opt_truthy_not_nullish (v : value) (k : string) :
  truthy (get_opt v k) = true → nullish v = false.
Proof. destruct v; simpl; try discriminate; reflexivity. Qed.

Lemma first_truthy_numeric (candidates : list value) :
  Forall (λ v, numeric_or_missing v = true) candidates →
  ∃ n, VideoPage.first_truthy candidates (VNum zero) = VNum n ∧ is_finite n = true.
Proof.
  induction 1 as [|v rest Hv _ IH]; simpl.
  - by exists zero.
  - destruct IH as (n & -> & Hn). unfold or. destruct (truthy v) eqn:Et; [|eauto].
    unfold numeric_or_missing in Hv. apply orb_true_iff in Hv as [Hv|Hv].
    + destruct v; discriminate.
    + apply finite_number_inv in Hv as (m & -> & Hm & _). eauto.
Qed.

Lemma first_truthy_not_nullish (candidates : list value) (default : value) :
  nullish default = false →
  nullish (VideoPage.first_truthy candidates default) = false.
Proof.
  intros Hd. induction candidates as [|v rest IH]; simpl; [exact Hd|].
  by apply or_not_nullish.
Qed.

Lemma video_show_positive (n : number) (d : nat) (placeholder : string) :
  is_finite n = true →
  ∃ s, VideoPage.show_positive StringToNumber (VNum n) d placeholder = Ok s
       ∧ finite_or_placeholder s = true.
Proof.
  intros Hn. unfold VideoPage.show_positive. rewrite gt_zero_number. simpl.
  destruct (gt n zero); simpl; eauto.
Qed.

Lemma video_show_dimension_text (v : value) (placeholder : string) :
  numeric_or_missing v = true →
  ∃ s, VideoPage.show_dimension (or v (VStr placeholder)) = Ok s
       ∧ finite_or_placeholder s = true.
Proof.
  intros Hv. destruct (numeric_or_text v placeholder Hv) as [(n & -> & Hn)| ->];
    simpl; eauto.
Qed.

Lemma text_or_default (v : value) (default : string) :
  text_or_missing v = true → ∃ t, or v (VStr default) = VStr t.
Proof.
  destruct v; try discriminate; intros _; unfold or; simpl; eauto.
  destruct (negb _); eauto.
Qed.

Lemma or_truthy (a b : value) : truthy b = true → truthy (or a b) = true.
Proof. intros Hb. unfold or. by destruct (truthy a) eqn:Ha. Qed.

(** The modal shows a request of the expected shape. *)
Lemma video_manual_input_total (manualModal : bool) (data : value) :
  nullish data = false →
  negb (truthy (get_opt (get_opt data "manual_input_request") "needs_manual_input"))
  || manual_request_shape (get_opt data "manual_input_request") = true →
  ∃ o, VideoPage.manual_input StringToNumber manualModal data = Ok o.
Proof.
  intros Hd Hshape. unfold VideoPage.manual_input.
  rewrite (get_not_nullish data) by exact Hd. run_binds.
  set (r := get_opt data "manual_input_request") in *.
  destruct (truthy (get_opt r "needs_manual_input")) eqn:E; [|cbn [andb]; eauto].
  destruct manualModal; cbn [andb]; [|eauto].
  rewrite !(get_not_nullish r) by (by eapply get_opt_truthy_not_nullish).
  run_binds. cbn [negb orb] in Hshape. unfold manual_request_shape in Hshape.
  apply andb_true_iff in Hshape as [[Hreason Hconf]%andb_true_iff Hheight].
  destruct (text_or_default _ "Low confidence in automated estimation" Hreason) as (t & ->).
  destruct (numeric_or_default _ zero Hconf eq_refl) as (n & -> & _).
  set (ce := or (get_opt r "current_estimates") (VObj [])) in *.
  assert (Hce : truthy ce = true) by (by apply or_truthy).
  assert (Hdef : VideoPage.defaulted ce VNull = ce)
    by (destruct ce; try reflexivity; discriminate).
  unfold VideoPage.modal_show.
  cbn [VideoPage.request_confidence VideoPage.request_reason
       VideoPage.request_currentEstimate VideoPage.defaulted].
  rewrite Hdef, Hce. unfold converted. cbn [convertible]. run_binds.
  rewrite ToNumber_number. run_binds.
  rewrite (get_not_nullish ce) by (by apply truthy_not_nullish). run_binds.
  destruct (truthy (get_opt ce "height")) eqn:Eh; [|eauto].
  unfold numeric_or_missing in Hheight. apply orb_true_iff in Hheight as [H|H].
  - destruct (get_opt ce "height"); discriminate.
  - apply finite_number_inv in H as (h & -> & _). simpl. eauto.
Qed.

Lemma video_dimensions_total (data : value) :
  nullish data = false →
  VideoPage.dimensions data = Ok (video_dimension_source data)
  ∧ nullish (video_dimension_source data) = false.
Proof.
  intros Hd. unfold VideoPage.dimensions.
  rewrite !(get_not_nullish data) by exact Hd. split; [reflexivity|].
  unfold video_dimension_source. repeat apply or_not_nullish. reflexivity.
Qed.

Lemma video_method_total (data : value) :
  nullish data = false →
  text_or_missing (get_opt (video_dimension_source data) "method") = true →
  text_or_missing (get_opt data "estimation_mode") = true →
  ∃ m shown, VideoPage.method data = Ok m ∧ VideoPage.methodDisplay m = Ok shown.
Proof.
  intros Hd Ha Hb. unfold VideoPage.method.
  destruct (video_dimensions_total data Hd) as [-> Hs]. run_binds.
  rewrite (get_not_nullish _ _ Hs), (get_not_nullish data) by exact Hd. run_binds.
  cbn [VideoPage.first_truthy foldr]. unfold or.
  destruct (get_opt (video_dimension_source data) "method") eqn:Ea; try discriminate;
    destruct (get_opt data "estimation_mode") eqn:Eb; try discriminate;
    cbn [truthy]; repeat match goal with |- context [if ?b then _ else _] => destruct b end;
    do 2 eexists; split; reflexivity.
Qed.

Lemma video_band_total (data : value) :
  nullish data = false →
  convertible (video_confidence_source data) = true →
  match get_opt (or (get_opt (video_dimension_source data) "variance") (VObj []))
          "error_percentage" with
  | VUndefined | VNum _ => true
  | _ => false
  end = true →
  ∃ pct b, VideoPage.confidencePercent StringToNumber data = Ok pct
           ∧ VideoPage.confidenceBand StringToNumber data = Ok b.
Proof.
  intros Hd Hc He.
  destruct (confidencePercent_convertible StringToNumber data _
              (rawConfidence_source data Hd) Hc) as (pct & Hp).
  exists pct.
  assert (Hx : VideoPage.error_percentage data
               = Ok (get_opt (or (get_opt (video_dimension_source data) "variance")
                                 (VObj [])) "error_percentage")).
  { unfold VideoPage.error_percentage.
    destruct (video_dimensions_total data Hd) as [-> Hs]. run_binds.
    rewrite (get_not_nullish _ _ Hs). run_binds.
    by rewrite get_not_nullish by (apply or_not_nullish; reflexivity). }
  rewrite (confidenceBand_cases StringToNumber data _ pct Hp Hx).
  destruct (get_opt _ "error_percentage"); try discriminate; eauto.
Qed.

Lemma video_detectionResults_total (data : value) :
  nullish data = false →
  VideoPage.detectionResults data = Ok (video_detection_source data)
  ∧ nullish (video_detection_source data) = false.
Proof.
  intros Hd. unfold VideoPage.detectionResults.
  rewrite !(get_not_nullish data) by exact Hd. split; [reflexivity|].
  unfold video_detection_source. repeat apply or_not_nullish. reflexivity.
Qed.

(** A count read from candidates that are Numbers or missing is a finite
    Number. *)
Lemma video_detected_total (kind : string) (data : value) :
  nullish data = false →
  Forall (λ v, numeric_or_missing v = true)
    [get_opt (video_detection_source data) ("detected_" +:+ kind);
     get_opt (video_detection_source data) ("unique_" +:+ kind);
     get_opt (get_opt data "aggregated_counts") kind] →
  ∃ n, VideoPage.detected kind data = Ok (VNum n) ∧ is_finite n = true.
Proof.
  intros Hd Hcounts. unfold VideoPage.detected.
  destruct (video_detectionResults_total data Hd) as [-> Hr]. run_binds.
  rewrite !(get_not_nullish (video_detection_source data)) by exact Hr.
  rewrite (get_not_nullish data) by exact Hd. run_binds.
  destruct (first_truthy_numeric _ Hcounts) as (n & -> & Hn). eauto.
Qed.

(** On a body of the expected shape the video page renders, and every
    amount and dimension it shows is a finite number or its placeholder. *)
Lemma video_page_total (manualModal : bool) (data : value) :
  video_response_shape data = true →
  ∃ r, VideoPage.displayResults StringToNumber true manualModal data = Ok (Some r)
       ∧ video_result_finite r = true.
Proof.
  unfold video_response_shape. cbv zeta. set (d := video_dimension_source data).
  intros H.
  apply andb_true_iff in H as [H Hmodal]. apply andb_true_iff in H as [H Hcounts].
  apply andb_true_iff in H as [H Hconf].
  apply andb_true_iff in H as [H Herr]. apply andb_true_iff in H as [H Hm2].
  apply andb_true_iff in H as [H Hm1]. apply andb_true_iff in H as [H Hc2].
  apply andb_true_iff in H as [H Hc1]. apply andb_true_iff in H as [H Hp3].
  apply andb_true_iff in H as [H Hp2]. apply andb_true_iff in H as [H Hp1].
  apply andb_true_iff in H as [H Ha3]. apply andb_true_iff in H as [H Ha2].
  apply andb_true_iff in H as [H Ha1]. apply andb_true_iff in H as [Hd Hleaves].
  apply negb_true_iff in Hd.
  unfold dimension_leaves in Hleaves.
  apply andb_true_iff in Hleaves as [[Hl Hw]%andb_true_iff Hh].
  unfold video_counts in Hcounts. cbn [forallb] in Hcounts.
  rewrite !andb_true_iff in Hcounts.
  destruct Hcounts as (Hd1 & Hd2 & Hd3 & Hw1 & Hw2 & Hw3 & Ht & Hf1 & Hf2 & Hf3 & _).
  unfold VideoPage.displayResults. cbn [negb].
  destruct (video_manual_input_total manualModal data Hd Hmodal) as (o & ->). run_binds.
  destruct (video_dimensions_total data Hd) as [-> Hs]. fold d in Hs |- *. run_binds.
  rewrite !(get_not_nullish d) by exact Hs. run_binds.
  unfold VideoPage.totalArea, VideoPage.paintNeeded, VideoPage.framesAnalyzed,
    VideoPage.totalCost.
  rewrite !(get_not_nullish data) by exact Hd. run_binds.
  destruct (first_truthy_numeric
              [get_opt (get_opt data "area_calculation") "paintable_area";
               get_opt data "total_paintable_area"; get_opt data "total_area"])
    as (area & -> & Harea); [repeat constructor; assumption|].
  destruct (first_truthy_numeric
              [get_opt (get_opt (get_opt data "product_breakdown") "paint") "quantity";
               get_opt data "total_paint_required_liters"; get_opt data "total_paint_liters"])
    as (paint & -> & Hpaint); [repeat constructor; assumption|].
  destruct (first_truthy_numeric
              [get_opt (get_opt data "video_analysis") "frames_analyzed";
               get_opt data "frame_count"; get_opt (get_opt data "metadata") "frame_count"])
    as (frames & -> & Hframes); [repeat constructor; assumption|].
  destruct (first_truthy_numeric
              [get_opt (get_opt data "cost_breakdown") "total_cost";
               get_opt data "total_cost"])
    as (cost & -> & Hcost); [repeat constructor; assumption|].
  destruct (video_band_total data Hd Hconf Herr) as (pct & b & -> & ->). run_binds.
  destruct (video_method_total data Hd Hm1 Hm2) as (m & shown & -> & Hshown). run_binds.
  rewrite Hshown. run_binds.
  destruct (video_detectionResults_total data Hd) as [-> Hrn]. run_binds.
  destruct (video_detected_total "doors" data Hd) as (doors & -> & _);
    [repeat constructor; assumption|].
  destruct (video_detected_total "windows" data Hd) as (windows & -> & _);
    [repeat constructor; assumption|].
  run_binds. rewrite (get_not_nullish _ _ Hrn). run_binds.
  destruct (numeric_or_default _ zero Ht eq_refl) as (total & -> & _).
  destruct (video_show_dimension_text _ "Auto" Hl) as (sl & -> & Hsl).
  destruct (video_show_dimension_text _ "Auto" Hw) as (sw & -> & Hsw).
  destruct (numeric_or_default _ (of_Z 10) Hh eq_refl) as (h & -> & Hfh).
  cbn [VideoPage.show_dimension is_number toFixed]. run_binds.
  rewrite !plain_cases, sum_cases. cbn [convertible andb]. run_binds.
  assert (Hst : ∃ st, (if truthy (VNum total) then Ok (Plain (VNum total))
                       else Ok (Sum (VNum doors) (VNum windows))) = Ok st)
    by (destruct (truthy (VNum total)); eauto).
  destruct Hst as (st & ->). run_binds.
  destruct (video_show_positive area 1 "N/A" Harea) as (sa & -> & Hsa).
  destruct (video_show_positive paint 2 "N/A" Hpaint) as (sp & -> & Hsp). run_binds.
  assert (Hsf : convertible (or (VNum frames) (VStr "-")) = true)
    by (unfold or; destruct (truthy (VNum frames)); reflexivity).
  rewrite Hsf. run_binds.
  destruct (video_show_positive cost 0 "0" Hcost) as (sc & -> & Hsc). run_binds.
  eexists. split; [reflexivity|].
  unfold video_result_finite. cbn.
  rewrite Hsa, Hsp, Hsc, Hsl, Hsw, Hfh. reflexivity.
Qed.

(** C1, as the scripts have it.  On a body of the shape a page is written
    for (an object; each numeric leaf on a candidate path missing, [null] or
    a finite number, areas below [2^1000]; [rooms] missing, [null] or an
    array whose first entry is not [null]; in video mode a method that is a
    string and an error percentage that is a number, when there is one, a
    confidence that can be converted to a number, counts of doors, windows,
    detections and frames that are missing, [null] or finite numbers, and,
    when the body asks for manual input, a request whose reason is a
    string, whose confidence score is a finite number and whose estimate of
    the height is a finite number, each of them when it is there) the
    display step returns without raising, with or without a manual-input
    modal on the page, and paintable area, paint liters, total cost,
    length, width and height are finite numbers, or the placeholder shown
    for a dimension or amount that is missing or not positive. *)
Theorem normalization_on_expected_shapes
  (response data : value) (manualModal : bool) :
  image_response_shape response = true →
  video_response_shape data = true →
  (∃ r, ImagePage.displayResults StringToNumber true response = Ok (Some r)
        ∧ image_result_finite r = true)
  ∧ (∃ r, VideoPage.displayResults StringToNumber true manualModal data = Ok (Some r)
          ∧ video_result_finite r = true).
Proof.
  intros Hi Hv. split.
  - by apply image_page_total.
  - by apply video_page_total.
Qed.

End Totality.

(** C1 as claimed fails.  A [null] entry in [rooms] makes the image page
    raise, and so does a paintable area that is a string; a method that is
    not a string makes the video page raise, as do a confidence or a count
    of doors that is an object with a key [toString], and a request for
    manual input whose estimate of the height is a string; and the largest
    finite area overflows in the fallback, which leaves [Infinity] as
    length and width. *)
Lemma normalization_raises :
  let unprintable := VObj [("toString", VNum (of_Z 1))] in
  ImagePage.displayResults unread true (VObj [("rooms", VArr [VNull])]) = TypeError
  ∧ ImagePage.displayResults unread true VNull = TypeError
  ∧ ImagePage.displayResults unread true (VObj [("total_paintable_area", VStr "400")])
    = TypeError
  ∧ VideoPage.displayResults unread true true
      (VObj [("dimensions", VObj [("method", VNum (of_Z 3))])]) = TypeError
  ∧ VideoPage.displayResults unread true true (VObj [("confidence", unprintable)])
    = TypeError
  ∧ VideoPage.displayResults unread true true
      (VObj [("detection_results", VObj [("detected_doors", unprintable)])]) = TypeError
  ∧ VideoPage.displayResults unread true true
      (VObj [("manual_input_request",
              VObj [("needs_manual_input", VBool true);
                    ("current_estimates", VObj [("height", VStr "9")])])]) = TypeError
  ∧ ImagePage.resolve_dimensions unread (VObj [("total_paintable_area", VNum max_value)])
    = Ok {| ImagePage.length := VNum Infinity; ImagePage.width := VNum Infinity;
            ImagePage.height := VNum (of_Z 10) |}.
Proof. repeat split; vm_compute; reflexivity. Qed.

Lemma normalization_on_expected_shapes_witness :
  image_response_shape multi_room_body = true
  ∧ video_response_shape video_body = true
  ∧ (∃ r, ImagePage.displayResults unread true multi_room_body = Ok (Some r)
          ∧ image_result_finite r = true)
  ∧ (∃ r, VideoPage.displayResults unread true true video_body = Ok (Some r)
          ∧ video_result_finite r = true).
Proof.
  split; [reflexivity|]. split; [reflexivity|].
  apply (normalization_on_expected_shapes unread multi_room_body video_body true);
    reflexivity.
Defined.

(** What the page does with a body that makes the display step raise: the
    handler catches the error, reports a failed analysis, shows no result
    and hides the overlay. *)
Lemma raised_normalization_is_reported :
  let s := ImageUploads.run unread true ImageUploads.initial
             [ImageUploads.DisplaySingleImage png;
              ImageUploads.SingleSubmit interior;
              ImageUploads.SingleSettled (Json (VObj [("rooms", VArr [VNull])]))] in
  results s = None
  ∧ loading s = false
  ∧ toasts s = [{| toast_type := "error"; toast_title := "Analysis Failed";
                   toast_message := "Please try again with a clearer image" |}].
Proof. vm_compute. repeat split; reflexivity. Qed.

(** * Further properties of the scripts *)

(** ** The image page: what is uploaded and what is sent *)

Section UploadedFiles.

Variable StringToNumber : string → number.
Variable container : bool.

Import ImageUploads.

#[local] Abbreviation run := (ImageUploads.run StringToNumber container).
#[local] Abbreviation step := (ImageUploads.step StringToNumber container).

Lemma files_of_multi_form (sel : selects) (files : list File) (url : string) :
  files_of {| endpoint := url; body := multi_form sel files |} = files.
Proof.
  unfold files_of, multi_form. cbn [body]. rewrite omap_app.
  replace (omap _ [_]) with (@nil File) by reflexivity. rewrite app_nil_r.
  induction files as [|f files IH]; [reflexivity|].
  cbn [map omap list_omap fst snd]. cbn [map omap list_omap] in IH. by rewrite IH.
Qed.

Lemma settle_posts (done failed : string) (r : response) (s : state) :
  posts (settle StringToNumber container done failed r s) = posts s.
Proof.
  unfold settle. destruct r as [status| |data]; simpl; try reflexivity.
  destruct (ImagePage.displayResults _ _ _); reflexivity.
Qed.

Lemma step_images_only (s : state) (e : event) :
  images_only s → images_only (step s e).
Proof.
  intros (Hi & Hn & Hp). destruct e; cbn [ImageUploads.step].
  - unfold displaySingleImage. destruct (is_image file) eqn:E; simpl.
    + split; [|split]; [by repeat constructor|simpl; lia|exact Hp].
    + split; [|split]; assumption.
  - split; [|split]; [constructor|simpl; lia|exact Hp].
  - split; [|split]; [|by apply addMultipleImages_bounded|].
    + rewrite addMultipleImages_selection. simpl.
      destruct (_ || _); [exact Hi|].
      apply Forall_app. split; [exact Hi|].
      apply Forall_forall. intros f Hf. apply list_elem_of_filter in Hf. tauto.
    + unfold addMultipleImages. destruct (_ =? 0); [exact Hp|].
      destruct (4 <? _); exact Hp.
  - split; [|split]; [|by apply removeMultiImage_bounded|exact Hp].
    unfold removeMultiImage, splice1. simpl. by apply Forall_delete.
  - unfold images_only. rewrite handleSingleSubmit_selection.
    split; [exact Hi|]. split; [exact Hn|].
    unfold handleSingleSubmit. destruct (uploadedImages s) as [|image rest] eqn:E.
    + exact Hp.
    + simpl. apply Forall_app. split; [exact Hp|]. constructor; [|constructor].
      split.
      * unfold files_of. simpl. constructor; [|constructor].
        by inversion Hi.
      * left. split; reflexivity.
  - unfold images_only. rewrite handleMultiSubmit_selection.
    split; [exact Hi|]. split; [exact Hn|].
    unfold handleMultiSubmit.
    destruct (Nat.ltb_spec (length (uploadedImages s)) 2) as [E|E].
    + exact Hp.
    + simpl. apply Forall_app. split; [exact Hp|]. constructor; [|constructor].
      unfold image_request. rewrite files_of_multi_form.
      split; [exact Hi|]. right. simpl. split; [reflexivity|lia].
  - unfold images_only. rewrite settle_selection, settle_posts. tauto.
  - unfold images_only. rewrite settle_selection, settle_posts. tauto.
Qed.

Lemma run_images_only (es : list event) (s : state) :
  images_only s → images_only (run s es).
Proof.
  revert s. induction es as [|e es IH]; intros s Hs; simpl; [exact Hs|].
  apply IH. by apply step_images_only.
Qed.

(** X1.  Whatever is done on the image page, its list holds image files
    only, and every request that has gone out carries image files only:
    exactly one of them on the single-room endpoint, two to four on the
    multi-room endpoint. *)
Theorem image_requests_carry_images (es : list event) :
  let s := run initial es in
  Forall (λ f, is_image f = true) (uploadedImages s)
  ∧ Forall (λ r, Forall (λ f, is_image f = true) (files_of r)
                 ∧ ((endpoint r = API_BASE_URL +:+ "/estimate/cv/single-room"
                     ∧ length (files_of r) = 1)
                    ∨ (endpoint r = API_BASE_URL +:+ "/estimate/cv/multi-room"
                       ∧ 2 ≤ length (files_of r) ≤ 4)))
           (posts s).
Proof.
  intros s.
  assert (H : images_only s).
  { apply run_images_only. split; [constructor|]. split; [simpl; lia|constructor]. }
  destruct H as (Hi & _ & Hp). split; [exact Hi|exact Hp].
Qed.

Lemma delete_past {A} (i : nat) (l : list A) : length l ≤ i → delete i l = l.
Proof.
  intros Hi. rewrite delete_take_drop.
  rewrite take_ge by exact Hi. rewrite drop_ge by lia. apply app_nil_r.
Qed.

Lemma splice1_in_range {A} (i : nat) (l : list A) :
  splice1 (Z.of_nat i) l = delete i l.
Proof.
  unfold splice1. destruct (Z.ltb_spec (Z.of_nat i) 0) as [E|E]; [lia|].
  destruct (Z.min_spec (Z.of_nat i) (Z.of_nat (length l))) as [[Hlt ->]|[Hge ->]].
  - by rewrite Nat2Z.id.
  - rewrite Nat2Z.id. rewrite !delete_past; [reflexivity|lia|lia].
Qed.

Lemma remove_appended {A} (l extra : list A) :
  Nat.iter (length extra) (delete (length l)) (l ++ extra) = l.
Proof.
  induction extra as [|x extra IH]; simpl length.
  - simpl. by rewrite app_nil_r.
  - rewrite Nat.iter_succ_r.
    rewrite delete_middle. exact IH.
Qed.

(** X2.  Removing on the image page.  [removeMultiImage(i)] with [i] a
    position in the list takes out the file at that position and keeps the
    others in their order; with [i] past the end it changes nothing.  Adding
    a batch and then removing, once for each image of the batch, the entry
    at the position where the batch began gives back the list as it was. *)
Theorem removeMultiImage_undoes_addMultipleImages
  (i : nat) (files : list File) (s : state) :
  let old := uploadedImages s in
  let imageFiles := filter (λ f, is_image f = true) files in
  uploadedImages (removeMultiImage (Z.of_nat i) s) = take i old ++ drop (S i) old
  ∧ (length old ≤ i → uploadedImages (removeMultiImage (Z.of_nat i) s) = old)
  ∧ (imageFiles ≠ [] → length old + length imageFiles ≤ 4 →
     uploadedImages (addMultipleImages files s) = old ++ imageFiles
     ∧ uploadedImages
         (Nat.iter (length imageFiles) (removeMultiImage (Z.of_nat (length old)))
            (addMultipleImages files s)) = old).
Proof.
  intros old imageFiles.
  assert (Hrm : ∀ t, uploadedImages (removeMultiImage (Z.of_nat i) t)
                     = delete i (uploadedImages t)).
  { intros t. unfold removeMultiImage. simpl. apply splice1_in_range. }
  split; [|split].
  - rewrite Hrm. apply delete_take_drop.
  - intros Hi. rewrite Hrm. apply delete_past. exact Hi.
  - intros Hne Hfit.
    assert (Hadd : uploadedImages (addMultipleImages files s) = old ++ imageFiles).
    { rewrite addMultipleImages_selection. fold imageFiles old.
      destruct (Nat.eqb_spec (length imageFiles) 0) as [E|E].
      - destruct imageFiles; [done|discriminate].
      - destruct (Nat.ltb_spec 4 (length old + length imageFiles)); [lia|reflexivity]. }
    split; [exact Hadd|].
    assert (Hiter : ∀ n t, uploadedImages
              (Nat.iter n (removeMultiImage (Z.of_nat (length old))) t)
              = Nat.iter n (delete (length old)) (uploadedImages t)).
    { induction n as [|n IHn]; intros t; [reflexivity|].
      simpl. unfold removeMultiImage at 1. simpl. rewrite splice1_in_range.
      f_equal. apply IHn. }
    rewrite Hiter, Hadd. apply remove_appended.
Qed.

End UploadedFiles.

Lemma removeMultiImage_undoes_addMultipleImages_witness :
  ImageUploads.uploadedImages
    (Nat.iter 2 (ImageUploads.removeMultiImage 1)
       (ImageUploads.addMultipleImages [png; mp4; png]
          (ImageUploads.displaySingleImage png ImageUploads.initial)))
  = [png].
Proof.
  apply (removeMultiImage_undoes_addMultipleImages 0 [png; mp4; png]
           (ImageUploads.displaySingleImage png ImageUploads.initial)).
  - discriminate.
  - simpl. lia.
Defined.

(** ** The image page: the mode parameter *)

(** X3.  The mode of the image page.  The multi container is on display
    exactly when the parameter is [multi]; a click on a drop zone opens the
    single input exactly when the parameter is missing, empty or [single].
    So with any other parameter the page shows the single container while a
    click on its drop zone opens the file dialog of the multi input. *)
Theorem unknown_mode_shows_single_and_opens_multi (param : option string) :
  let s := ImageMode.initializePage param in
  (ImageMode.displayed s = ImageMode.MultiContainer ↔ param = Some "multi")
  ∧ (ImageMode.click s = ImageMode.SingleInput
     ↔ param = None ∨ param = Some "" ∨ param = Some "single")
  ∧ (ImageMode.displayed s = ImageMode.SingleContainer
     ∧ ImageMode.click s = ImageMode.MultiInput
     ↔ ∃ m, param = Some m ∧ m ≠ "" ∧ m ≠ "single" ∧ m ≠ "multi").
Proof.
  unfold ImageMode.initializePage, ImageMode.click. simpl.
  destruct param as [m|]; simpl.
  - destruct (String.eqb_spec m "") as [->|Hempty]; simpl.
    + split; [split; [discriminate|intros [=]]|].
      split; [split; [tauto|reflexivity]|].
      split; [intros [_ [=]]|intros (m & [= <-] & H & _); done].
    + destruct (String.eqb_spec m "multi") as [->|Hmulti]; simpl.
      * split; [split; reflexivity|].
        split; [split; [discriminate|intros [[=]|[[=]|[=]]]]|].
        split; [intros [[=] _]|intros (m & [= <-] & _ & _ & H); done].
      * destruct (String.eqb_spec m "single") as [->|Hsingle]; simpl.
        -- split; [split; [discriminate|intros [=]]|].
           split; [split; [tauto|reflexivity]|].
           split; [intros [_ [=]]|intros (m & [= <-] & _ & H & _); done].
        -- split; [split; [discriminate|intros [= ->]; done]|].
           split; [split; [discriminate|intros [[=]|[[= ->]|[= ->]]]; done]|].
           split; [intros _; by exists m|done].
  - split; [split; [discriminate|intros [=]]|].
    split; [split; [tauto|reflexivity]|].
    split; [intros [_ [=]]|intros (m & [=] & _)].
Qed.

(** ** The image page: the envelope and the dimensions a response gives *)

Section ImageReading.

Variable StringToNumber : string → number.

(** X4.  The two shapes of a response.  A body wrapped as the [data] of an
    envelope is displayed exactly as the same body sent bare, provided the
    body is an object that has no truthy [data] of its own. *)
Theorem envelope_is_transparent
  (container : bool) (envelope body : list (string * value)) :
  lookup_field "data" envelope = VObj body →
  truthy (lookup_field "data" body) = false →
  ImagePage.displayResults StringToNumber container (VObj envelope)
  = ImagePage.displayResults StringToNumber container (VObj body).
Proof.
  intros Henv Hbare. unfold ImagePage.displayResults, ImagePage.unwrap.
  destruct container; [|reflexivity]. cbn [negb get mbind outcome_bind mret outcome_ret].
  rewrite Henv.
  replace (or (VObj body) (VObj envelope)) with (VObj body) by reflexivity.
  replace (or (lookup_field "data" body) (VObj body)) with (VObj body)
    by (unfold or; by rewrite Hbare).
  reflexivity.
Qed.

(** X5.  Dimensions that the response gives are kept.  When the object the
    dimensions are read from has a truthy length or a truthy width, the
    area fallback does not fire, whatever the paintable area: the three
    dimensions are those of the response.  When length and width are both
    falsy and the paintable area is truthy, the fallback fires and divides
    the area by the room count: if both can be converted to numbers the
    room comes out square, with height 10 and with the side estimated from
    the two numbers; if one of them cannot, the division raises. *)
Theorem given_dimensions_are_kept (data d : value) :
  ImagePage.dimensions StringToNumber data = Ok d →
  nullish d = false →
  let l := get_opt d "length" in
  let w := get_opt d "width" in
  (truthy l = true ∨ truthy w = true →
   ImagePage.resolve_dimensions StringToNumber data
   = Ok {| ImagePage.length := or l (VNum zero);
           ImagePage.width := or w (VNum zero);
           ImagePage.height := or (get_opt d "height") (VNum zero) |})
  ∧ (truthy l = false → truthy w = false →
     ∀ pa, ImagePage.paintableArea data = Ok pa → truthy pa = true →
     ∃ count,
       ImagePage.roomCount data = Ok count
       ∧ ImagePage.resolve_dimensions StringToNumber data
         = if convertible pa && convertible count
           then
             let wallArea :=
               div (numeric StringToNumber pa) (numeric StringToNumber count) in
             let side := div (div (mul wallArea (of_Z 2)) (of_Z 10)) (of_Z 2) in
             Ok {| ImagePage.length := VNum side; ImagePage.width := VNum side;
                   ImagePage.height := VNum (of_Z 10) |}
           else TypeError).
Proof.
  intros Hd Hnn l w.
  assert (Hdata : nullish data = false).
  { unfold ImagePage.dimensions in Hd. destruct data; try discriminate; reflexivity. }
  assert (Hread : ImagePage.read_dimensions StringToNumber data
    = Ok {| ImagePage.length := or l (VNum zero);
            ImagePage.width := or w (VNum zero);
            ImagePage.height := or (get_opt d "height") (VNum zero) |}).
  { unfold ImagePage.read_dimensions. rewrite Hd.
    cbn [mbind outcome_bind mret outcome_ret].
    rewrite !(get_not_nullish d) by exact Hnn. reflexivity. }
  assert (Hpa : ∃ pa, ImagePage.paintableArea data = Ok pa).
  { unfold ImagePage.paintableArea. rewrite !(get_not_nullish data) by exact Hdata.
    cbn [mbind outcome_bind mret outcome_ret].
    destruct (truthy _); eexists; reflexivity. }
  assert (Hzero : ∀ v, truthy v = true → is_zero (or v (VNum zero)) = false).
  { intros v Hv. unfold or. rewrite Hv.
    destruct v as [| |b|n|s|xs|fs]; try reflexivity.
    destruct n as [[]|[]| |[] m e]; simpl in Hv; try discriminate; reflexivity. }
  assert (Hfalsy : ∀ v, truthy v = false → is_zero (or v (VNum zero)) = true).
  { intros v Hv. unfold or. by rewrite Hv. }
  split.
  - intros Hgiven. destruct Hpa as (pa & Hpa).
    unfold ImagePage.resolve_dimensions. rewrite Hread, Hpa.
    cbn [mbind outcome_bind mret outcome_ret].
    unfold ImagePage.fallback_fires. cbn [ImagePage.length ImagePage.width].
    destruct Hgiven as [Hl|Hw].
    + by rewrite (Hzero l Hl).
    + rewrite (Hzero w Hw). by rewrite andb_false_r.
  - clear Hpa. intros Hl Hw pa Hpa Htruthy.
    unfold ImagePage.resolve_dimensions. rewrite Hread, Hpa.
    cbn [mbind outcome_bind mret outcome_ret].
    unfold ImagePage.fallback_fires. cbn [ImagePage.length ImagePage.width].
    rewrite (Hfalsy l Hl), (Hfalsy w Hw), Htruthy. cbn [andb].
    assert (Hcount : ∃ c, ImagePage.roomCount data = Ok c).
    { unfold ImagePage.roomCount. rewrite (get_not_nullish data) by exact Hdata.
      cbn [mbind outcome_bind mret outcome_ret].
      destruct (truthy (get_opt data "rooms")) eqn:Hr; [|eexists; reflexivity].
      rewrite (get_not_nullish (get_opt data "rooms"))
        by (by apply truthy_not_nullish).
      eexists. reflexivity. }
    destruct Hcount as (c & Hc). exists c. split; [exact Hc|].
    rewrite Hc. cbn [mbind outcome_bind mret outcome_ret].
    unfold ImagePage.estimatedSide, divide, ToNumber.
    by destruct (convertible pa), (convertible c).
Qed.

End ImageReading.

Lemma given_dimensions_are_kept_witness :
  ImagePage.resolve_dimensions unread
    (VObj [("dimensions", VObj [("length", VNum (of_Z 12))]);
           ("total_paintable_area", VNum (of_Z 400))])
  = Ok {| ImagePage.length := VNum (of_Z 12); ImagePage.width := VNum zero;
          ImagePage.height := VNum zero |}
  ∧ ImagePage.resolve_dimensions unread
      (VObj [("total_paintable_area", VObj [("toString", VNum (of_Z 1))])])
    = TypeError.
Proof.
  split.
  - apply (given_dimensions_are_kept unread
             (VObj [("dimensions", VObj [("length", VNum (of_Z 12))]);
                    ("total_paintable_area", VNum (of_Z 400))])
             (VObj [("length", VNum (of_Z 12))])).
    + reflexivity.
    + reflexivity.
    + left. reflexivity.
  - destruct (given_dimensions_are_kept unread
                (VObj [("total_paintable_area", VObj [("toString", VNum (of_Z 1))])])
                (VObj []) eq_refl eq_refl) as [_ H].
    destruct (H eq_refl eq_refl (VObj [("toString", VNum (of_Z 1))]) eq_refl eq_refl)
      as (count & _ & ->).
    reflexivity.
Defined.

Lemma envelope_is_transparent_witness :
  ImagePage.displayResults unread true multi_room_body
  = ImagePage.displayResults unread true
      (VObj [("rooms",
              VArr [VObj [("estimation",
                           VObj [("dimensions",
                                  VObj [("length", VNum (of_Z 12));
                                        ("width", VNum (of_Z 10))])])]]);
             ("total_paintable_area", VNum (of_Z 400));
             ("total_cost", VNum (decimal 12345 1))]).
Proof.
  apply (envelope_is_transparent unread true); reflexivity.
Defined.

(** ** The video page: what is uploaded and what is sent *)

Section UploadedVideo.

Variable StringToNumber : string → number.
Variable NumberToString : number → string.
Variables container manualModal : bool.

Import VideoUploads.

#[local] Abbreviation run := (VideoUploads.run StringToNumber NumberToString container manualModal).
#[local] Abbreviation step := (VideoUploads.step StringToNumber NumberToString container manualModal).

Lemma video_settle_keeps (r : response) (s : state) :
  uploadedVideo (settle StringToNumber NumberToString container manualModal r s) = uploadedVideo s
  ∧ posts (settle StringToNumber NumberToString container manualModal r s) = posts s.
Proof.
  unfold settle. destruct r as [status| |data]; simpl; try done.
  destruct (get data "data") as [d|]; simpl; [|done].
  destruct (VideoPage.displayResults _ _ _ _); [|done].
  by destruct (success_message _ _).
Qed.

Lemma step_videos_only (s : state) (e : event) :
  videos_only s → videos_only (step s e).
Proof.
  intros (Hv & Hp). destruct e as [file| |sel|r]; cbn [VideoUploads.step].
  - unfold displayVideo. destruct (is_video file) eqn:Ev; simpl; [|by split].
    destruct (N.ltb_spec maxSize (file_size file)) as [Es|Es]; simpl; [by split|].
    split; [|exact Hp]. intros f [= <-]. by split.
  - split; [|exact Hp]. intros f. discriminate.
  - unfold handleFormSubmit. destruct (uploadedVideo s) as [video|] eqn:E.
    + split.
      * intros f Hf. apply Hv. unfold uploadedVideo in *. simpl in Hf. congruence.
      * simpl. apply Forall_app. split; [exact Hp|]. constructor; [|constructor].
        split; [reflexivity|]. exists video. split; [reflexivity|]. by apply Hv.
    + split; [|exact Hp]. intros f Hf. apply Hv. unfold uploadedVideo in *.
      simpl in Hf. congruence.
  - destruct (video_settle_keeps r s) as [Hu Hq]. unfold videos_only.
    rewrite Hu, Hq. by split.
Qed.

(** X6.  Whatever is done on the video page, the selected file, if there is
    one, is of a video type and of at most 50 MiB (52428800 bytes, the
    bound included), and every request that has gone out is to the video
    endpoint and carries exactly one such file. *)
Theorem video_requests_carry_one_video (es : list event) :
  let s := run initial es in
  (∀ f, uploadedVideo s = Some f →
        is_video f = true ∧ (file_size f <= 52428800)%N)
  ∧ Forall (λ r, endpoint r = API_BASE_URL +:+ "/estimate/cv/video"
                 ∧ ∃ f, files_of r = [f]
                        ∧ is_video f = true ∧ (file_size f <= 52428800)%N)
           (posts s).
Proof.
  intros s.
  assert (H : videos_only s).
  { unfold s. assert (H0 : videos_only initial) by (split; [discriminate|constructor]).
    revert H0. generalize initial.
    induction es as [|e es IH]; intros s0 H0; simpl; [exact H0|].
    apply IH. by apply step_videos_only. }
  exact H.
Qed.

End UploadedVideo.

(** ** The video page: the name of the method *)

Lemma underscores_to_spaces_length (s : string) :
  String.length (VideoPage.underscores_to_spaces s) = String.length s.
Proof. induction s as [|c s IH]; simpl; [reflexivity|]. by rewrite IH. Qed.

Lemma capitalize_words_length (b : bool) (s : string) :
  String.length (VideoPage.capitalize_words b s) = String.length s.
Proof. revert b. induction s as [|c s IH]; intros b; simpl; [reflexivity|]. by rewrite IH. Qed.

Lemma toUpperCase_word (c : ascii) :
  VideoPage.is_word_char (VideoPage.toUpperCase c) = VideoPage.is_word_char c
  ∧ VideoPage.toUpperCase (VideoPage.toUpperCase c) = VideoPage.toUpperCase c
  ∧ (Ascii.eqb c "_" = false → Ascii.eqb (VideoPage.toUpperCase c) "_" = false).
Proof.
  destruct c as [[] [] [] [] [] [] [] []]; vm_compute;
    repeat split; try reflexivity; intros; congruence.
Qed.

(** A displayed name holds no underscore and no word that begins with a
    small letter. *)
Lemma capitalize_words_clean (b : bool) (s : string) :
  let t := VideoPage.capitalize_words b (VideoPage.underscores_to_spaces s) in
  VideoPage.underscores_to_spaces t = t
  ∧ VideoPage.capitalize_words b t = t.
Proof.
  revert b. induction s as [|c s IH]; intros b; [done|].
  cbn [VideoPage.underscores_to_spaces VideoPage.capitalize_words].
  set (c' := if Ascii.eqb c "_" then " "%char else c).
  assert (Hc' : Ascii.eqb c' "_" = false).
  { unfold c'. destruct (Ascii.eqb c "_") eqn:E; [reflexivity|exact E]. }
  destruct (toUpperCase_word c') as (Hw & Hu & Hn).
  destruct (IH (VideoPage.is_word_char c')) as [IH1 IH2].
  set (u := if VideoPage.is_word_char c' && negb b then VideoPage.toUpperCase c' else c').
  assert (Hu' : Ascii.eqb u "_" = false).
  { unfold u. destruct (_ && _); [by apply Hn|exact Hc']. }
  assert (Hw' : VideoPage.is_word_char u = VideoPage.is_word_char c').
  { unfold u. destruct (_ && _); [exact Hw|reflexivity]. }
  split.
  - rewrite Hu'. f_equal. exact IH1.
  - rewrite Hw'. f_equal; [|exact IH2].
    unfold u. destruct (VideoPage.is_word_char c' && negb b) eqn:E;
      [exact Hu|reflexivity].
Qed.

(** X7.  The name of the method on the video page.  For a method that is a
    string the displayed name has the length of the method, holds no
    underscore, and is left as it is when it is displayed again; a method
    that is not a string raises. *)
Theorem methodDisplay_is_stable (method : value) :
  match method with
  | VStr s =>
      ∃ t, VideoPage.methodDisplay method = Ok t
           ∧ String.length t = String.length s
           ∧ VideoPage.underscores_to_spaces t = t
           ∧ VideoPage.methodDisplay (VStr t) = Ok t
  | _ => VideoPage.methodDisplay method = TypeError
  end.
Proof.
  destruct method as [| |b|n|s|xs|fs]; try reflexivity.
  eexists. split; [reflexivity|].
  split; [by rewrite capitalize_words_length, underscores_to_spaces_length|].
  destruct (capitalize_words_clean false s) as [H1 H2]. cbv zeta in H1, H2.
  split; [exact H1|]. unfold VideoPage.methodDisplay. by rewrite H1, H2.
Qed.

(** ** The video page: the simulated progress *)

Section Progress.

Import VideoProgress.

#[local] Open Scope Z_scope.

Lemma shl_align_spec (m : positive) (e t : Z) :
  Z.pos (fst (shl_align m e t)) = Z.pos m * 2 ^ (e - Z.min e t)
  ∧ snd (shl_align m e t) = Z.min e t.
Proof.
  unfold shl_align. destruct (t - e) as [|d|d] eqn:E; cbn [fst snd].
  - replace (Z.min e t) with e by lia. rewrite Z.sub_diag. simpl. lia.
  - replace (Z.min e t) with e by lia. rewrite Z.sub_diag. simpl. lia.
  - replace (Z.min e t) with t by lia. split; [|reflexivity].
    change (Pos.iter xO m d) with (shift_pos d m).
    rewrite shift_pos_correct, Zpower_pos_nat, Zpower_nat_Z, positive_nat_Z.
    replace (e - t) with (Z.pos d) by lia. lia.
Qed.

Lemma binary_round_fin (s : bool) (m : positive) (e k : Z) :
  Zdigits2 (Z.pos m) + e <= k → -1074 <= k → k < 1024 →
  fin (k + 1) (binary_round prec emax s m e)
  ∧ match binary_round prec emax s m e with
    | S754_zero s' | S754_infinity s' | S754_finite s' _ _ => s' = s
    | S754_nan => True
    end.
Proof.
  intros Hk Hlo Hhi. unfold binary_round.
  change (Z.pos (digits2_pos m)) with (Zdigits2 (Z.pos m)).
  set (t := SpecFloat.fexp prec emax (Zdigits2 (Z.pos m) + e)).
  destruct (shl_align_spec m e t) as [Hm He].
  destruct (shl_align m e t) as [mz ez]. cbn [fst snd] in Hm, He.
  assert (Hd : Zdigits2 (Z.pos mz) + ez = Zdigits2 (Z.pos m) + e).
  { rewrite Hm, Zdigits2_mul_pow2 by lia. lia. }
  split.
  - apply fin_of_round; try lia. rewrite Hd. fold t. lia.
  - apply round_sign. lia.
Qed.

Lemma Zdigits2_add (a b : Z) :
  0 < a → 0 < b → Zdigits2 (a + b) <= Z.max (Zdigits2 a) (Zdigits2 b) + 1.
Proof.
  intros Ha Hb.
  pose proof (Zdigits2_bounds a Ha) as [_ Ha2].
  pose proof (Zdigits2_bounds b Hb) as [_ Hb2].
  pose proof (Zdigits2_pos a Ha). pose proof (Zdigits2_pos b Hb).
  apply Zdigits2_le_pow; [lia|]. split; [lia|].
  assert (2 ^ Zdigits2 a <= 2 ^ Z.max (Zdigits2 a) (Zdigits2 b))
    by (apply Z.pow_le_mono_r; lia).
  assert (2 ^ Zdigits2 b <= 2 ^ Z.max (Zdigits2 a) (Zdigits2 b))
    by (apply Z.pow_le_mono_r; lia).
  rewrite Z.pow_add_r by lia. lia.
Qed.

Lemma fin_weaken (k k' : Z) (x : number) : k <= k' → fin k x → fin k' x.
Proof.
  intros Hk [Hv Hb]. split; [exact Hv|]. destruct x; try exact Hb. cbn [below] in *. lia.
Qed.

(** The sum of two values that are zero or positive and finite. *)
Lemma add_fin (kx ky : Z) (x y : number) :
  fin kx x → fin ky y → nonneg x → nonneg y →
  -1075 <= Z.max kx ky → Z.max kx ky + 1 < 1024 →
  fin (Z.max kx ky + 2) (add x y) ∧ nonneg (add x y).
Proof.
  intros Hx Hy Hnx Hny Hlo Hhi.
  destruct x as [sx|sx| |[] mx ex]; try contradiction;
    destruct y as [sy|sy| |[] my ey]; try contradiction.
  - split; [|destruct sx, sy; exact I].
    destruct sx, sy; split; try reflexivity; exact I.
  - split; [|exact I]. eapply fin_weaken; [|exact Hy]. lia.
  - split; [|exact I]. eapply fin_weaken; [|exact Hx]. lia.
  - destruct Hx as [Hvx Hbx], Hy as [Hvy Hby]. cbn [below] in Hbx, Hby.
    unfold add, SFadd. cbn [cond_Zopp].
    destruct (shl_align_spec mx ex (Z.min ex ey)) as [Hmx _].
    destruct (shl_align_spec my ey (Z.min ex ey)) as [Hmy _].
    set (a := fst (shl_align mx ex (Z.min ex ey))) in *.
    set (b := fst (shl_align my ey (Z.min ex ey))) in *.
    change (Z.pos a + Z.pos b) with (Z.pos (a + b)). cbn [binary_normalize].
    assert (Hda : Zdigits2 (Z.pos a) + Z.min ex ey = Zdigits2 (Z.pos mx) + ex).
    { rewrite Hmx, Zdigits2_mul_pow2 by lia. lia. }
    assert (Hdb : Zdigits2 (Z.pos b) + Z.min ex ey = Zdigits2 (Z.pos my) + ey).
    { rewrite Hmy, Zdigits2_mul_pow2 by lia. lia. }
    pose proof (Zdigits2_add (Z.pos a) (Z.pos b) ltac:(lia) ltac:(lia)) as Hsum.
    change (Z.pos a + Z.pos b) with (Z.pos (a + b)) in Hsum.
    change (Zdigits2 (Z.pos mx)) with (Z.pos (digits2_pos mx)) in *.
    change (Zdigits2 (Z.pos my)) with (Z.pos (digits2_pos my)) in *.
    destruct (binary_round_fin false (a + b) (Z.min ex ey) (Z.max kx ky + 1))
      as [Hfin Hsign]; try lia.
    split.
    + replace (Z.max kx ky + 2) with (Z.max kx ky + 1 + 1) by lia. exact Hfin.
    + destruct (binary_round prec emax false (a + b) (Z.min ex ey)) as [s'|s'| |s' m e];
        try exact I.
      * destruct Hfin as [_ []].
      * destruct Hfin as [_ []].
      * subst s'. exact I.
Qed.

Lemma unit_range_fin (random : number) :
  in_unit_range random = true → fin 0 random ∧ nonneg random.
Proof.
  unfold in_unit_range. intros [[Hv Hge]%andb_true_iff Hlt]%andb_true_iff.
  destruct random as [s|s| |s m e].
  - split; [split; [exact Hv|exact I]|exact I].
  - destruct s; discriminate.
  - discriminate.
  - destruct s; [discriminate|]. split; [|exact I]. split; [exact Hv|].
    cbn [below]. apply valid_finite in Hv as [Hc _].
    unfold lt, SFltb in Hlt.
    change (of_Z 1) with (S754_finite false 4503599627370496 (-52)) in Hlt.
    cbn [SFcompare] in Hlt.
    destruct (Z.compare_spec e (-52)) as [He|He|He]; try discriminate; [|lia].
    rewrite Pos.compare_cont_spec in Hlt. cbn [Pos.switch_Eq] in Hlt.
    destruct (Pos.compare_spec m 4503599627370496) as [Hm|Hm|Hm]; try discriminate.
    assert (Zdigits2 (Z.pos m) <= 52).
    { apply (Zdigits2_le_pow (Z.pos m) 52); [discriminate|].
      split; [apply Pos2Z.is_nonneg|].
      change (2 ^ 52) with (Z.pos 4503599627370496).
      apply Pos2Z.pos_lt_pos. exact Hm. }
    change (Zdigits2 (Z.pos m)) with (Z.pos (digits2_pos m)) in *.
    clear - H He. lia.
Qed.

Lemma below_90 (p : number) :
  valid p = true → nonneg p → ge p (of_Z 90) = false →
  below 7 p ∧ le p (of_Z 90) = true.
Proof.
  intros Hv Hn Hge. destruct p as [s|s| |[] m e]; try contradiction.
  - split; [exact I|reflexivity].
  - apply valid_finite in Hv as [Hc _].
    unfold ge, le, SFleb in *.
    destruct (SFcompare (of_Z 90) (S754_finite false m e)) as [c|] eqn:Ec;
      [|discriminate].
    rewrite (SFcompare_antisym _ _ c Ec).
    destruct c; try discriminate. split; [|reflexivity].
    change (of_Z 90) with (S754_finite false 6333186975989760 (-46)) in Ec.
    cbn [SFcompare] in Ec. cbn [below].
    destruct (Z.compare_spec (-46) e) as [He|He|He]; try discriminate; lia.
Qed.

Lemma nonneg_ge_zero (p : number) : nonneg p → ge p zero = true.
Proof. destruct p as [s|s| |[] m e]; try contradiction; reflexivity. Qed.

Lemma step_steady (s : state) (e : event) :
  drawn e = true → steady s → steady (step s e).
Proof.
  intros Hr (Hv & Hn & Hw & Hp). destruct e as [random|]; cbn [step].
  2:{ unfold clearInterval, steady. cbn [progress width]. tauto. }
  unfold tick. destruct (interval s); cbn [negb]; [|by repeat split].
  cbn [drawn] in Hr. destruct (unit_range_fin random Hr) as [Hfr Hnr].
  assert (Hx : fin 5 (mul random (of_Z 10)) ∧ nonneg (mul random (of_Z 10))).
  { split.
    - change 5 with (0 + 4 + 1). apply mul_fin; try lia; [exact Hfr|].
      split; [reflexivity|]. vm_compute. discriminate.
    - destruct random as [[]|[]| |[] m ex]; try contradiction; try exact I.
      unfold mul, SFmul. change (of_Z 10) with (S754_finite false 5629499534213120 (-49)).
      cbn [xorb].
      pose proof (round_sign false (Z.pos (m * 5629499534213120)) (ex + -49) loc_Exact
                    ltac:(lia)) as Hs.
      destruct (binary_round_aux _ _ _ _ _ _) as [s'|s'| |s' m' e'] eqn:Er;
        try exact I.
      + pose proof (mul_fin 0 4 (S754_finite false m ex) (of_Z 10) Hfr
                      ltac:(split; [reflexivity|vm_compute; discriminate])
                      ltac:(lia) ltac:(lia)) as [_ Hb].
        unfold SFmul in Hb. change (of_Z 10) with (S754_finite false 5629499534213120 (-49)) in Hb.
        cbn [xorb] in Hb. rewrite Er in Hb. exact Hb.
      + pose proof (mul_fin 0 4 (S754_finite false m ex) (of_Z 10) Hfr
                      ltac:(split; [reflexivity|vm_compute; discriminate])
                      ltac:(lia) ltac:(lia)) as [_ Hb].
        unfold SFmul in Hb. change (of_Z 10) with (S754_finite false 5629499534213120 (-49)) in Hb.
        cbn [xorb] in Hb. rewrite Er in Hb. exact Hb.
      + subst s'. exact I. }
  destruct Hx as [Hfx Hnx].
  assert (Hfp : fin 7 (progress s)).
  { split; [exact Hv|]. destruct Hp as [->|Hp]; [vm_compute; discriminate|].
    by apply below_90. }
  destruct (add_fin 7 5 (progress s) (mul random (of_Z 10)) Hfp Hfx Hn Hnx
              ltac:(lia) ltac:(lia)) as [[Hvs _] Hns].
  destruct (ge (add (progress s) (mul random (of_Z 10))) (of_Z 90)) eqn:Hge.
  - split; [reflexivity|]. split; [exact I|]. split; [reflexivity|]. by left.
  - split; [exact Hvs|]. split; [exact Hns|]. split; [reflexivity|]. by right.
Qed.

(** X8.  The simulated progress stays below the end.  While the page
    waits for the analysis, with every value of [Math.random] in its range
    from 0 up to but not including 1, the width written to the progress bar
    is a number from 0 to 90 percent, however often the interval fires and
    whenever it is cleared. *)
Theorem progress_stays_within_90 (es : list event) :
  forallb drawn es = true →
  ∃ w, width (run simulateProgress es) = Some w
       ∧ ge w zero = true
       ∧ le w (of_Z 90) = true.
Proof.
  intros Hes.
  assert (H : steady (run simulateProgress es)).
  { assert (H0 : steady simulateProgress).
    { split; [reflexivity|]. split; [exact I|]. split; [reflexivity|]. by right. }
    revert H0 Hes. generalize simulateProgress.
    induction es as [|e es IH]; intros s0 H0 Hes; [exact H0|].
    cbn [forallb] in Hes. apply andb_true_iff in Hes as [He Hes].
    cbn [run foldl]. apply IH; [|exact Hes]. by apply step_steady. }
  destruct H as (Hv & Hn & Hw & Hp). exists (progress (run simulateProgress es)).
  split; [exact Hw|]. split; [by apply nonneg_ge_zero|].
  destruct Hp as [->|Hp]; [reflexivity|]. by apply below_90.
Qed.

End Progress.

Lemma progress_stays_within_90_witness :
  ∃ w, VideoProgress.width
         (VideoProgress.run VideoProgress.simulateProgress
            [VideoProgress.Fired (decimal 5 1); VideoProgress.Fired (decimal 99 2);
             VideoProgress.Cleared; VideoProgress.Fired (decimal 5 1)])
       = Some w
       ∧ ge w zero = true
       ∧ le w (of_Z 90) = true.
Proof.
  apply (progress_stays_within_90
           [VideoProgress.Fired (decimal 5 1); VideoProgress.Fired (decimal 99 2);
            VideoProgress.Cleared; VideoProgress.Fired (decimal 5 1)]).
  vm_compute. reflexivity.
Defined.

(** ** The multi-wall upload: the limit of four and the readers *)

Section Readers.

Import WallReaders.

Lemma select_one_while_empty (f : File) (n : nat) (s : state) :
  selectedWalls s = [] → is_image f = true →
  page (run s (replicate n (MultiWallSelect [f]))) = page s
  ∧ reading (run s (replicate n (MultiWallSelect [f]))) = reading s ++ replicate n f.
Proof.
  intros Hs Hf. revert s Hs. induction n as [|n IH]; intros s Hs; simpl.
  - by rewrite app_nil_r.
  - assert (Hstep : handleMultiWallSelect [f] s
                    = {| page := page s; reading := reading s ++ [f] |}).
    { unfold handleMultiWallSelect, accepted, WallsPage.handleMultiWallSelect.
      unfold selectedWalls, WallsPage.selectedWalls in *. rewrite Hs.
      rewrite filter_cons_True by exact Hf. reflexivity. }
    rewrite Hstep. destruct (IH {| page := page s; reading := reading s ++ [f] |} Hs)
      as [Hp Hr].
    split; [exact Hp|]. rewrite Hr. simpl. by rewrite <- app_assoc.
Qed.

Lemma load_first (dataUrl : string) (n : nat) (s : state) :
  n ≤ length (reading s) →
  length (selectedWalls (run s (replicate n (Loaded 0 dataUrl))))
  = length (selectedWalls s) + n
  ∧ toasts (page (run s (replicate n (Loaded 0 dataUrl)))) = toasts (page s).
Proof.
  revert s. induction n as [|n IH]; intros s Hn; simpl.
  - split; [lia|reflexivity].
  - unfold loaded. destruct (reading s) as [|f rest] eqn:E; [simpl in Hn; lia|].
    simpl lookup. cbv iota.
    match goal with |- context [run ?t _] => set (s1 := t) end.
    destruct (IH s1) as [Hl Ht]; [unfold s1; simpl in *; lia|].
    rewrite Hl, Ht. unfold s1, selectedWalls, WallsPage.selectedWalls. simpl.
    rewrite length_app. simpl. unfold WallsPage.selectedWalls.
    split; [lia|reflexivity].
Qed.

(** X9.  The limit of four walls is checked against the walls that have
    finished loading.  Files picked while earlier files are still being read
    pass the check, so for every number [n] there is a run of the page,
    without any error shown, after which [n] walls are selected. *)
Theorem walls_limit_ignores_pending_readers (n : nat) :
  ∃ es, length (selectedWalls (run initial es)) = n
        ∧ toasts (page (run initial es)) = [].
Proof.
  exists (replicate n (MultiWallSelect [png]) ++ replicate n (Loaded 0 "")).
  unfold run. rewrite foldl_app. fold (run initial (replicate n (MultiWallSelect [png]))).
  destruct (select_one_while_empty png n initial eq_refl eq_refl) as [Hp Hr].
  set (s := run initial (replicate n (MultiWallSelect [png]))) in *.
  destruct (load_first "" n s) as [Hl Ht].
  { rewrite Hr. simpl. by rewrite length_replicate. }
  unfold run in Hl, Ht. rewrite Hl, Ht. unfold selectedWalls. rewrite Hp.
  split; reflexivity.
Qed.

Lemma step_within_limit (s : state) (e : event) :
  match e, reading s with MultiWallSelect _, _ :: _ => False | _, _ => True end →
  within_limit s → within_limit (step s e).
Proof.
  unfold within_limit, selectedWalls, WallsPage.selectedWalls.
  intros Hcalm Hs. destruct e as [files|i dataUrl|index|mode]; cbn [step].
  - destruct (reading s) as [|f rest] eqn:E; [|contradiction].
    unfold handleMultiWallSelect, accepted, WallsPage.handleMultiWallSelect.
    unfold selectedWalls, WallsPage.selectedWalls. rewrite E. simpl in *.
    destruct (Nat.ltb_spec 4 (length files + length (selection (page s)))) as [H4|H4];
      simpl; [lia|].
    destruct (Nat.ltb_spec (length files) 1) as [H1|H1]; simpl; [lia|].
    pose proof (length_filter (λ f, is_image f = true) files). lia.
  - unfold loaded. destruct (reading s !! i) as [f|] eqn:E; [|exact Hs].
    simpl. rewrite length_app. simpl.
    rewrite length_delete by (by rewrite E). 
    apply lookup_lt_Some in E. unfold WallsPage.selectedWalls. lia.
  - simpl. unfold WallsPage.renumber, WallsPage.selectedWalls. rewrite length_imap.
    pose proof (length_delete_le index (selection (page s))). lia.
  - simpl. unfold WallsPage.handleModeToggle, WallsPage.selectedWalls.
    destruct (_ || _); simpl; lia.
Qed.

Lemma run_within_limit (es : list event) (s : state) :
  calm s es = true → within_limit s → within_limit (run s es).
Proof.
  revert s. induction es as [|e es IH]; intros s Hcalm Hs; simpl; [exact Hs|].
  simpl in Hcalm. apply IH.
  - destruct e; try exact Hcalm. destruct (reading s); [exact Hcalm|discriminate].
  - apply step_within_limit; [|exact Hs].
    destruct e; try exact I. destruct (reading s); [exact I|discriminate].
Qed.

(** X10.  When files are picked only while no reader is still reading, the
    limit holds: after such a run the walls selected and the files still
    being read are at most four together. *)
Theorem walls_limit_holds_between_readings (es : list event) :
  calm initial es = true →
  length (selectedWalls (run initial es)) + length (reading (run initial es)) ≤ 4.
Proof.
  intros Hcalm. apply (run_within_limit es initial Hcalm).
  unfold within_limit. simpl. lia.
Qed.

End Readers.

Lemma walls_limit_holds_between_readings_witness :
  length (WallReaders.selectedWalls
            (WallReaders.run WallReaders.initial
               [WallReaders.MultiWallSelect [png; png; png];
                WallReaders.Loaded 2 ""; WallReaders.Loaded 0 ""; WallReaders.Loaded 0 "";
                WallReaders.MultiWallSelect [png; png]]))
  + length (WallReaders.reading
              (WallReaders.run WallReaders.initial
                 [WallReaders.MultiWallSelect [png; png; png];
                  WallReaders.Loaded 2 ""; WallReaders.Loaded 0 ""; WallReaders.Loaded 0 "";
                  WallReaders.MultiWallSelect [png; png]])) ≤ 4.
Proof.
  apply (walls_limit_holds_between_readings
           [WallReaders.MultiWallSelect [png; png; png];
            WallReaders.Loaded 2 ""; WallReaders.Loaded 0 ""; WallReaders.Loaded 0 "";
            WallReaders.MultiWallSelect [png; png]]).
  reflexivity.
Defined.

(** ** The manual form: the body its results need *)

Lemma get_cases (v : value) (k : string) :
  get v k = if nullish v then TypeError else Ok (get_opt v k).
Proof. unfold get_opt. destruct v; reflexivity. Qed.

Lemma get_opt_nullish (v : value) (k : string) :
  nullish v = true → get_opt v k = VUndefined.
Proof. destruct v; try discriminate; reflexivity. Qed.

Lemma present_parent (v : value) (k : string) :
  present (get_opt v k) = true → nullish v = false.
Proof.
  unfold present. destruct (nullish v) eqn:E; [|reflexivity].
  rewrite (get_opt_nullish v k E). discriminate.
Qed.

Lemma falsy_convertible (v : value) : truthy v = false → convertible v = true.
Proof. destruct v; try discriminate; reflexivity. Qed.

Lemma convertible_or (v default : value) :
  convertible default = true →
  convertible (or v default) = convertible v.
Proof.
  intros Hd. unfold or. destruct (truthy v) eqn:E; [reflexivity|].
  by rewrite Hd, (falsy_convertible v E).
Qed.

Lemma decides_iff {A} (shape : bool) (step : outcome A) :
  decides shape step →
  ((∃ x, step = Ok x) ↔ shape = true) ∧ (step = TypeError ↔ shape = false).
Proof.
  unfold decides. destruct shape.
  - intros (x & ->). split; split; try done. intros _. by exists x.
  - intros ->. split; split; try done. by intros (x & [=]).
Qed.

Lemma decides_ret {A} (x : A) : decides true (mret x : outcome A).
Proof. by exists x. Qed.

Lemma decides_bind {A B} (b c : bool) (m : outcome A) (f : A → outcome B) :
  decides b m → (∀ x, decides c (f x)) → decides (b && c) (x ← m; f x).
Proof.
  unfold decides. destruct b; cbn [andb].
  - intros (x & ->) Hf. exact (Hf x).
  - intros -> _. reflexivity.
Qed.

Lemma decides_last {A B} (b : bool) (m : outcome A) (g : A → B) :
  decides b m → decides b (x ← m; mret (g x)).
Proof.
  unfold decides. destruct b.
  - intros (x & ->). by exists (g x).
  - intros ->. reflexivity.
Qed.

Lemma bind_Ok {A B} (m : outcome A) (f : A → outcome B) (y : B) :
  (x ← m; f x) = Ok y → ∃ x, m = Ok x ∧ f x = Ok y.
Proof. destruct m as [x|]; [|discriminate]. intros H. by exists x. Qed.

Lemma decides_ext {A} (b c : bool) (m : outcome A) : b = c → decides b m → decides c m.
Proof. by intros ->. Qed.

Section ManualBody.

Import ManualResults.

Ltac run_binds := cbn [mbind outcome_bind mret outcome_ret].

Lemma read_cases (v : value) (path : list string) :
  read v path = if readable v path then Ok (at_path v path) else TypeError.
Proof.
  revert v. induction path as [|k path IH]; intros v; [reflexivity|].
  cbn [read readable at_path]. rewrite get_cases. unfold present.
  destruct (nullish v); [reflexivity|]. apply IH.
Qed.

Lemma number_at_decides (data : value) (path : list string) :
  decides (can_format data path) (number_at data path).
Proof.
  unfold decides, can_format, number_at, formatNumber. rewrite read_cases.
  destruct (readable data path); [|reflexivity]. cbn.
  destruct (localizable _); [by eexists|reflexivity].
Qed.

Lemma currency_at_decides (data : value) (path : list string) :
  decides (can_format data path) (currency_at data path).
Proof.
  unfold decides, can_format, currency_at, formatCurrency. rewrite read_cases.
  destruct (readable data path); [|reflexivity]. cbn.
  destruct (localizable _); [by eexists|reflexivity].
Qed.

Lemma raw_at_decides (data : value) (path : list string) :
  decides (can_show data path) (raw_at data path).
Proof.
  unfold decides, can_show, raw_at, raw, converted. rewrite read_cases.
  destruct (readable data path); [|reflexivity]. cbn.
  destruct (convertible _); [by eexists|reflexivity].
Qed.

Lemma capitalized_at_decides (data : value) (path : list string) :
  decides (has_text data path) (capitalized_at data path).
Proof.
  unfold decides, has_text, capitalized_at. rewrite read_cases.
  destruct (readable data path); [|reflexivity]. cbn.
  destruct (at_path data path); try reflexivity. by eexists.
Qed.

Lemma when_at_decides {A} (data : value) (path : list string) (shape : bool)
  (part : outcome A) :
  decides shape part → decides (optional data path shape) (when_at data path part).
Proof.
  unfold decides, optional, when_at. rewrite read_cases.
  destruct (readable data path); [|reflexivity]. cbn.
  destruct (truthy _); [|by eexists].
  destruct shape; [intros (x & ->); by eexists|by intros ->].
Qed.

Lemma product_at_decides (data : value) (path : list string) :
  decides (product_shape data path) (product_at data path).
Proof.
  unfold product_shape, product_at.
  apply decides_bind; [apply raw_at_decides|intros name].
  apply decides_bind; [apply number_at_decides|intros quantity].
  apply decides_bind; [apply raw_at_decides|intros unit].
  apply decides_last. apply currency_at_decides.
Qed.

Lemma product_card_decides (data : value) :
  decides (card_shape data) (product_card data).
Proof.
  unfold card_shape, product_card.
  apply decides_bind; [apply when_at_decides, product_at_decides|intros primer].
  apply decides_bind; [apply when_at_decides, product_at_decides|intros putty].
  apply decides_bind; [apply raw_at_decides|intros name].
  apply decides_bind; [apply capitalized_at_decides|intros label].
  apply decides_bind; [apply number_at_decides|intros quantity].
  apply decides_bind; [apply raw_at_decides|intros unit].
  apply decides_last. apply currency_at_decides.
Qed.

Lemma summary_cards_decides (data : value) :
  decides (summary_shape data) (summary_cards data).
Proof.
  unfold summary_shape, summary_cards.
  apply decides_bind; [apply number_at_decides|intros paintable].
  apply decides_bind; [apply number_at_decides|intros required].
  apply decides_last. apply raw_at_decides.
Qed.

(** The results of the manual form in terms of the shape of the body. *)
Lemma displayManualResults_cases (data : value) :
  decides (manual_result_shape data) (displayManualResults true true data).
Proof.
  unfold displayManualResults. cbn [negb orb].
  apply (decides_ext
           (summary_shape data
            && (can_format data ["area_calculation"; "total_wall_area"]
                && (can_format data ["area_calculation"; "door_area"]
                    && (can_format data ["area_calculation"; "window_area"]
                        && (optional data ["area_calculation"; "ceiling_area"]
                              (can_format data ["area_calculation"; "ceiling_area"])
                            && (can_format data ["area_calculation"; "paintable_area"]
                                && (card_shape data
                                    && (can_format data ["cost_breakdown"; "total_cost"]
                                        && can_show data ["summary";
                                                           "estimated_cost_range"]))))))))).
  { unfold manual_result_shape, summary_shape.
    destruct (can_format data ["area_calculation"; "paintable_area"]);
      [|reflexivity].
    cbn [andb]. reflexivity. }
  apply decides_bind; [apply summary_cards_decides|intros cards].
  apply decides_bind; [apply number_at_decides|intros walls].
  apply decides_bind; [apply number_at_decides|intros doors].
  apply decides_bind; [apply number_at_decides|intros windows].
  apply decides_bind; [apply when_at_decides, number_at_decides|intros ceiling].
  apply decides_bind; [apply number_at_decides|intros again].
  apply decides_bind; [apply product_card_decides|intros products].
  apply decides_bind; [apply currency_at_decides|intros total].
  apply decides_last. apply raw_at_decides.
Qed.

(** X11.  What the results of the manual form need from a body.  With both
    results elements on the page, [displayManualResults] writes its results
    exactly when the body has the four areas, the quantity and the cost of
    the paint and the total cost as values that can be formatted, the same
    for the primer and for the putty when these are listed, a paint type
    that is a string, and names, units, a number of coats and a cost range
    that can be shown; on every other body it raises before anything is
    written.  A value can be formatted when it is not [null] and holds no
    object that has a [toString] or a [toLocaleString] of its own; it can
    be shown when it holds no object that has a [toString] of its own. *)
Theorem displayManualResults_needs (data : value) :
  ((∃ v, displayManualResults true true data = Ok (Some v))
   ↔ manual_result_shape data = true)
  ∧ (displayManualResults true true data = TypeError
     ↔ manual_result_shape data = false).
Proof.
  pose proof (displayManualResults_cases data) as H. unfold decides in H.
  destruct (manual_result_shape data).
  - destruct H as ([v|] & Hv).
    + split; [split; [done|by exists v]|]. rewrite Hv. done.
    + exfalso. revert Hv. unfold displayManualResults. cbn [negb orb]. intros H.
      do 9 (apply bind_Ok in H as (? & _ & H)). discriminate.
  - split; [|done]. rewrite H. split; [by intros (v & [=])|done].
Qed.

End ManualBody.

(** ** The manual form: how a submission ends *)

Section ManualHandler.

Variables parseFloat parseInt : string → number.
Variable NumberToString : number → string.

Import ManualFlow.

#[local] Abbreviation handleManualEstimation :=
  (ManualFlow.handleManualEstimation parseFloat parseInt).
#[local] Abbreviation getManualFormData :=
  (ManualFlow.getManualFormData parseFloat parseInt).
#[local] Abbreviation settle := (ManualFlow.settle NumberToString true true).

(** X12.  How a submission of the manual form ends.  A form that the
    validator rejects makes no request and shows the validator's message as
    one error toast.  Once a request has settled the overlay is hidden,
    whatever came back.  And since the success toast is shown before the
    results are built, a response that is fine as to HTTP but whose [data]
    cannot be displayed shows the success toast and then an error toast,
    and writes no result. *)
Theorem manual_submission_ends (i : inputs) (r : App.reply)
  (response data : value) (s : state) :
  (fst (ManualPage.validateManualForm (fst (getManualFormData i))) = false →
   App.requests (handleManualEstimation i s) = App.requests s
   ∧ App.loading (handleManualEstimation i s) = false
   ∧ ∃ message,
       snd (ManualPage.validateManualForm (fst (getManualFormData i))) = Some message
       ∧ App.toasts (handleManualEstimation i s)
         = App.toasts s ++ [{| App.shown_text := App.Literal message;
                               App.kind := "error" |}])
  ∧ App.loading (settle r s) = false
  ∧ (get response "data" = Ok data →
     manual_result_shape data = false →
     App.toasts (settle (App.Replied true (Some response)) s)
     = App.toasts s
       ++ [{| App.shown_text := App.Literal "Calculation complete! 🎉";
              App.kind := "success" |};
           {| App.shown_text := App.EngineMessage App.TypeFault;
              App.kind := "error" |}]
     ∧ App.written (settle (App.Replied true (Some response)) s) = App.written s).
Proof.
  split; [|split].
  - unfold ManualFlow.handleManualEstimation.
    destruct (getManualFormData i) as [formData sent] eqn:E. cbn [fst].
    unfold ManualPage.validateManualForm.
    destruct (_ || _); cbn [fst snd].
    + intros _. split; [reflexivity|]. split; [reflexivity|].
      eexists. split; reflexivity.
    + destruct (_ || _); cbn [fst snd]; [|discriminate].
      intros _. split; [reflexivity|]. split; [reflexivity|].
      eexists. split; reflexivity.
  - unfold ManualFlow.settle.
    destruct (App.apiCall NumberToString r) as [resp|e]; [|reflexivity].
    destruct (get resp "data") as [d|]; [|reflexivity].
    destruct (ManualResults.displayManualResults true true d) as [[v|]|]; reflexivity.
  - intros Hdata Hshape. unfold ManualFlow.settle. cbn [App.apiCall]. rewrite Hdata.
    pose proof (displayManualResults_cases data) as H. unfold decides in H.
    rewrite Hshape in H.
    rewrite H. simpl. rewrite <- app_assoc. split; reflexivity.
Qed.

End ManualHandler.

Lemma manual_submission_ends_witness :
  App.toasts
    (ManualFlow.settle (λ _, "0") true true
       (App.Replied true (Some (VObj [("success", VBool true); ("data", VObj [])])))
       ManualFlow.initial)
  = [{| App.shown_text := App.Literal "Calculation complete! 🎉";
        App.kind := "success" |};
     {| App.shown_text := App.EngineMessage App.TypeFault; App.kind := "error" |}].
Proof.
  apply (manual_submission_ends unread unread (λ _, "0")
           {| ManualFlow.length := "12"; ManualFlow.width := "10";
              ManualFlow.height := "10"; ManualFlow.num_doors := "1";
              ManualFlow.num_windows := "2"; ManualFlow.paint_type := "interior";
              ManualFlow.num_coats := "2"; ManualFlow.include_ceiling := false;
              ManualFlow.door_height := None; ManualFlow.door_width := None;
              ManualFlow.window_height := None; ManualFlow.window_width := None |}
           App.Unreachable
           (VObj [("success", VBool true); ("data", VObj [])]) (VObj [])
           ManualFlow.initial);
    reflexivity.
Defined.

(** ** The new manual page: the product card *)

Section ProductCard.

Import ManualNew.

Ltac run_binds := cbn [mbind outcome_bind mret outcome_ret].

Lemma product_item_cases (name unit : string) (item : value) :
  product_item name unit item
  = if listed_item item then Ok (row_of name unit item) else TypeError.
Proof.
  unfold product_item, listed_item, present, fixed_or, row_of, converted.
  rewrite !(get_cases item). destruct (nullish item); [reflexivity|]. run_binds.
  rewrite !convertible_or by reflexivity. cbn [negb andb].
  destruct (convertible (get_opt item "product_name")); [|reflexivity].
  run_binds. cbn [andb].
  destruct (get_opt item "quantity"); cbn [nullish quantity_or_missing toFixed andb];
    try reflexivity;
    run_binds; (destruct (convertible (get_opt item "unit")); reflexivity).
Qed.

Lemma each_item_cases (name unit : string) (items : list value) :
  each_item name unit items
  = if forallb listed_item items then Ok (row_of name unit <$> items) else TypeError.
Proof.
  induction items as [|item items IH]; [reflexivity|].
  cbn [each_item forallb]. rewrite product_item_cases, IH.
  destruct (listed_item item); [|reflexivity]. run_binds.
  destruct (forallb listed_item items); reflexivity.
Qed.

Lemma product_items_cases (name unit : string) (product : value) :
  product_items name unit product
  = if listed product then Ok (rows_of name unit product) else TypeError.
Proof.
  unfold product_items, listed, rows_of.
  destruct product as [| |b|n|s|xs|fs]; try reflexivity.
  - destruct b; reflexivity.
  - destruct (truthy (VNum n)); reflexivity.
  - destruct (truthy (VStr s)) eqn:E; [|reflexivity]. cbn [negb andb].
    rewrite get_cases. cbn [nullish]. run_binds.
    destruct (truthy (get_opt (VStr s) "product_name")) eqn:En; [|reflexivity].
    rewrite product_item_cases. destruct (listed_item _); reflexivity.
  - cbn [truthy negb]. apply each_item_cases.
  - cbn [truthy negb andb]. rewrite get_cases. cbn [nullish]. run_binds.
    destruct (truthy (get_opt (VObj fs) "product_name")) eqn:En; [|reflexivity].
    rewrite product_item_cases. destruct (listed_item _); reflexivity.
Qed.

Lemma generateProductBreakdown_cases (pb : value) :
  generateProductBreakdown pb
  = if negb (truthy pb) then Ok NoProducts
    else if listed (get_opt pb "primer") && listed (get_opt pb "paints")
            && listed (get_opt pb "putty")
    then
      let rows := rows_of "Primer" "L" (get_opt pb "primer")
                  ++ rows_of "Paint" "L" (get_opt pb "paints")
                  ++ rows_of "Putty" "kg" (get_opt pb "putty") in
      Ok (if 0 <? length rows then Products rows else NoProducts)
    else TypeError.
Proof.
  unfold generateProductBreakdown. destruct (truthy pb) eqn:E; [|reflexivity].
  cbn [negb]. rewrite !(get_cases pb), (truthy_not_nullish pb E). run_binds.
  rewrite !product_items_cases.
  destruct (listed (get_opt pb "primer")); [|reflexivity]. run_binds.
  destruct (listed (get_opt pb "paints")); [|reflexivity]. run_binds.
  destruct (listed (get_opt pb "putty")); reflexivity.
Qed.

Lemma falsy_listed (product : value) (name unit : string) :
  truthy product = false → listed product = true ∧ rows_of name unit product = [].
Proof.
  intros H. destruct product; try discriminate; unfold listed, rows_of;
    rewrite ?H; split; reflexivity.
Qed.

(** X13.  The product card reads the three lists [primer], [paints] and
    [putty] and nothing else: a breakdown in which these three are missing
    or falsy is shown as "No products", whatever else it holds, and so is a
    breakdown that is itself missing. *)
Theorem breakdown_reads_three_lists (productBreakdown : value) :
  truthy (get_opt productBreakdown "primer") = false →
  truthy (get_opt productBreakdown "paints") = false →
  truthy (get_opt productBreakdown "putty") = false →
  generateProductBreakdown productBreakdown = Ok NoProducts.
Proof.
  intros H1 H2 H3. rewrite generateProductBreakdown_cases.
  destruct (falsy_listed _ "Primer" "L" H1) as [-> ->].
  destruct (falsy_listed _ "Paint" "L" H2) as [-> ->].
  destruct (falsy_listed _ "Putty" "kg" H3) as [-> ->].
  destruct (truthy productBreakdown); reflexivity.
Qed.

(** X14.  The lines of the product card.  For a breakdown that is there,
    the card is built exactly when every entry of the three lists is an
    object or another value that is not [null], with a quantity that is a
    Number or missing and with a name and a unit that can be shown (they
    hold no object with a [toString] of its own).  It then lists the
    primers, the paints and the putty in this order, one line for each
    entry, with the name of the entry or the name of its list, its quantity
    to two decimals or "0", and its unit or the unit of its list (litres,
    and kilograms for putty); with no line at all it says "No products".
    A breakdown with any other entry raises. *)
Theorem breakdown_lines (productBreakdown : value) :
  truthy productBreakdown = true →
  let primer := get_opt productBreakdown "primer" in
  let paints := get_opt productBreakdown "paints" in
  let putty := get_opt productBreakdown "putty" in
  let rows := rows_of "Primer" "L" primer ++ rows_of "Paint" "L" paints
              ++ rows_of "Putty" "kg" putty in
  (listed primer && listed paints && listed putty = true →
   generateProductBreakdown productBreakdown
   = Ok (match rows with [] => NoProducts | _ => Products rows end))
  ∧ (listed primer && listed paints && listed putty = false →
     generateProductBreakdown productBreakdown = TypeError).
Proof.
  intros Hpb primer paints putty rows. rewrite generateProductBreakdown_cases, Hpb.
  cbn [negb]. fold primer paints putty. split; intros ->.
  - cbv zeta. fold rows. destruct rows; reflexivity.
  - reflexivity.
Qed.

End ProductCard.

Lemma breakdown_reads_three_lists_witness :
  ManualNew.generateProductBreakdown
    (VObj [("paint", VObj [("product_name", VStr "Premium Emulsion");
                           ("quantity", VNum (of_Z 4))])])
  = Ok ManualNew.NoProducts.
Proof.
  apply (breakdown_reads_three_lists
           (VObj [("paint", VObj [("product_name", VStr "Premium Emulsion");
                                  ("quantity", VNum (of_Z 4))])]));
    reflexivity.
Defined.

Lemma breakdown_lines_witness :
  ManualNew.generateProductBreakdown
    (VObj [("primer", VObj [("product_name", VStr "Interior Primer");
                            ("quantity", VNum (of_Z 2))]);
           ("paints", VArr [VObj [("quantity", VNum (of_Z 4)); ("unit", VStr "l")];
                            VObj [("product_name", VStr "Distemper")]])])
  = Ok (ManualNew.Products
          [{| ManualNew.row_label := VStr "Interior Primer";
              ManualNew.row_quantity := Fixed 2 (of_Z 2);
              ManualNew.row_unit := VStr "L" |};
           {| ManualNew.row_label := VStr "Paint";
              ManualNew.row_quantity := Fixed 2 (of_Z 4);
              ManualNew.row_unit := VStr "l" |};
           {| ManualNew.row_label := VStr "Distemper";
              ManualNew.row_quantity := Text "0";
              ManualNew.row_unit := VStr "L" |}]).
Proof.
  apply (breakdown_lines
           (VObj [("primer", VObj [("product_name", VStr "Interior Primer");
                                   ("quantity", VNum (of_Z 2))]);
                  ("paints", VArr [VObj [("quantity", VNum (of_Z 4)); ("unit", VStr "l")];
                                   VObj [("product_name", VStr "Distemper")]])]));
    reflexivity.
Defined.

Section ManualNewResults.

Import ManualNew.

Ltac run_binds := cbn [mbind outcome_bind mret outcome_ret].

Lemma fixed_or_cases (q : value) (d : nat) (placeholder : string) :
  fixed_or q d placeholder
  = if quantity_or_missing q
    then Ok (match q with VNum n => Fixed d n | _ => Text placeholder end)
    else TypeError.
Proof. destruct q; reflexivity. Qed.

Lemma generateProductBreakdown_shape (pb : value) :
  if breakdown_shape pb
  then ∃ b, generateProductBreakdown pb = Ok b
  else generateProductBreakdown pb = TypeError.
Proof.
  rewrite generateProductBreakdown_cases. unfold breakdown_shape.
  destruct (truthy pb); cbn [negb orb]; [|by eexists].
  destruct (_ && _); [by eexists|reflexivity].
Qed.

(** X15.  What the new manual page needs from a body.  With a results
    container on the page, [displayResults] writes its results exactly when
    the body is not [null], the two figures of the summary are Numbers or
    missing, the number of coats can be shown, the product breakdown is
    missing or can be listed, and the total cost is a Number or falsy; on
    every other body it raises. *)
Theorem manual_new_results_need (data : value) :
  ((∃ v, displayResults true data = Ok (Some v)) ↔ manual_new_shape data = true)
  ∧ (displayResults true data = TypeError ↔ manual_new_shape data = false).
Proof.
  assert (H : if manual_new_shape data
              then ∃ v, displayResults true data = Ok (Some v)
              else displayResults true data = TypeError).
  { unfold displayResults, manual_new_shape, present. cbn [negb].
    rewrite !(get_cases data). destruct (nullish data) eqn:Ed; [reflexivity|].
    run_binds. cbn [negb andb].
    rewrite (fixed_or_cases (get_opt (get_opt data "summary") "paintable_area_sqft")).
    destruct (quantity_or_missing (get_opt (get_opt data "summary") "paintable_area_sqft"));
      [|reflexivity].
    run_binds. cbn [andb].
    rewrite (fixed_or_cases (get_opt (get_opt data "summary") "paint_required_liters")).
    destruct (quantity_or_missing (get_opt (get_opt data "summary") "paint_required_liters"));
      [|reflexivity].
    run_binds. cbn [andb].
    unfold converted. rewrite convertible_or by reflexivity.
    destruct (convertible (get_opt data "num_coats")); [|reflexivity].
    run_binds. cbn [andb].
    pose proof (generateProductBreakdown_shape (get_opt data "product_breakdown")) as Hb.
    destruct (breakdown_shape (get_opt data "product_breakdown"));
      [destruct Hb as (b & ->)|rewrite Hb; reflexivity].
    run_binds. cbn [andb].
    set (total := get_opt (get_opt data "cost_breakdown") "total_cost").
    unfold or. destruct (truthy total) eqn:Et; cbn [negb orb].
    - destruct total; try discriminate; try reflexivity; try (by eexists).
    - by eexists. }
  destruct (manual_new_shape data).
  - destruct H as (v & Hv). split.
    + split; [reflexivity|]. intros _. by exists v.
    + rewrite Hv. split; discriminate.
  - split.
    + rewrite H. split; [intros (v & [=])|discriminate].
    + split; [reflexivity|]. intros _. exact H.
Qed.

End ManualNewResults.

(** ** The floor-plan upload *)

Section FloorPlanUpload.

Variable StringToNumber : string → number.
Variables parseFloat parseInt : string → number.
Variable NumberToString : number → string.
Variables resultsContent resultsPanel : bool.

Import FloorPlanUploads.

#[local] Abbreviation settle :=
  (FloorPlanUploads.settle StringToNumber NumberToString resultsContent resultsPanel).
#[local] Abbreviation attempted :=
  (FloorPlanUploads.attempted StringToNumber NumberToString resultsContent resultsPanel).
#[local] Abbreviation step :=
  (FloorPlanUploads.step StringToNumber parseFloat parseInt NumberToString
     resultsContent resultsPanel).
#[local] Abbreviation run :=
  (FloorPlanUploads.run StringToNumber parseFloat parseInt NumberToString
     resultsContent resultsPanel).

Lemma attempted_keeps (r : App.reply) (s : state) :
  selectedFloorplanFile (attempted r s).1 = selectedFloorplanFile s
  ∧ requests (attempted r s).1 = requests s.
Proof.
  unfold FloorPlanUploads.attempted.
  destruct r as [|[] [result|]]; try done.
  - destruct (get result "success") as [success|]; [|done].
    destruct (truthy success); [|done].
    destruct (get result "data" ≫= _) as [e|]; [|done].
    cbv zeta. destruct (ToString _ _); done.
  - destruct (get result "detail" ≫= _); done.
Qed.

Lemma settle_keeps (r : App.reply) (s : state) :
  selectedFloorplanFile (settle r s) = selectedFloorplanFile s
  ∧ requests (settle r s) = requests s.
Proof.
  unfold FloorPlanUploads.settle. pose proof (attempted_keeps r s) as H.
  destruct (attempted r s) as [s' [e|]]; exact H.
Qed.

Lemma selection_floorplans_only (file : option File) (s : state) :
  floorplans_only s → floorplans_only (handleFloorPlanSelection file s).
Proof.
  intros (Hf & Hr). destruct file as [file|]; [|by split].
  unfold handleFloorPlanSelection. destruct (is_image file) eqn:Ei; simpl; [|by split].
  destruct (N.ltb_spec maxSize (file_size file)) as [Es|Es]; [by split|].
  split; [|exact Hr]. intros f [= <-]. by split.
Qed.

Lemma step_floorplans_only (s : state) (e : event) :
  floorplans_only s → floorplans_only (step s e).
Proof.
  intros Hs. pose proof Hs as (Hf & Hr).
  destruct e as [file|files| |c|r]; cbn [FloorPlanUploads.step].
  - by apply selection_floorplans_only.
  - unfold drop. destruct files as [|file files]; [exact Hs|].
    destruct (is_image file); [|exact Hs]. by apply selection_floorplans_only.
  - split; [discriminate|exact Hr].
  - unfold handleFloorPlanSubmit.
    destruct (selectedFloorplanFile s) as [file|] eqn:E.
    + split; [intros f Hf'; simpl in Hf'; apply Hf; congruence|]. simpl. apply Forall_app. split; [exact Hr|].
      constructor; [|constructor]. unfold FloorPlanUploads.form.
      do 5 eexists. split; [reflexivity|]. split; [by apply Hf|].
      destruct (paint_type c) as [t|]; [|discriminate].
      destruct (String.eqb_spec t ""); [discriminate|assumption].
    + split; [intros f Hf'; simpl in Hf'; congruence|exact Hr].
  - destruct (settle_keeps r s) as [H1 H2]. unfold floorplans_only.
    rewrite H1, H2. exact Hs.
Qed.

(** X16.  Whatever is done on the floor-plan form, the selected file, if
    there is one, is an image of at most 10 MiB (10485760 bytes, the bound
    included), and every request that has gone out carries such an image
    first and then the ceiling height, a paint type that is not empty, the
    number of coats and the ceiling flag. *)
Theorem floorplan_requests_carry_an_image (es : list event) :
  let s := run initial es in
  (∀ f, selectedFloorplanFile s = Some f →
        is_image f = true ∧ (file_size f <= 10485760)%N)
  ∧ Forall (λ r, ∃ f height type coats ceiling,
                   r = [("image", FileEntry f);
                        ("ceiling_height", NumberEntry height);
                        ("paint_type", TextEntry type);
                        ("num_coats", NumberEntry coats);
                        ("include_ceiling", BoolEntry ceiling)]
                   ∧ (is_image f = true ∧ (file_size f <= 10485760)%N)
                   ∧ type ≠ "")
           (requests s).
Proof.
  intros s.
  assert (H : floorplans_only s).
  { unfold s. assert (H0 : floorplans_only initial) by (split; [discriminate|constructor]).
    revert H0. generalize initial.
    induction es as [|e es IH]; intros s0 H0; simpl; [exact H0|].
    apply IH. by apply step_floorplans_only. }
  exact H.
Qed.

(** X17.  How a floor-plan request ends.  The overlay is hidden and exactly
    one toast is added, whatever came back.  The toast is a success toast
    only for a response that is fine as to HTTP, parses as JSON and has a
    truthy [success]; in every other case it is an error toast.  With an
    error toast the results and the visibility of the panel are as they
    were, but for one case: a successful response whose [message] cannot be
    turned into text has its results displayed and is then reported as an
    error. *)
Theorem floorplan_results_need_success (r : App.reply) (s : state) :
  loading (settle r s) = false
  ∧ ∃ t, toasts (settle r s) = toasts s ++ [t]
         ∧ ((App.kind t = "success"
             ∧ ∃ result, r = App.Replied true (Some result)
                         ∧ truthy (get_opt result "success") = true)
            ∨ (App.kind t = "error"
               ∧ ((content (settle r s) = content s ∧ panel (settle r s) = panel s)
                  ∨ ∃ result, r = App.Replied true (Some result)
                              ∧ truthy (get_opt result "success") = true
                              ∧ ToString NumberToString
                                  (or (get_opt result "message")
                                      (VStr "Floor plan analyzed successfully!"))
                                = TypeError))).
Proof.
  split; [reflexivity|]. unfold FloorPlanUploads.settle, FloorPlanUploads.attempted.
  destruct r as [|[] [result|]];
    try (eexists; split; [reflexivity|right; split; [reflexivity|by left]]).
  - rewrite get_cases. destruct (nullish result) eqn:En;
      [eexists; split; [reflexivity|right; split; [reflexivity|by left]]|].
    destruct (truthy (get_opt result "success")) eqn:Es;
      [|eexists; split; [reflexivity|right; split; [reflexivity|by left]]].
    destruct (get result "data" ≫= _) as [e|];
      [|eexists; split; [reflexivity|right; split; [reflexivity|by left]]].
    cbv zeta. destruct (ToString _ _) as [message|] eqn:Em.
    + eexists. split; [reflexivity|]. left. split; [reflexivity|]. by exists result.
    + eexists. split; [reflexivity|]. right. split; [reflexivity|]. right.
      by exists result.
  - destruct (get result "detail" ≫= _);
      eexists; (split; [reflexivity|right; split; [reflexivity|by left]]).
Qed.

Lemma warning_for_no_rooms (fields : list (string * value)) :
  truthy (lookup_field "rooms" fields) = false ∨ lookup_field "rooms" fields = VArr [] →
  FloorPlanPage.displayFloorPlanResults StringToNumber true resultsPanel (VObj fields)
  = Ok {| FloorPlanPage.written := Some (FloorPlanPage.Warning FloorPlanPage.no_rooms);
          FloorPlanPage.panel_shown := false |}.
Proof.
  intros Hrooms. unfold FloorPlanPage.displayFloorPlanResults. simpl.
  destruct Hrooms as [Hfalsy|Hempty].
  - replace (or (lookup_field "rooms" fields) (VArr [])) with (VArr [])
      by (unfold or; by rewrite Hfalsy).
    reflexivity.
  - rewrite Hempty. reflexivity.
Qed.

End FloorPlanUpload.

Section FloorPlanReport.

Variable StringToNumber : string → number.
Variables parseFloat parseInt : string → number.
Variable NumberToString : number → string.
Variable resultsPanel : bool.

Import FloorPlanUploads.

Ltac run_binds := cbn [mbind outcome_bind mret outcome_ret].

#[local] Abbreviation settle :=
  (FloorPlanUploads.settle StringToNumber NumberToString true resultsPanel).

(** X18.  A floor plan without rooms still counts as a success.  When the
    response has a truthy [success] and its [data] is an object whose rooms
    are missing or empty, the page writes the warning that no rooms could be
    extracted, leaves the visibility of the panel as it was, and shows the
    success toast with the text of the message of the response or, without
    a message, with "Floor plan analyzed successfully!". *)
Theorem floorplan_success_without_rooms
  (result : value) (fields : list (string * value)) (message : string) (s : state) :
  truthy (get_opt result "success") = true →
  get_opt result "data" = VObj fields →
  truthy (lookup_field "rooms" fields) = false ∨ lookup_field "rooms" fields = VArr [] →
  ToString NumberToString
    (or (get_opt result "message") (VStr "Floor plan analyzed successfully!"))
  = Ok message →
  let s' := settle (App.Replied true (Some result)) s in
  content s' = Some (FloorPlanPage.Warning FloorPlanPage.no_rooms)
  ∧ panel s' = panel s
  ∧ loading s' = false
  ∧ toasts s'
    = toasts s ++ [{| App.shown_text := App.Literal message; App.kind := "success" |}].
Proof.
  intros Hsuccess Hdata Hrooms Hmessage s'. unfold s', FloorPlanUploads.settle,
    FloorPlanUploads.attempted.
  assert (Hn : nullish result = false).
  { destruct result; try reflexivity; discriminate. }
  rewrite !(get_cases result), Hn, Hsuccess, Hdata. run_binds.
  rewrite (warning_for_no_rooms StringToNumber resultsPanel fields Hrooms).
  cbv zeta. rewrite Hmessage.
  simpl. rewrite orb_false_r. repeat split; reflexivity.
Qed.

Lemma number_or_falsy_fixed (v : value) (d : nat) :
  toFixed (or v (VNum zero)) d
  = if number_or_falsy v
    then Ok (Fixed d (match v with VNum n => if JsNum.truthy n then n else zero | _ => zero end))
    else TypeError.
Proof.
  unfold number_or_falsy, or.
  destruct v as [| |[]|n|s|xs|fs]; try reflexivity.
  - cbn [truthy]. destruct (JsNum.truthy n); reflexivity.
  - cbn [truthy]. destruct (negb (String.eqb s "")); reflexivity.
Qed.

Lemma room_row_cases (room : value) :
  if room_shape room
  then ∃ row, FloorPlanPage.room_row room = Ok row
              ∧ FloorPlanPage.row_name row = Plain (get_opt room "name")
  else FloorPlanPage.room_row room = TypeError.
Proof.
  unfold FloorPlanPage.room_row, room_shape, present.
  rewrite !(get_cases room). destruct (nullish room); [reflexivity|].
  run_binds. cbn [negb andb].
  rewrite !plain_cases, !number_or_falsy_fixed, !convertible_or by reflexivity.
  unfold localized.
  destruct (convertible (get_opt (get_opt room "dimensions") "length"));
    cbn [andb]; run_binds; [|reflexivity].
  destruct (convertible (get_opt (get_opt room "dimensions") "width"));
    cbn [andb]; run_binds; [|reflexivity].
  destruct (convertible (get_opt room "name")); cbn [andb]; run_binds; [|reflexivity].
  destruct (number_or_falsy (get_opt (get_opt room "areas") "floor_area"));
    cbn [andb]; run_binds; [|reflexivity].
  destruct (number_or_falsy (get_opt (get_opt room "areas") "paintable_area"));
    cbn [andb]; run_binds; [|reflexivity].
  destruct (convertible (get_opt room "num_doors")); cbn [andb]; run_binds; [|reflexivity].
  destruct (convertible (get_opt room "num_windows"));
    cbn [andb]; run_binds; [|reflexivity].
  destruct (number_or_falsy (get_opt (get_opt room "paint") "liters"));
    cbn [andb]; run_binds; [|reflexivity].
  destruct (localizable _); [|reflexivity].
  eexists. split; reflexivity.
Qed.

Lemma each_room_cases (rooms : list value) :
  if forallb room_shape rooms
  then ∃ rows, FloorPlanPage.each_room rooms = Ok rows
               ∧ Forall2 (λ room row,
                            FloorPlanPage.row_name row = Plain (get_opt room "name"))
                         rooms rows
  else FloorPlanPage.each_room rooms = TypeError.
Proof.
  induction rooms as [|room rooms IH]; [exists []; split; [reflexivity|constructor]|].
  cbn [forallb FloorPlanPage.each_room].
  pose proof (room_row_cases room) as Hroom.
  destruct (room_shape room); [|by rewrite Hroom].
  destruct Hroom as (row & -> & Hname). run_binds. cbn [andb].
  destruct (forallb room_shape rooms); [|by rewrite IH].
  destruct IH as (rows & -> & Hrows). run_binds.
  exists (row :: rows). split; [reflexivity|]. by constructor.
Qed.

Lemma or_assoc (a b c : value) : or (or a b) c = or a (or b c).
Proof. unfold or. destruct (truthy a) eqn:E; [by rewrite E|reflexivity]. Qed.

Lemma positive_length (rooms : list value) :
  rooms ≠ [] →
  is_zero (VNum (of_nat (length rooms))) = false
  ∧ gt_zero StringToNumber (VNum (of_nat (length rooms))) = Ok true.
Proof.
  destruct rooms as [|room rooms]; [done|]. intros _. cbn [length].
  rewrite of_nat_S.
  destruct (of_Z_pos_positive (Pos.of_succ_nat (length rooms))) as [Hgt _].
  rewrite gt_zero_number, Hgt. unfold is_zero. split; [|reflexivity].
  unfold gt, SFltb in Hgt.
  destruct (SFcompare zero (of_Z (Z.pos (Pos.of_succ_nat (length rooms)))))
    as [c|] eqn:E; [|discriminate].
  destruct c; try discriminate.
  apply SFcompare_antisym in E. unfold strict_eq, SFeqb. rewrite E. reflexivity.
Qed.

(** X19.  The floor-plan report has one row for each room.  For a body
    whose rooms are an array that is not empty, the report is written
    exactly when every room is a value other than [null] whose length,
    width, name and counts of doors and windows can be turned into text,
    whose floor area, paintable area and litres of paint are Numbers or
    falsy and whose cost [toLocaleString] can be called on, and when
    around the rooms the number of rooms and the two figures of the
    extraction can be turned into text, the totals of floor area,
    paintable area and cost are values [toLocaleString] can be called on
    and the total of paint is a Number or falsy.  The table then has as many
    rows as there are rooms, in their order, each with the name of its
    room, and the panel is shown if the page has one.  On any other such
    body the function raises and nothing is written. *)
Theorem floorplan_report_rows (fields : list (string * value)) (rooms : list value) :
  lookup_field "rooms" fields = VArr rooms →
  rooms ≠ [] →
  let displayed :=
    FloorPlanPage.displayFloorPlanResults StringToNumber true resultsPanel (VObj fields) in
  (forallb room_shape rooms && report_shape (VObj fields) = true →
   ∃ summary rows totals,
     displayed = Ok {| FloorPlanPage.written :=
                         Some (FloorPlanPage.Report summary (Some rows) totals);
                       FloorPlanPage.panel_shown := resultsPanel |}
     ∧ length rows = length rooms
     ∧ Forall2 (λ room row, FloorPlanPage.row_name row = Plain (get_opt room "name"))
               rooms rows)
  ∧ (forallb room_shape rooms && report_shape (VObj fields) = false →
     displayed = TypeError).
Proof.
  intros Hrooms Hne displayed.
  destruct (positive_length rooms Hne) as [Hzero Hpos].
  pose proof (each_room_cases rooms) as Hrows.
  unfold displayed, FloorPlanPage.displayFloorPlanResults, report_shape.
  cbn [negb get get_opt mbind outcome_bind mret outcome_ret]. rewrite Hrooms.
  replace (or (VArr rooms) (VArr [])) with (VArr rooms) by reflexivity.
  cbn [get String.eqb Ascii.eqb Bool.eqb truthy negb orb andb mbind outcome_bind
       mret outcome_ret].
  rewrite Hzero, Hpos. run_binds. cbn [andb FloorPlanPage.room_table].
  set (metadata := or (lookup_field "ocr_metadata" fields) (VObj [])).
  assert (Hn : nullish metadata = false) by (by apply or_not_nullish).
  rewrite !(get_not_nullish _ _ Hn). run_binds.
  rewrite <- or_assoc.
  rewrite !plain_cases, !number_or_falsy_fixed, !convertible_or by reflexivity.
  unfold localized.
  destruct (forallb room_shape rooms); cbn [andb].
  - destruct Hrows as (rows & -> & Hnames).
    destruct (convertible (lookup_field "total_rooms" fields));
      cbn [andb]; run_binds; [|split; [discriminate|reflexivity]].
    destruct (convertible (get_opt metadata "dimensions_found"));
      cbn [andb]; run_binds; [|split; [discriminate|reflexivity]].
    destruct (convertible (get_opt metadata "text_regions"));
      cbn [andb]; run_binds; [|split; [discriminate|reflexivity]].
    destruct (localizable (or (lookup_field "total_floor_area" fields) (VNum zero)));
      cbn [andb]; run_binds; [|split; [discriminate|reflexivity]].
    destruct (localizable (or (lookup_field "total_paintable_area" fields) (VNum zero)));
      cbn [andb]; run_binds; [|split; [discriminate|reflexivity]].
    destruct (number_or_falsy _);
      cbn [andb]; run_binds; [|split; [discriminate|reflexivity]].
    destruct (localizable _); run_binds; [|split; [discriminate|reflexivity]].
    split; [|discriminate]. intros _. do 3 eexists. split; [reflexivity|].
    split; [symmetry; by eapply Forall2_length|exact Hnames].
  - rewrite Hrows. split; [discriminate|]. intros _.
    destruct (convertible (lookup_field "total_rooms" fields)); run_binds; [|reflexivity].
    destruct (convertible (get_opt metadata "dimensions_found")); run_binds; [|reflexivity].
    destruct (convertible (get_opt metadata "text_regions")); run_binds; reflexivity.
Qed.

End FloorPlanReport.

Lemma floorplan_report_rows_witness :
  ∃ summary rows totals,
    FloorPlanPage.displayFloorPlanResults unread true true
      (VObj [("rooms", VArr [VObj [("name", VStr "Bedroom");
                                   ("areas", VObj [("floor_area", VNum (of_Z 120))])];
                             VObj [("name", VStr "Kitchen")]]);
             ("total_rooms", VNum (of_Z 2))])
    = Ok {| FloorPlanPage.written :=
              Some (FloorPlanPage.Report summary (Some rows) totals);
            FloorPlanPage.panel_shown := true |}
    ∧ length rows = 2
    ∧ Forall2 (λ room row, FloorPlanPage.row_name row = Plain (get_opt room "name"))
              [VObj [("name", VStr "Bedroom");
                     ("areas", VObj [("floor_area", VNum (of_Z 120))])];
               VObj [("name", VStr "Kitchen")]]
              rows.
Proof.
  destruct (floorplan_report_rows unread true
              [("rooms", VArr [VObj [("name", VStr "Bedroom");
                                     ("areas", VObj [("floor_area", VNum (of_Z 120))])];
                               VObj [("name", VStr "Kitchen")]]);
               ("total_rooms", VNum (of_Z 2))]
              [VObj [("name", VStr "Bedroom");
                     ("areas", VObj [("floor_area", VNum (of_Z 120))])];
               VObj [("name", VStr "Kitchen")]]
              eq_refl ltac:(discriminate)) as [Hrows _].
  exact (Hrows eq_refl).
Defined.

Lemma floorplan_success_without_rooms_witness :
  FloorPlanUploads.toasts
    (FloorPlanUploads.settle unread (λ _, "0") true true
       (App.Replied true
          (Some (VObj [("success", VBool true); ("data", VObj [("rooms", VArr [])])])))
       FloorPlanUploads.initial)
  = [{| App.shown_text := App.Literal "Floor plan analyzed successfully!";
        App.kind := "success" |}].
Proof.
  apply (floorplan_success_without_rooms unread (λ _, "0") true
           (VObj [("success", VBool true); ("data", VObj [("rooms", VArr [])])])
           [("rooms", VArr [])] "Floor plan analyzed successfully!"
           FloorPlanUploads.initial).
  - reflexivity.
  - reflexivity.
  - right. reflexivity.
  - reflexivity.
Defined.

(** ** The blueprint page *)

Section Blueprint.

Variable StringToNumber : string → number.
Variable NumberToString : number → string.
Variable container : bool.

Import BlueprintPage.

Ltac run_binds := cbn [mbind outcome_bind mret outcome_ret].

#[local] Abbreviation settle :=
  (BlueprintPage.settle StringToNumber NumberToString container).
#[local] Abbreviation step :=
  (BlueprintPage.step StringToNumber NumberToString container).
#[local] Abbreviation run :=
  (BlueprintPage.run StringToNumber NumberToString container).

Lemma valid_type_elem (f : File) : valid_type f = true → file_type f ∈ validTypes.
Proof.
  unfold valid_type. intros H. apply existsb_exists in H as (t & Hin & Heq).
  apply String.eqb_eq in Heq. subst t. by apply list_elem_of_In.
Qed.

Lemma blueprint_settle_keeps (r : response) (c : controls) (s : state) :
  uploadedFile (settle r c s) = uploadedFile s ∧ posts (settle r c s) = posts s.
Proof.
  unfold BlueprintPage.settle. destruct r as [status| |data]; simpl; try done.
  destruct (get data "data") as [d|]; simpl; [|done].
  destruct (displayResults _ _ _ _); [|done].
  destruct (ToString _ _); done.
Qed.

Lemma step_blueprints_only (s : state) (e : event) :
  blueprints_only s → blueprints_only (step s e).
Proof.
  intros (Hv & Hp). destruct e as [file| |c|r c]; cbn [BlueprintPage.step].
  - unfold displayBlueprint. destruct (valid_type file) eqn:Ev; simpl; [|by split].
    destruct (N.ltb_spec maxSize (file_size file)) as [Es|Es]; simpl; [by split|].
    split; [|exact Hp]. intros f [= <-]. split; [by apply valid_type_elem|exact Es].
  - split; [|exact Hp]. intros f. discriminate.
  - unfold handleFormSubmit. destruct (uploadedFile s) as [file|] eqn:E.
    + split.
      * intros f Hf. apply Hv. unfold uploadedFile in *. simpl in Hf. congruence.
      * simpl. apply Forall_app. split; [exact Hp|]. constructor; [|constructor].
        split; [reflexivity|]. exists file. split; [reflexivity|]. by apply Hv.
    + split; [|exact Hp]. intros f Hf. apply Hv. unfold uploadedFile in *.
      simpl in Hf. congruence.
  - destruct (blueprint_settle_keeps r c s) as [Hu Hq]. unfold blueprints_only.
    rewrite Hu, Hq. by split.
Qed.

(** X20.  Whatever is done on the blueprint page, the selected file, if
    there is one, has one of the four types the page names (JPEG under its
    two names, PNG, PDF) and at most 10 MiB (10485760 bytes, the bound
    included), and every request that has gone out is to the floor-plan
    endpoint and carries exactly one such file. *)
Theorem blueprint_requests_carry_a_plan (es : list event) :
  let s := run initial es in
  (∀ f, uploadedFile s = Some f →
        file_type f ∈ ["image/jpeg"; "image/jpg"; "image/png"; "application/pdf"]
        ∧ (file_size f <= 10485760)%N)
  ∧ Forall (λ r, endpoint r = API_BASE_URL +:+ "/estimate/floorplan"
                 ∧ ∃ f, files_of r = [f]
                        ∧ file_type f ∈ ["image/jpeg"; "image/jpg"; "image/png";
                                         "application/pdf"]
                        ∧ (file_size f <= 10485760)%N)
           (posts s).
Proof.
  intros s.
  assert (H : blueprints_only s).
  { unfold s. assert (H0 : blueprints_only initial) by (split; [discriminate|constructor]).
    revert H0. generalize initial.
    induction es as [|e es IH]; intros s0 H0; simpl; [exact H0|].
    apply IH. by apply step_blueprints_only. }
  exact H.
Qed.

Lemma positive_or_cases (v : value) (d : nat) (placeholder : string) :
  VideoPage.show_positive StringToNumber (or v (VNum zero)) d placeholder
  = if blueprint_figure StringToNumber v
    then Ok (if gt (numeric StringToNumber (or v (VNum zero))) zero
             then match or v (VNum zero) with
                  | VNum n => Fixed d n
                  | _ => Text placeholder
                  end
             else Text placeholder)
    else TypeError.
Proof.
  unfold blueprint_figure, VideoPage.show_positive, fixed_if_positive.
  rewrite gt_zero_cases, convertible_or by reflexivity.
  destruct (convertible v); [|reflexivity]. run_binds. cbn [andb].
  destruct (gt (numeric StringToNumber (or v (VNum zero))) zero); [|reflexivity].
  destruct (or v (VNum zero)); reflexivity.
Qed.

Lemma each_line_cases (index : nat) (rooms : list value) :
  if forallb (blueprint_room_shape StringToNumber) rooms
  then ∃ lines, each_line StringToNumber index rooms = Ok lines
                ∧ line_label <$> lines = imap (λ i, room_label (index + i)) rooms
  else each_line StringToNumber index rooms = TypeError.
Proof.
  revert index. induction rooms as [|room rooms IH]; intros index;
    [exists []; split; reflexivity|].
  cbn [forallb each_line]. unfold room_line_of, blueprint_room_shape at 1, present.
  rewrite !(get_cases room). destruct (nullish room); [reflexivity|].
  run_binds. cbn [negb andb]. unfold converted.
  rewrite convertible_or by reflexivity.
  destruct (convertible (get_opt room "name")); run_binds; [|reflexivity].
  cbn [andb]. rewrite positive_or_cases.
  destruct (blueprint_figure _ _); [|reflexivity]. run_binds. cbn [andb].
  specialize (IH (S index)).
  destruct (forallb _ rooms); [|by rewrite IH].
  destruct IH as (lines & -> & Hlabels). run_binds.
  eexists. split; [reflexivity|]. cbn [fmap list_fmap line_label imap].
  rewrite Nat.add_0_r. f_equal. fold (fmap line_label lines). rewrite Hlabels.
  apply imap_ext. intros i x _. simpl. f_equal. lia.
Qed.

(** X21.  What the blueprint page displays.  With a results container on
    the page the results are written exactly when the body is not [null],
    every entry of a rooms array is not [null] and has a name that can be
    shown and a floor area that can be shown, the three totals can be
    shown, the number of rooms can be shown, and the total cost is a Number
    or missing; on every other body the function raises.  A figure can be
    shown when it is a Number, or holds no object with a [toString] of its
    own and is not greater than zero.  The card of detected rooms is there
    exactly when the rooms are an array; it has one line for each room, in
    their order, labelled with the name of the room or, for a room without
    a name, with "Room" and its position counted from one. *)
Theorem blueprint_results_list_rooms (c : controls) (data : value) :
  (blueprint_shape StringToNumber data = true →
   ∃ v, displayResults StringToNumber true c data = Ok (Some v)
        ∧ match get_opt data "rooms" with
          | VArr rooms =>
              ∃ lines, BlueprintPage.rooms v = Some lines
                       ∧ line_label <$> lines = imap room_label rooms
          | _ => BlueprintPage.rooms v = None
          end)
  ∧ (blueprint_shape StringToNumber data = false →
     displayResults StringToNumber true c data = TypeError).
Proof.
  assert (H : if blueprint_shape StringToNumber data
              then ∃ v, displayResults StringToNumber true c data = Ok (Some v)
                        ∧ match get_opt data "rooms" with
                          | VArr rooms =>
                              ∃ lines, BlueprintPage.rooms v = Some lines
                                       ∧ line_label <$> lines = imap room_label rooms
                          | _ => BlueprintPage.rooms v = None
                          end
              else displayResults StringToNumber true c data = TypeError).
  { unfold displayResults, blueprint_shape, present. cbn [negb].
    rewrite !(get_cases data). destruct (nullish data) eqn:Ed; [reflexivity|].
    run_binds. cbn [negb andb]. rewrite !positive_or_cases.
    rewrite (fixed_or_cases (get_opt data "total_cost")).
    unfold converted. rewrite convertible_or by reflexivity.
    pose proof (each_line_cases 0) as Hlines.
    destruct (get_opt data "rooms") as [| |b|n|t|rooms|fs] eqn:Erooms;
      [| | | | |specialize (Hlines rooms);
                destruct (forallb (blueprint_room_shape StringToNumber) rooms);
                [destruct Hlines as (lines & -> & Hlabels)|by rewrite Hlines]|];
      run_binds; cbn [andb];
      (destruct (blueprint_figure _ (get_opt data "total_floor_area"));
       [|reflexivity]);
      run_binds; cbn [andb];
      (destruct (blueprint_figure _ (get_opt data "total_paintable_area"));
       [|reflexivity]);
      run_binds; cbn [andb];
      (destruct (blueprint_figure _ (get_opt data "total_paint_required_liters"));
       [|reflexivity]);
      run_binds; cbn [andb];
      (destruct (convertible (get_opt data "total_rooms")); run_binds;
       [|reflexivity]);
      cbn [andb];
      (destruct (quantity_or_missing (get_opt data "total_cost")); [|reflexivity]);
      run_binds; eexists; (split; [reflexivity|]); try reflexivity.
    exists lines. split; [reflexivity|exact Hlabels]. }
  destruct (blueprint_shape StringToNumber data); split; try done.
Qed.

End Blueprint.

Lemma blueprint_results_list_rooms_witness :
  ∃ v, BlueprintPage.displayResults unread true
         {| BlueprintPage.ceiling_height := "10"; BlueprintPage.paint_type := "interior";
            BlueprintPage.include_ceiling := false |}
         (VObj [("rooms", VArr [VObj [("name", VStr "Bedroom")]; VObj []]);
                ("total_floor_area", VNum (of_Z 250))])
       = Ok (Some v)
       ∧ ∃ lines, BlueprintPage.rooms v = Some lines
                  ∧ BlueprintPage.line_label <$> lines
                    = [VStr "Bedroom"; VStr "Room 2"].
Proof.
  apply (blueprint_results_list_rooms unread
           {| BlueprintPage.ceiling_height := "10"; BlueprintPage.paint_type := "interior";
              BlueprintPage.include_ceiling := false |}
           (VObj [("rooms", VArr [VObj [("name", VStr "Bedroom")]; VObj []]);
                  ("total_floor_area", VNum (of_Z 250))])).
  reflexivity.
Defined.

(** ** The manual-input modal *)

Section Modal.

Variable StringToNumber : string → number.
Variable parseFloat : ManualInputModal.field → number.

Import ManualInputModal.

#[local] Abbreviation submit := (ManualInputModal.submit parseFloat).
#[local] Abbreviation step := (ManualInputModal.step StringToNumber parseFloat).
#[local] Abbreviation run := (ManualInputModal.run StringToNumber parseFloat).

Lemma show_answers (data : VideoPage.manual_request) (s : state) :
  answers (show StringToNumber data s).1 = answers s.
Proof.
  unfold show. destruct (negb _); [reflexivity|].
  destruct (ToNumber _ _); [|reflexivity].
  destruct (if truthy _ then _ else _); reflexivity.
Qed.

(** [show] raises in the modal exactly when it raises for the video page. *)
Lemma show_raises (data : VideoPage.manual_request) (s : state) :
  (show StringToNumber data s).2
  = match VideoPage.modal_show StringToNumber data with
    | Ok _ => false
    | TypeError => true
    end.
Proof.
  unfold show, VideoPage.modal_show, converted.
  destruct (convertible _); [|reflexivity]. cbn [negb mbind outcome_bind].
  destruct (ToNumber _ _); [|reflexivity]. cbn [mbind outcome_bind].
  destruct (truthy (VideoPage.defaulted _ VNull)); [|reflexivity].
  destruct (get _ "height") as [height|]; [|reflexivity]. cbn [mbind outcome_bind].
  destruct (truthy height); [|reflexivity].
  destruct height; reflexivity.
Qed.

Lemma step_usable (s : state) (e : event) :
  Forall usable_answer (answers s) → Forall usable_answer (answers (step s e)).
Proof.
  intros Hs. destruct e as [|data|text| |]; cbn [ManualInputModal.step].
  - exact Hs.
  - by rewrite show_answers.
  - exact Hs.
  - unfold ManualInputModal.submit.
    destruct (JsNum.truthy (parseFloat (ceilingHeight s))) eqn:E; [|exact Hs].
    simpl. destruct (onSubmitCallback s); [|exact Hs].
    apply Forall_app. split; [exact Hs|]. by repeat constructor.
  - unfold skip. simpl. destruct (onSubmitCallback s); [|exact Hs].
    apply Forall_app. split; [exact Hs|]. by repeat constructor.
Qed.

(** X22.  The answers of the manual-input modal.  Whatever is done with the
    modal, a measured height handed to the callback is neither zero nor
    NaN.  Submitting and skipping both close the modal and clear its input;
    a submit whose input reads as zero or as NaN hands nothing to the
    callback, and a skip hands it the notice that the user skipped. *)
Theorem modal_answers_are_usable (es : list event) (s : state) :
  Forall usable_answer (answers (run created es))
  ∧ (active (submit s) = false ∧ ceilingHeight (submit s) = Typed "")
  ∧ (active (skip s) = false ∧ ceilingHeight (skip s) = Typed "")
  ∧ (JsNum.truthy (parseFloat (ceilingHeight s)) = false →
     answers (submit s) = answers s)
  ∧ (onSubmitCallback s = true → answers (skip s) = answers s ++ [Skipped]).
Proof.
  split; [|split; [|split; [|split]]].
  - assert (H0 : Forall usable_answer (answers created)) by constructor.
    revert H0. generalize created.
    induction es as [|e es IH]; intros s0 H0; simpl; [exact H0|].
    apply IH. by apply step_usable.
  - split; reflexivity.
  - split; reflexivity.
  - intros H. unfold ManualInputModal.submit. by rewrite H.
  - intros H. unfold skip. simpl. by rewrite H.
Qed.

End Modal.

Lemma modal_answers_are_usable_witness :
  ManualInputModal.answers
    (ManualInputModal.skip
       (ManualInputModal.onSubmit ManualInputModal.created))
  = [ManualInputModal.Skipped].
Proof.
  apply (modal_answers_are_usable unread (λ _, NaN) []
           (ManualInputModal.onSubmit ManualInputModal.created)).
  reflexivity.
Defined.

(** ** The manual form: what a refused request shows *)

Section Refusal.

Variable NumberToString : number → string.

Import ManualFlow.

#[local] Abbreviation settle := (ManualFlow.settle NumberToString true true).

Lemma ToString_objects (faults : list (list (string * value))) :
  Forall (λ fault, has_key "toString" fault = false) faults →
  ToString NumberToString (VArr (VObj <$> faults))
  = Ok (String.concat "," (replicate (List.length faults) "[object Object]")).
Proof.
  intros H. cbn [ToString].
  replace (mapM _ (VObj <$> faults))
    with (Ok (replicate (List.length faults) "[object Object]") : outcome (list string));
    [reflexivity|].
  induction H as [|fault faults Hfault _ IH]; [reflexivity|].
  cbn [fmap list_fmap mapM nullish mbind outcome_bind mret outcome_ret List.length replicate].
  cbn [ToString]. rewrite Hfault.
  cbn [mbind outcome_bind mret outcome_ret].
  cbn [fmap list_fmap] in IH. rewrite <- IH. reflexivity.
Qed.

Lemma listed_objects_not_empty (n : nat) :
  String.eqb (String.concat "," (replicate (S n) "[object Object]")) "" = false.
Proof. cbn [replicate String.concat]. destruct (replicate n _); reflexivity. Qed.

(** X23.  What a refused request of the manual form shows.  When the
    response is not ok and its body is not [null], nothing is written, the
    overlay is hidden and one toast is added, an error toast.  Its text is
    the [message] of the body when that is a string that is not empty;
    without a truthy [message] it is the [detail] when that is such a
    string, and "Request failed" when the [detail] is falsy too.  A
    [detail] that is a list of objects, one for each fault found in the
    request, is shown as "[object Object]" once for each of them. *)
Theorem refused_request_shows_reason (data : value) (s : state) :
  nullish data = false →
  let message := get_opt data "message" in
  let detail := get_opt data "detail" in
  let s' := settle (App.Replied false (Some data)) s in
  App.written s' = App.written s
  ∧ App.loading s' = false
  ∧ ∃ t, App.toasts s' = App.toasts s ++ [{| App.shown_text := t; App.kind := "error" |}]
         ∧ (∀ m, message = VStr m → m ≠ "" → t = App.Literal m)
         ∧ (truthy message = false →
            (∀ d, detail = VStr d → d ≠ "" → t = App.Literal d)
            ∧ (truthy detail = false → t = App.Literal "Request failed")
            ∧ (∀ faults, detail = VArr (VObj <$> faults) → faults ≠ [] →
                 Forall (λ fault, has_key "toString" fault = false) faults →
                 t = App.Literal
                       (String.concat ","
                          (replicate (List.length faults) "[object Object]")))).
Proof.
  intros Hdata message detail s'.
  unfold s', ManualFlow.settle, App.apiCall.
  rewrite !(get_cases data), Hdata. cbn [mbind outcome_bind mret outcome_ret].
  fold message detail.
  set (e := match ToString NumberToString _ with
            | Ok reason => App.Thrown (App.Error reason)
            | TypeError => App.Thrown (App.Engine App.TypeFault)
            end).
  assert (He : ∃ x, e = App.Thrown x
                    ∧ ∀ m, ToString NumberToString (or message (or detail (VStr "Request failed")))
                           = Ok m →
                           App.message_or x "Failed to calculate estimation"
                           = App.Literal (if String.eqb m "" then
                                            "Failed to calculate estimation"
                                          else m)).
  { unfold e. destruct (ToString _ _) as [reason|]; eexists;
      (split; [reflexivity|]); [by intros m [= <-]|discriminate]. }
  destruct He as (x & -> & Hx).
  split; [reflexivity|]. split; [reflexivity|].
  exists (App.message_or x "Failed to calculate estimation").
  split; [reflexivity|]. split.
  - intros m Hm Hne. rewrite (Hx m).
    + by destruct (String.eqb_spec m "").
    + rewrite Hm. unfold or. cbn [truthy].
      by destruct (String.eqb_spec m "").
  - intros Hfalsy. unfold or in Hx. rewrite Hfalsy in Hx. split; [|split].
    + intros d Hd Hne. rewrite (Hx d).
      * by destruct (String.eqb_spec d "").
      * rewrite Hd. cbn [truthy]. by destruct (String.eqb_spec d "").
    + intros Hdetail. rewrite Hdetail in Hx. by rewrite (Hx "Request failed").
    + intros faults Hd Hne Hplain. rewrite Hd in Hx. cbn [truthy] in Hx.
      rewrite (Hx _ (ToString_objects faults Hplain)).
      destruct faults as [|fault faults]; [done|].
      cbn [List.length]. by rewrite listed_objects_not_empty.
Qed.

End Refusal.

Lemma refused_request_shows_reason_witness :
  App.toasts
    (ManualFlow.settle (λ _, "0") true true
       (App.Replied false
          (Some (VObj [("detail",
                        VArr [VObj [("loc", VArr [VStr "body"; VStr "num_coats"]);
                                    ("msg", VStr "value is not a valid integer")];
                              VObj [("loc", VArr [VStr "body"; VStr "room"; VStr "length"]);
                                    ("msg", VStr "value is not a valid float")]])])))
       ManualFlow.initial)
  = [{| App.shown_text := App.Literal "[object Object],[object Object]";
        App.kind := "error" |}].
Proof.
  destruct (refused_request_shows_reason (λ _, "0")
              (VObj [("detail",
                      VArr [VObj [("loc", VArr [VStr "body"; VStr "num_coats"]);
                                  ("msg", VStr "value is not a valid integer")];
                            VObj [("loc", VArr [VStr "body"; VStr "room"; VStr "length"]);
                                  ("msg", VStr "value is not a valid float")]])])
              ManualFlow.initial eq_refl) as (_ & _ & t & Ht & _ & Hdetail).
  destruct (Hdetail eq_refl) as (_ & _ & Hfaults).
  rewrite (Hfaults [[("loc", VArr [VStr "body"; VStr "num_coats"]);
                     ("msg", VStr "value is not a valid integer")];
                    [("loc", VArr [VStr "body"; VStr "room"; VStr "length"]);
                     ("msg", VStr "value is not a valid float")]]
             eq_refl ltac:(discriminate) ltac:(repeat constructor)) in Ht.
  exact Ht.
Defined.
